(** * scribd-pdf-downloader: a shallow embedding of the acquisition engine

    The development follows the Python modules of the repository:
    - [scribdl.py]: the static retriever ([get_doc_id], [sanitize_title],
      [extract_jsonp_content], [save_content], [get_scribd_document]);
    - [selenium_downloader.py]: the browser-driven downloader
      ([_setup_driver], [_auto_scroll_and_load], [download_as_pdf],
      [_create_blank_pdf], [_merge_pdfs], [download_as_html],
      [_extract_doc_id], [download_with_selenium]);
    - [gui.py]: the thread that runs a download ([DownloadThread.run]).

    Python [str] values are modelled by [string]: sequences of code points
    below 256.  On that range the only characters of Unicode category Nd
    (what [\d] matches in a [str] pattern) are the ten ASCII digits.
    Everything outside the program (the browser, the network, the file
    system, the third-party PDF libraries) is an explicit parameter. *)

From Stdlib Require Import String Ascii List ZArith Lia Bool Arith DecimalString.
From Stdlib Require DecimalNat.
From stdpp Require Import gmap strings list fin_maps.

Import ListNotations.
Local Open Scope string_scope.
Local Open Scope list_scope.

(** String concatenation computes under [simpl] in this file. *)
#[local] Arguments String.append !s1 s2 : simpl nomatch.

(* ===================================================================== *)
(** * Part I: the embedding                                               *)
(* ===================================================================== *)

(** ** Python string primitives *)

(** The double quote, written by its code so that it can sit inside the
    string constants below. *)
Definition dquote : ascii := "034"%char.
Definition newline : ascii := "010"%char.

(** The six characters backslash, u, 0, 0, 2, F (a JSON-escaped slash). *)
Definition escaped_slash : string := "\" +:+ "u002F".

(** [s.startswith(p)], keeping what follows the prefix. *)
Fixpoint drop_prefix (p s : string) : option string :=
  match p with
  | EmptyString => Some s
  | String a p' =>
      match s with
      | EmptyString => None
      | String b s' => if Ascii.eqb a b then drop_prefix p' s' else None
      end
  end.

Definition startswith (p s : string) : bool :=
  match drop_prefix p s with Some _ => true | None => false end.

(** [p in s] (substring test). *)
Fixpoint contains (p s : string) : bool :=
  if startswith p s then true
  else match s with
       | EmptyString => false
       | String _ s' => contains p s'
       end.

(** [s.find(p)]: the index of the leftmost occurrence; [None] stands for
    the [-1] of Python. *)
Fixpoint find (p s : string) : option nat :=
  if startswith p s then Some 0
  else match s with
       | EmptyString => None
       | String _ s' => option_map S (find p s')
       end.

(** [s[i:j]] for non-negative [i] and [j]; empty when [j <= i]. *)
Definition slice (i j : nat) (s : string) : string := String.substring i (j - i) s.

Definition endswith (p s : string) : bool :=
  match drop_prefix p (String.substring (String.length s - String.length p) (String.length p) s) with
  | Some _ => Nat.leb (String.length p) (String.length s)
  | None => false
  end.

(** [s.replace(old, new)] for a non-empty [old]: occurrences are replaced
    from left to right and do not overlap.  [skip] counts the characters of
    a replaced occurrence that are still to be stepped over. *)
Fixpoint replace_from (old new : string) (skip : nat) (s : string) : string :=
  match s with
  | EmptyString => EmptyString
  | String c s' =>
      match skip with
      | S k => replace_from old new k s'
      | O =>
          if startswith old s
          then new +:+ replace_from old new (String.length old - 1) s'
          else String c (replace_from old new 0 s')
      end
  end.

Definition replace (old new s : string) : string := replace_from old new 0 s.

(** ** Regular-expression classes *)

(** [\d] on code points below 256. *)
Definition is_digit (c : ascii) : bool :=
  let n := nat_of_ascii c in Nat.leb 48 n && Nat.leb n 57.

(** [\s] on code points below 256: tab, LF, VT, FF, CR, the four
    separators 0x1c..0x1f, space, NEL and the no-break space. *)
Definition is_space (c : ascii) : bool :=
  let n := nat_of_ascii c in
  (Nat.leb 9 n && Nat.leb n 13) || (Nat.leb 28 n && Nat.leb n 32)
  || Nat.eqb n 133 || Nat.eqb n 160.

(** Greedy [\d*]: the longest run of digits at the head of [s]. *)
Fixpoint take_digits (s : string) : string :=
  match s with
  | EmptyString => EmptyString
  | String c s' => if is_digit c then String c (take_digits s') else EmptyString
  end.

(** ** Locator: [(?:doc|document|embeds)/(\d+)] *)

Definition literals : list string := ["doc"; "document"; "embeds"].

(** One branch of the alternation followed by [/(\d+)], anchored at the
    head of [s]; the result is group 1. *)
Definition match_alternative (lit s : string) : option string :=
  match drop_prefix lit s with
  | None => None
  | Some r =>
      match drop_prefix "/" r with
      | None => None
      | Some r' =>
          match take_digits r' with
          | EmptyString => None
          | ds => Some ds
          end
      end
  end.

(** The alternation tries its branches in the order they are written. *)
Fixpoint first_alternative (lits : list string) (s : string) : option string :=
  match lits with
  | [] => None
  | l :: ls =>
      match match_alternative l s with
      | Some g => Some g
      | None => first_alternative ls s
      end
  end.

Definition match_here (s : string) : option string := first_alternative literals s.

(** [re.search]: the match at the leftmost start position. *)
Fixpoint re_search (s : string) : option string :=
  match match_here s with
  | Some g => Some g
  | None =>
      match s with
      | EmptyString => None
      | String _ s' => re_search s'
      end
  end.

Inductive level := INFO | WARNING | ERROR.

Definition log_record : Type := level * string.

(** [scribdl.get_doc_id], with the records it sends to the logger. *)
Definition get_doc_id_logged (url : string) : option string * list log_record :=
  match re_search url with
  | Some doc_id =>
      (Some doc_id,
       if contains "/document/" url || contains "/doc/" url then
         [(INFO, "Extracted document ID: " +:+ doc_id);
          (INFO, "Converting to embed URL for better compatibility")]
       else if contains "/embeds/" url then
         [(INFO, "Using embed URL directly with ID: " +:+ doc_id)]
       else [])
  | None => (None, [(ERROR, "Could not extract document ID from URL: " +:+ url)])
  end.

Definition get_doc_id (url : string) : option string := fst (get_doc_id_logged url).

Definition embed_url (doc_id : string) : string :=
  "https://www.scribd.com/embeds/" +:+ doc_id +:+ "/content".

(** [ScribdSeleniumDownloader._extract_doc_id], with its log records. *)
Definition extract_doc_id_logged (url : string) : option string * list log_record :=
  match re_search url with
  | Some doc_id =>
      (Some doc_id,
       if contains "/document/" url || contains "/doc/" url then
         [(INFO, "Extracted document ID: " +:+ doc_id);
          (INFO, "Will use embed URL: " +:+ embed_url doc_id)]
       else if contains "/embeds/" url then
         [(INFO, "Using embed URL directly with ID: " +:+ doc_id)]
       else [])
  | None => (None, [(ERROR, "Could not extract document ID from URL: " +:+ url)])
  end.

Definition extract_doc_id (url : string) : option string := fst (extract_doc_id_logged url).

(** ** Title sanitizer *)

Definition forbidden_chars : string := " *" +:+ String dquote "/\<>:|?".

Definition replace_char : string := "_".

(** [for ch in forbidden_chars: title = title.replace(ch, replace_char)] *)
Definition sanitize_title (title : string) : string :=
  fold_left (fun t ch => replace (String ch EmptyString) replace_char t)
            (list_ascii_of_string forbidden_chars) title.

(** ** Static retriever: [get_scribd_document] *)

(** What BeautifulSoup hands back for the fetched markup:
    [soup.find("title")] with its text, and [s.string] for every [s] of
    [soup.find_all("script")]. *)
Record markup := {
  title_tag : option string;
  scripts : list (option string)
}.

Inductive sink := ImageSink | HtmlSink | TextSink.

(** What the run asks of the outside world, in order. *)
Inductive request :=
| FetchDocument (target_url : string)
| Save (to : sink) (jsonp : string) (title : string) (train : nat).

(** [check_stop and check_stop()]: the callback is optional; the n-th poll
    of a run answers [f n]. *)
Definition poll (check_stop : option (nat -> bool)) (polls : nat) : bool * nat :=
  match check_stop with
  | None => (false, polls)
  | Some f => (f polls, S polls)
  end.

Definition sink_of_mode (mode : string) : sink :=
  if String.eqb mode "images" then ImageSink
  else if String.eqb mode "html" then HtmlSink
  else TextSink.

(** [save_content]: the new value of [train] and the request made. *)
Definition save_content (jsonp mode : string) (train : nat) (title : string)
  : nat * list request :=
  match jsonp with
  | EmptyString => (train, [])
  | _ => (S train, [Save (sink_of_mode mode) jsonp title train])
  end.

(** [s.string and "window.page" in s.string and "_callback" in s.string] *)
Definition is_legacy_script (s : option string) : bool :=
  match s with
  | None => false
  | Some body =>
      negb (String.eqb body "") && contains "window.page" body && contains "_callback" body
  end.

Definition has_legacy_callback (scripts : list (option string)) : bool :=
  existsb is_legacy_script scripts.

(** The loop of the legacy branch: the text from the first ["https://"] to
    the first [".jsonp"] of each script body. *)
Fixpoint legacy_loop (check_stop : option (nat -> bool)) (mode title : string)
    (scripts : list (option string)) (train polls : nat) : list request :=
  match scripts with
  | [] => []
  | opening :: rest =>
      let (stop, polls) := poll check_stop polls in
      if stop then []
      else
        match opening with
        | None | Some EmptyString => legacy_loop check_stop mode title rest train polls
        | Some inner_opening =>
            match find "https://" inner_opening, find ".jsonp" inner_opening with
            | Some portion1, Some portion2 =>
                let jsonp := slice portion1 (portion2 + 6) inner_opening in
                let (train, reqs) := save_content jsonp mode train title in
                reqs ++ legacy_loop check_stop mode title rest train polls
            | _, _ => legacy_loop check_stop mode title rest train polls
            end
        end
  end.

(** Characters up to the first double quote, and what follows that quote. *)
Fixpoint until_quote (s : string) : option (string * string) :=
  match s with
  | EmptyString => None
  | String c s' =>
      if Ascii.eqb c dquote then Some (EmptyString, s')
      else match until_quote s' with
           | Some (body, rest) => Some (String c body, rest)
           | None => None
           end
  end.

Fixpoint skip_spaces (s : string) : string :=
  match s with
  | EmptyString => EmptyString
  | String c s' => if is_space c then skip_spaces s' else s
  end.

(** The pattern [contentUrl:\s*"(https://[^"]+\.jsonp)"] anchored at the
    head of [s]: group 1 and the length of the whole match.  The class
    [[^"]+] cannot cross a quote, so the closing quote of a match is the
    first quote after ["https://"]. *)
Definition match_content_url (s : string) : option (string * nat) :=
  match drop_prefix "contentUrl:" s with
  | None => None
  | Some r =>
      match drop_prefix (String dquote "") (skip_spaces r) with
      | None => None
      | Some r1 =>
          match drop_prefix "https://" r1 with
          | None => None
          | Some r2 =>
              match until_quote r2 with
              | None => None
              | Some (body, rest) =>
                  if endswith ".jsonp" body && Nat.ltb 6 (String.length body)
                  then Some ("https://" +:+ body, String.length s - String.length rest)
                  else None
              end
          end
      end
  end.

(** [re.findall]: matches from left to right, the scan resuming after each
    match. *)
Fixpoint findall_from (skip : nat) (s : string) : list string :=
  match s with
  | EmptyString => []
  | String _ s' =>
      match skip with
      | S k => findall_from k s'
      | O =>
          match match_content_url s with
          | Some (g, len) => g :: findall_from (len - 1) s'
          | None => findall_from 0 s'
          end
      end
  end.

Definition findall_content_url (s : string) : list string := findall_from 0 s.

(** [for jsonp in matches: ...] of the structured branch; a stop request
    leaves this inner loop only. *)
Fixpoint structured_matches (check_stop : option (nat -> bool)) (mode title : string)
    (matches : list string) (train polls : nat) : list request * nat * nat :=
  match matches with
  | [] => ([], train, polls)
  | jsonp :: rest =>
      let jsonp := replace escaped_slash "/" jsonp in
      let (stop, polls) := poll check_stop polls in
      if stop then ([], train, polls)
      else
        let (train, reqs) := save_content jsonp mode train title in
        let '(more, train, polls) := structured_matches check_stop mode title rest train polls in
        (reqs ++ more, train, polls)
  end.

Fixpoint structured_loop (check_stop : option (nat -> bool)) (mode title : string)
    (scripts : list (option string)) (train polls : nat) : list request :=
  match scripts with
  | [] => []
  | s :: rest =>
      let (stop, polls) := poll check_stop polls in
      if stop then []
      else
        match s with
        | None | Some EmptyString => structured_loop check_stop mode title rest train polls
        | Some body =>
            let '(reqs, train, polls) :=
              structured_matches check_stop mode title (findall_content_url body) train polls in
            reqs ++ structured_loop check_stop mode title rest train polls
        end
  end.

Inductive form := Legacy | Structured.

(** Descriptor discovery of [get_scribd_document] (from [scripts =
    soup.find_all("script")] to the end of the two loops): which encoding
    was used, and the content requests it led to. *)
Definition discover (check_stop : option (nat -> bool)) (mode title : string)
    (scripts : list (option string)) : form * list request :=
  if has_legacy_callback scripts
  then (Legacy, legacy_loop check_stop mode title scripts 1 0)
  else (Structured, structured_loop check_stop mode title scripts 1 0).

(** [get_scribd_document]: [fetch] is [requests.get] followed by
    [raise_for_status] and the parse, [None] when either raises.  The text,
    image and HTML files written by the sinks are outside this trace. *)
Definition get_scribd_document (fetch : string -> option markup)
    (check_stop : option (nat -> bool)) (url mode : string) : list request :=
  match get_doc_id url with
  | None => []
  | Some doc_id =>
      let target_url := if String.eqb mode "html" then embed_url doc_id else url in
      FetchDocument target_url ::
      match fetch target_url with
      | None => []
      | Some soup =>
          let title :=
            match title_tag soup with
            | None => "Scribd_Document_" +:+ doc_id
            | Some t => t
            end in
          let title := sanitize_title title in
          snd (discover check_stop mode title (scripts soup))
      end
  end.

(** ** Lazy-load driver: [_auto_scroll_and_load] *)

(** The browser session as the downloader sees it.  [D] is the state of
    the session together with the page it shows; reading the height, the
    offset or the page count does not change it, scrolling and waiting
    do (lazy content arrives while the loop sleeps). *)
Class WebDriver (D : Type) := {
  get_page_height : D -> Z;       (* document.body.scrollHeight *)
  get_scroll_position : D -> Z;   (* window.pageYOffset *)
  scroll_to : Z -> D -> D;        (* window.scrollTo(0, position) *)
  count_loaded_pages : D -> Z;    (* len(find_elements(CLASS_NAME, "outer_page")) *)
  sleep : D -> D                  (* time.sleep(scroll_pause) *)
}.

(** The local variables of the loop. *)
Record scroll_state := {
  last_height : Z;
  scroll_position : Z;
  page_count : Z;
  no_new_content_count : Z
}.

(** How the loop was left: the stop callback, or the end-of-document test,
    with the truth of its two disjuncts
    (a) [current_position + 1080 >= new_height and no_new_content_count >= 3]
    (b) [scroll_position >= new_height]. *)
Inductive loop_exit :=
| StoppedByUser
| ReachedEnd (cond_a cond_b : bool).

Section AutoScroll.
Context {D : Type} `{WebDriver D}.

(** The state of the session after [k] rounds of scroll-and-wait, the
    k-th scrolling to [800 * k]. *)
Fixpoint session_after (d : D) (k : nat) : D :=
  match k with
  | O => d
  | S k' => sleep (scroll_to (800 * Z.of_nat k) (session_after d k'))
  end.

(** The [while True] loop; [fuel] bounds the number of iterations and
    [None] means that it ran out. *)
Fixpoint auto_scroll_loop (fuel : nat) (check_stop : option (D -> bool))
    (st : scroll_state) (d : D) : option (loop_exit * scroll_state * D) :=
  match fuel with
  | O => None
  | S fuel' =>
      if match check_stop with Some f => f d | None => false end
      then Some (StoppedByUser, st, d)
      else
        let pages_before := count_loaded_pages d in
        let scroll_position := (scroll_position st + 800)%Z in
        let d := sleep (scroll_to scroll_position d) in
        let pages_after := count_loaded_pages d in
        let page_count :=
          if (pages_before <? pages_after)%Z then pages_after else page_count st in
        let no_new_content_count :=
          if (pages_before <? pages_after)%Z then 0%Z
          else (no_new_content_count st + 1)%Z in
        let new_height := get_page_height d in
        let current_position := get_scroll_position d in
        let cond_a :=
          (new_height <=? current_position + 1080)%Z && (3 <=? no_new_content_count)%Z in
        let cond_b := (new_height <=? scroll_position)%Z in
        if cond_a || cond_b
        then Some (ReachedEnd cond_a cond_b,
                   {| last_height := last_height st;
                      scroll_position := scroll_position;
                      page_count := page_count;
                      no_new_content_count := no_new_content_count |}, d)
        else auto_scroll_loop fuel' check_stop
               {| last_height := new_height;
                  scroll_position := scroll_position;
                  page_count := page_count;
                  no_new_content_count := no_new_content_count |} d
  end.

Definition initial_scroll_state (d : D) : scroll_state :=
  {| last_height := get_page_height d;
     scroll_position := 0;
     page_count := 0;
     no_new_content_count := 0 |}.

(** The whole run, with the way the loop was left. *)
Definition auto_scroll_run (fuel : nat) (check_stop : option (D -> bool)) (d : D)
  : option (loop_exit * scroll_state * D) :=
  auto_scroll_loop fuel check_stop (initial_scroll_state d) d.

(** [_auto_scroll_and_load]: the returned [page_count]. *)
Definition auto_scroll_and_load (fuel : nat) (check_stop : option (D -> bool)) (d : D)
  : option Z :=
  match auto_scroll_run fuel check_stop d with
  | Some (_, st, _) => Some (page_count st)
  | None => None
  end.

(** The height read in iteration [k+1] of a run that is still going. *)
Definition height_read (d : D) (k : nat) : Z := get_page_height (session_after d (S k)).

End AutoScroll.

(** A page to run the loop on: a body of a fixed height in a viewport of
    1080 pixels, a fixed number of materialized pages, and the flag that
    the stop callback reads.  The browser clamps the scroll offset. *)
Record static_page := {
  body_height : Z;
  offset : Z;
  materialized : Z;
  stop_requested : bool
}.

#[export] Instance static_page_driver : WebDriver static_page := {
  get_page_height p := body_height p;
  get_scroll_position p := offset p;
  scroll_to y p :=
    {| body_height := body_height p;
       offset := Z.max 0 (Z.min y (body_height p - 1080));
       materialized := materialized p;
       stop_requested := stop_requested p |};
  count_loaded_pages p := materialized p;
  sleep p := p
}.

(** ** Page capturer and assembler: [download_as_pdf] *)

(** A path is the list of its components: [os.path.dirname] drops the last
    one and [os.path.join] adds one. *)
Abbreviation path := (list string).

Definition dirname (p : path) : path := removelast p.

Definition parent (p : path) : option path :=
  match p with
  | [] => None
  | _ => Some (removelast p)
  end.

(** The files (with their bytes) and the directories that the downloader
    itself reads and writes.  What the programs it starts keep in their
    own directories (the driver cache of webdriver_manager, the profile of
    Chrome, the packages of pip) is not followed here. *)
Record file_system := {
  files : gmap (list string) string;
  dirs : gset (list string)
}.

Definition write_file (p : path) (data : string) (fs : file_system) : file_system :=
  {| files := <[p := data]> (files fs); dirs := dirs fs |}.

(** What a write that raised half-way leaves at [p], if anything. *)
Definition leave (residue : option string) (p : path) (fs : file_system) : file_system :=
  match residue with
  | Some data => write_file p data fs
  | None => fs
  end.

(** [os.makedirs(d, exist_ok=True)]: [d] and the missing ancestors. *)
Fixpoint ancestors (d : path) (upto : nat) : list path :=
  match upto with
  | O => []
  | S n => firstn upto d :: ancestors d n
  end.

Definition makedirs (d : path) (fs : file_system) : file_system :=
  {| files := files fs; dirs := list_to_set (ancestors d (length d)) ∪ dirs fs |}.

Definition dir_is_empty (d : path) (fs : file_system) : bool :=
  bool_decide (map_Forall (fun p (_ : string) => parent p ≠ Some d) (files fs))
  && bool_decide (set_Forall (fun p => parent p ≠ Some d) (dirs fs)).

(** [f"page_{i:03d}.pdf"] *)
Definition format_03d (i : nat) : string :=
  let s := NilEmpty.string_of_uint (Nat.to_uint i) in
  String.concat "" (repeat "0" (3 - String.length s)) +:+ s.

Definition page_file_name (i : nat) : string := "page_" +:+ format_03d i +:+ ".pdf".

(** The literal [minimal_pdf] of [_create_blank_pdf]. *)
Definition minimal_pdf : string :=
  String.concat (String newline "")
    [ "%PDF-1.4";
      "1 0 obj<</Type/Catalog/Pages 2 0 R>>endobj";
      "2 0 obj<</Type/Pages/Count 1/Kids[3 0 R]>>endobj";
      "3 0 obj<</Type/Page/Parent 2 0 R/MediaBox[0 0 612 792]>>endobj";
      "xref";
      "0 4";
      "0000000000 65535 f";
      "0000000009 00000 n";
      "0000000052 00000 n";
      "0000000101 00000 n";
      "trailer<</Size 4/Root 1 0 R>>";
      "startxref";
      "169";
      "%%EOF" ].

(** PyPDF2 as the downloader uses it: reading the pages of a file (what
    [PdfMerger.append] does, [None] when it raises) and serialising a list
    of pages ([PdfMerger.write]). *)
Class PdfLibrary (page : Type) := {
  read_pdf : string -> option (list page);
  write_pdf : list page -> string
}.

(** One capture method on one attempt: the bytes it wrote, or a failure
    and what it left in the file. *)
Inductive capture_result :=
| CaptureOk (data : string)
| CaptureFails (residue : option string).

(** What [_create_blank_pdf] meets. *)
Inductive blank_result :=
| ReportlabSaves (data : string)              (* the canvas was drawn and saved *)
| ReportlabRaises (residue : option string)   (* [except Exception]: logged *)
| NoReportlabWriteOk                          (* [except ImportError]: minimal_pdf written *)
| NoReportlabWriteRaises (residue : option string). (* ... and that write raised *)

Inductive pypdf2_state :=
| Importable
| NotInstalled (pip_install_ok : bool).

Inductive write_result :=
| WriteOk
| WriteRaises (residue : option string).

Inductive completion := Normal | Exception.

Definition max_retries : nat := 3.

(** ** Starting the browser: [_setup_driver] *)

Inductive launch_result :=
| Launched        (* the driver is up and its page-load timeout is set *)
| LaunchRaises    (* installing the driver or starting Chrome raised *)
| TimeoutRaises.  (* Chrome was started, then set_page_load_timeout raised *)

Inductive setup_action :=
| Launch (attempt : nat)
| QuitSession (session : nat)   (* self.driver.quit() in the except clause *)
| SleepTwo.                     (* time.sleep(2) *)

(** [for attempt in range(max_retries)] of [_setup_driver]; [driver] is
    [self.driver], the session being named by the attempt that started
    it.  The result says whether the function returned or raised. *)
Fixpoint setup_attempts (launch : nat -> launch_result) (attempts : list nat)
    (driver : option nat) : completion * option nat * list setup_action :=
  match attempts with
  | [] => (Normal, driver, [])
  | attempt :: rest =>
      match launch attempt with
      | Launched => (Normal, Some attempt, [Launch attempt])
      | failure =>
          let driver :=
            match failure with TimeoutRaises => Some attempt | _ => driver end in
          let quit :=
            match driver with Some s => [QuitSession s] | None => [] end in
          if Nat.ltb attempt (max_retries - 1) then
            let '(c, driver, acts) := setup_attempts launch rest driver in
            (c, driver, Launch attempt :: quit ++ SleepTwo :: acts)
          else (Exception, driver, Launch attempt :: quit)
      end
  end.

Definition setup_driver (launch : nat -> launch_result)
  : completion * option nat * list setup_action :=
  setup_attempts launch (seq 0 max_retries) None.

Definition is_launch (a : setup_action) : bool :=
  match a with Launch _ => true | _ => false end.

Definition is_sleep (a : setup_action) : bool :=
  match a with SleepTwo => true | _ => false end.

(** [self._setup_driver()] on a downloader that has no session yet: the
    two imports, which raise when webdriver_manager is missing, and then
    the retry loop. *)
Definition start_driver (installed : bool) (launch : nat -> launch_result)
  : completion * option nat * list setup_action :=
  if installed then setup_driver launch else (Exception, None, []).

(** The answers of the outside world during one run of [download_as_pdf];
    pages are numbered from 1 and attempts from 0, as in the code. *)
Record environment := {
  webdriver_manager : bool;                       (* the imports of _setup_driver *)
  chrome : nat -> launch_result;                  (* the attempts of _setup_driver *)
  document_loads : bool;                          (* driver.get and the WebDriverWait *)
  stop_after_scroll : bool;                       (* check_stop() after _auto_scroll_and_load *)
  pages_found : nat;                              (* len(_get_page_elements()) *)
  temp_dir_created : bool;                        (* os.makedirs *)
  stop_before_page : nat -> bool;                 (* check_stop() at the top of the page loop *)
  scroll_into_view : nat -> bool;                 (* _scroll_to_element: false when it raises *)
  print_to_pdf : nat -> nat -> capture_result;    (* Page.printToPDF, then the file write *)
  screenshot_pdf : nat -> nat -> capture_result;  (* _capture_as_image_pdf *)
  blank_pdf : nat -> blank_result;
  pypdf2 : pypdf2_state;
  merger_write : write_result;                    (* merger.write(output_path) *)
  remove_allowed : list string -> bool;           (* os.remove does not raise on an existing file *)
  rmdir_allowed : bool
}.

Inductive action :=
| Navigate (url : string)
| PrintToPDF (page attempt : nat)
| Screenshot (page attempt : nat)
| Pause (page attempt : nat)          (* time.sleep(1) between attempts *)
| GiveUp (page : nat)                 (* "Failed to capture page i after 3 attempts" *)
| CreateBlank (page : nat)
| Merge (pdf_files : list path)
| Remove (p : path)
| Rmdir (d : path)
| Setup (a : setup_action)            (* what _setup_driver did *)
| Quit.                               (* self.driver.quit() in the finally clause *)

(** Whether [_setup_driver] returns. *)
Definition returns (started : completion * option nat * list setup_action) : bool :=
  match started with
  | (Normal, _, _) => true
  | (Exception, _, _) => false
  end.

Definition driver_starts (env : environment) : bool :=
  returns (start_driver (webdriver_manager env) (chrome env)).

(** The [finally] clause of the two downloaders:
    [if self.driver: self.driver.quit()]. *)
Definition finally_quit (driver : option nat) : list action :=
  match driver with
  | Some _ => [Quit]
  | None => []
  end.

(** [for attempt in range(max_retries)], over the attempts still to make:
    whether the page was captured, the file system and the actions. *)
Fixpoint capture_attempts (env : environment) (i : nat) (p : path)
    (attempts : list nat) (fs : file_system) : bool * file_system * list action :=
  match attempts with
  | [] => (false, fs, [])
  | attempt :: rest =>
      match print_to_pdf env i attempt with
      | CaptureOk data => (true, write_file p data fs, [PrintToPDF i attempt])
      | CaptureFails r1 =>
          let fs := leave r1 p fs in
          match screenshot_pdf env i attempt with
          | CaptureOk data =>
              (true, write_file p data fs, [PrintToPDF i attempt; Screenshot i attempt])
          | CaptureFails r2 =>
              let fs := leave r2 p fs in
              let '(captured, fs, acts) := capture_attempts env i p rest fs in
              (captured, fs,
               PrintToPDF i attempt :: Screenshot i attempt ::
               (if Nat.ltb attempt (max_retries - 1) then Pause i attempt else GiveUp i)
               :: acts)
          end
      end
  end.

(** [_create_blank_pdf] *)
Definition create_blank_pdf (env : environment) (i : nat) (p : path) (fs : file_system)
  : completion * file_system :=
  match blank_pdf env i with
  | ReportlabSaves data => (Normal, write_file p data fs)
  | ReportlabRaises residue => (Normal, leave residue p fs)
  | NoReportlabWriteOk => (Normal, write_file p minimal_pdf fs)
  | NoReportlabWriteRaises residue => (Exception, leave residue p fs)
  end.

Inductive page_exit := NextPage | ReturnFalse | Raised.

(** The body of [for i, page in enumerate(pages, 1)]. *)
Definition capture_page (env : environment) (temp_dir : path) (i : nat)
    (fs : file_system) (temp_pdfs : list path)
  : page_exit * file_system * list path * list action :=
  if stop_before_page env i then (ReturnFalse, fs, temp_pdfs, [])
  else if negb (scroll_into_view env i) then (Raised, fs, temp_pdfs, [])
  else
    let temp_pdf_path := temp_dir ++ [page_file_name i] in
    let '(captured, fs, acts) :=
      capture_attempts env i temp_pdf_path (seq 0 max_retries) fs in
    if captured then (NextPage, fs, temp_pdfs ++ [temp_pdf_path], acts)
    else
      match create_blank_pdf env i temp_pdf_path fs with
      | (Normal, fs) => (NextPage, fs, temp_pdfs ++ [temp_pdf_path], acts ++ [CreateBlank i])
      | (Exception, fs) => (Raised, fs, temp_pdfs, acts ++ [CreateBlank i])
      end.

Fixpoint capture_pages (env : environment) (temp_dir : path) (indices : list nat)
    (fs : file_system) (temp_pdfs : list path)
  : page_exit * file_system * list path * list action :=
  match indices with
  | [] => (NextPage, fs, temp_pdfs, [])
  | i :: rest =>
      match capture_page env temp_dir i fs temp_pdfs with
      | (NextPage, fs, temp_pdfs, acts) =>
          let '(ex, fs, temp_pdfs, more) := capture_pages env temp_dir rest fs temp_pdfs in
          (ex, fs, temp_pdfs, acts ++ more)
      | stopped => stopped
      end
  end.

Section Assembler.
Context {page : Type} `{PdfLibrary page}.

(** [for pdf in pdf_files: merger.append(pdf)]: the pages gathered so
    far, [None] when a file is missing or unreadable. *)
Fixpoint merger_append (fs : file_system) (pdf_files : list path) (merger : list page)
  : option (list page) :=
  match pdf_files with
  | [] => Some merger
  | pdf :: rest =>
      match files fs !! pdf with
      | None => None
      | Some data =>
          match read_pdf data with
          | None => None
          | Some pages => merger_append fs rest (merger ++ pages)
          end
      end
  end.

(** The [try] body of [_merge_pdfs] once PyPDF2 is imported. *)
Definition merge_with_pypdf2 (env : environment) (pdf_files : list path)
    (output_path : path) (fs : file_system) : completion * file_system :=
  match merger_append fs pdf_files [] with
  | None => (Exception, fs)
  | Some pages =>
      match merger_write env with
      | WriteOk => (Normal, write_file output_path (write_pdf pages) fs)
      | WriteRaises residue => (Exception, leave residue output_path fs)
      end
  end.

(** [_merge_pdfs]: on [ImportError] PyPDF2 is installed with pip and the
    merge retried; a failing pip raises.  The packages that pip installs
    are not among the files followed here. *)
Definition merge_pdfs (env : environment) (pdf_files : list path)
    (output_path : path) (fs : file_system) : completion * file_system :=
  match pypdf2 env with
  | Importable => merge_with_pypdf2 env pdf_files output_path fs
  | NotInstalled true => merge_with_pypdf2 env pdf_files output_path fs
  | NotInstalled false => (Exception, fs)
  end.

(** [os.remove(pdf)] inside [try: ... except: pass]. *)
Definition remove_quietly (env : environment) (pdf : path) (fs : file_system)
  : file_system :=
  match files fs !! pdf with
  | Some _ =>
      if remove_allowed env pdf
      then {| files := delete pdf (files fs); dirs := dirs fs |}
      else fs
  | None => fs
  end.

(** [os.rmdir(temp_dir)] inside [try: ... except: pass]. *)
Definition rmdir_quietly (env : environment) (d : path) (fs : file_system)
  : file_system :=
  if bool_decide (d ∈ dirs fs) && dir_is_empty d fs && rmdir_allowed env
  then {| files := files fs; dirs := dirs fs ∖ {[d]} |}
  else fs.

Definition cleanup (env : environment) (temp_dir : path) (temp_pdfs : list path)
    (fs : file_system) : file_system :=
  rmdir_quietly env temp_dir (fold_left (fun fs pdf => remove_quietly env pdf fs) temp_pdfs fs).

(** From ["Merging PDFs..."] to [return True], with the [except] clause
    of [download_as_pdf] that turns an exception into [False]. *)
Definition merge_and_cleanup (env : environment) (temp_dir : path)
    (temp_pdfs : list path) (output_path : path) (fs : file_system)
  : bool * file_system * list action :=
  match merge_pdfs env temp_pdfs output_path fs with
  | (Exception, fs) => (false, fs, [Merge temp_pdfs])
  | (Normal, fs) =>
      (true, cleanup env temp_dir temp_pdfs fs,
       Merge temp_pdfs :: map Remove temp_pdfs ++ [Rmdir temp_dir])
  end.

(** The [try] body of [download_as_pdf] once the driver is up, with the
    [except] clause that turns an exception into [False].  Lazy loading
    itself is the loop modelled above; here it shows through the pages
    that were found afterwards. *)
Definition download_as_pdf_try (env : environment) (url : string) (output_path : path)
    (fs : file_system) : bool * file_system * list action :=
  match extract_doc_id url with
  | None => (false, fs, [])
  | Some doc_id =>
      let nav := Navigate (embed_url doc_id) in
      if negb (document_loads env) then (false, fs, [nav])
      else if stop_after_scroll env then (false, fs, [nav])
      else
        match pages_found env with
        | O => (false, fs, [nav])
        | n =>
            let temp_dir := dirname output_path ++ ["temp_" +:+ doc_id] in
            if negb (temp_dir_created env) then (false, fs, [nav])
            else
              let fs := makedirs temp_dir fs in
              match capture_pages env temp_dir (seq 1 n) fs [] with
              | (NextPage, fs, temp_pdfs, acts) =>
                  let '(ok, fs, more) :=
                    merge_and_cleanup env temp_dir temp_pdfs output_path fs in
                  (ok, fs, nav :: acts ++ more)
              | (_, fs, _, acts) => (false, fs, nav :: acts)
              end
        end
  end.

(** [download_as_pdf]: the returned flag, the file system it leaves and
    what it did.  When [_setup_driver] raises, the [except] clause
    answers [False]; the [finally] clause runs in every case, on whatever
    session [self.driver] holds. *)
Definition download_as_pdf (env : environment) (url : string) (output_path : path)
    (fs : file_system) : bool * file_system * list action :=
  match start_driver (webdriver_manager env) (chrome env) with
  | (Exception, driver, setup) => (false, fs, map Setup setup ++ finally_quit driver)
  | (Normal, driver, setup) =>
      let '(ok, fs, acts) := download_as_pdf_try env url output_path fs in
      (ok, fs, map Setup setup ++ acts ++ finally_quit driver)
  end.
End Assembler.

(** ** Vocabulary of the specification *)

Definition all_digits (s : string) : bool := forallb is_digit (list_ascii_of_string s).

Definition starts_with_digit (s : string) : bool :=
  match s with
  | EmptyString => false
  | String c _ => is_digit c
  end.

(** A reference begins at the head of [s]: one of the three literals, a
    slash and a digit. *)
Definition reference_here (s : string) : Prop :=
  exists lit d r, In lit literals /\ is_digit d = true /\ s = lit +:+ "/" +:+ String d r.

(** [s.split("/")]: the path segments of a URL. *)
Fixpoint split_slash (s : string) : list string :=
  match s with
  | EmptyString => [EmptyString]
  | String c s' =>
      if Ascii.eqb c "/" then EmptyString :: split_slash s'
      else match split_slash s' with
           | seg :: segs => String c seg :: segs
           | [] => [String c EmptyString]
           end
  end.

Definition numeric_segment (seg : string) : bool :=
  negb (String.eqb seg "") && all_digits seg.

(** The first segment that is one of the literals and is followed by a
    numeric segment; the result is that numeric segment. *)
Fixpoint segment_reference (segs : list string) : option string :=
  match segs with
  | lit :: ((num :: _) as rest) =>
      if existsb (String.eqb lit) literals && numeric_segment num then Some num
      else segment_reference rest
  | _ => None
  end.

Definition reference_segment (url : string) : option string :=
  segment_reference (split_slash url).

(** The suffix of [s] from position [k]. *)
Fixpoint string_drop (k : nat) (s : string) : string :=
  match k, s with
  | S k', String _ s' => string_drop k' s'
  | _, _ => s
  end.

(** No reference begins at any of the first [n] positions of [s]. *)
Definition no_reference_before (n : nat) (s : string) : bool :=
  forallb (fun k => match match_here (string_drop k s) with None => true | Some _ => false end)
          (seq 0 n).

Definition string_map (f : ascii -> ascii) : string -> string :=
  fix go (s : string) : string :=
    match s with
    | EmptyString => EmptyString
    | String c s' => String (f c) (go s')
    end.

(** The ten characters the specification lists: space, [*], the double
    quote, [/], the backslash, [<], [>], [:], [|] and [?]. *)
Definition forbidden (c : ascii) : bool :=
  existsb (Ascii.eqb c) [" "; "*"; dquote; "/"; "\"; "<"; ">"; ":"; "|"; "?"]%char.

Definition sanitize_char (c : ascii) : ascii := if forbidden c then "_"%char else c.

(** A script body carries the legacy marker [window.page<N>_callback]. *)
Definition legacy_marker (body : string) : Prop :=
  exists pre n post,
    body = pre +:+ "window.page" +:+ n +:+ "_callback" +:+ post
    /\ n <> "" /\ all_digits n = true.

Definition is_fetch (r : request) : bool :=
  match r with FetchDocument _ => true | Save _ _ _ _ => false end.

(** Sample inputs. *)
Definition price_action_url : string :=
  "https://www.scribd.com/document/799698609/Price-Action".

Definition offline : string -> option markup := fun _ => None.

(** A page of height 5000 showing three pages, nobody asking to stop. *)
Definition tall_page : static_page :=
  {| body_height := 5000; offset := 0; materialized := 3; stop_requested := false |}.

(** A page on which two pages are materialized from the start, with the
    stop flag already raised when the loop begins. *)
Definition two_pages_stopping : static_page :=
  {| body_height := 5000; offset := 0; materialized := 2; stop_requested := true |}.

(** A script in the legacy encoding (the one of the repository's tests). *)
Definition legacy_script : string :=
  "window.page1_callback([...]); var x = 'https://html2-f.scribdassets.com/8u7q15n1q8z07to/pages/1-a9de44b065.jsonp';".

Definition is_print (a : action) : bool :=
  match a with PrintToPDF _ _ => true | _ => false end.

Definition is_screenshot (a : action) : bool :=
  match a with Screenshot _ _ => true | _ => false end.

Definition empty_fs : file_system := {| files := ∅; dirs := ∅ |}.

(** A stand-in for PyPDF2 on which runs can be computed: a file that
    begins with [%PDF] holds one page, its own text; anything else does
    not parse; a merged document lists its pages one per line. *)
#[export] Instance line_pdf : PdfLibrary string := {
  read_pdf data := if startswith "%PDF" data then Some [data] else None;
  write_pdf pages := String.concat (String newline "") pages
}.

Definition printed (i : nat) : string := "%PDF page " +:+ format_03d i.

(** Example 5 of the specification: ten pages, the fourth of which fails
    every attempt of both methods; reportlab is not installed. *)
Definition example5 : environment := {|
  webdriver_manager := true;
  chrome := fun _ => Launched;
  document_loads := true;
  stop_after_scroll := false;
  pages_found := 10;
  temp_dir_created := true;
  stop_before_page := fun _ => false;
  scroll_into_view := fun _ => true;
  print_to_pdf := fun i _ => if Nat.eqb i 4 then CaptureFails None else CaptureOk (printed i);
  screenshot_pdf := fun _ _ => CaptureFails None;
  blank_pdf := fun _ => NoReportlabWriteOk;
  pypdf2 := Importable;
  merger_write := WriteOk;
  remove_allowed := fun _ => true;
  rmdir_allowed := true
|}.

(** The same run with reportlab installed and raising when the canvas is
    saved. *)
Definition reportlab_raising : environment := {|
  webdriver_manager := true;
  chrome := fun _ => Launched;
  document_loads := true;
  stop_after_scroll := false;
  pages_found := 10;
  temp_dir_created := true;
  stop_before_page := fun _ => false;
  scroll_into_view := fun _ => true;
  print_to_pdf := fun i _ => if Nat.eqb i 4 then CaptureFails None else CaptureOk (printed i);
  screenshot_pdf := fun _ _ => CaptureFails None;
  blank_pdf := fun _ => ReportlabRaises None;
  pypdf2 := Importable;
  merger_write := WriteOk;
  remove_allowed := fun _ => true;
  rmdir_allowed := true
|}.

Definition downloads_pdf : path := ["downloads"; "Scribd_799698609.pdf"].

Definition downloads_temp : path := ["downloads"; "temp_799698609"].

(** The components of what [capture_page] and [capture_pages] return. *)
Definition exit_of (r : page_exit * file_system * list path * list action) : page_exit :=
  fst (fst (fst r)).
Definition fs_of (r : page_exit * file_system * list path * list action) : file_system :=
  snd (fst (fst r)).
Definition pdfs_of (r : page_exit * file_system * list path * list action) : list path :=
  snd (fst r).
Definition actions_of (r : page_exit * file_system * list path * list action) : list action :=
  snd r.

(** The components of what [download_as_pdf] returns. *)
Definition flag_of (r : bool * file_system * list action) : bool := fst (fst r).
Definition final_fs (r : bool * file_system * list action) : file_system := snd (fst r).

(** Every attempt on page [i] fails in both methods. *)
Definition all_attempts_fail (env : environment) (i : nat) : Prop :=
  forall attempt, attempt < max_retries ->
    exists r1 r2, print_to_pdf env i attempt = CaptureFails r1
                  /\ screenshot_pdf env i attempt = CaptureFails r2.

(** The run gets as far as ["Merging PDFs..."], with the file system [fs1]
    and the artifacts [temp_pdfs] in the scratch directory [temp_dir]. *)
Definition reaches_merge (env : environment) (url : string) (output_path : path)
    (fs : file_system) (temp_dir : path) (fs1 : file_system) (temp_pdfs : list path) : Prop :=
  driver_starts env = true /\ document_loads env = true
  /\ stop_after_scroll env = false /\ temp_dir_created env = true
  /\ exists doc_id n acts,
       extract_doc_id url = Some doc_id /\ pages_found env = S n
       /\ temp_dir = dirname output_path ++ ["temp_" +:+ doc_id]
       /\ capture_pages env temp_dir (seq 1 (S n)) (makedirs temp_dir fs) []
          = (NextPage, fs1, temp_pdfs, acts).

(** Two artifacts on disk: a printed page and the placeholder. *)
Definition two_artifacts : list path :=
  [downloads_temp ++ [page_file_name 1]; downloads_temp ++ [page_file_name 2]].

Definition two_artifacts_fs : file_system :=
  write_file (downloads_temp ++ [page_file_name 2]) minimal_pdf
    (write_file (downloads_temp ++ [page_file_name 1]) (printed 1) empty_fs).

(** The page loop of Example 5, up to the merge. *)
Definition example5_captured : page_exit * file_system * list path * list action :=
  capture_pages example5 downloads_temp (seq 1 10) (makedirs downloads_temp empty_fs) [].

(** ** Vocabulary for the further properties *)

(** The ordinals and the URLs of the content requests of a trace. *)
Fixpoint save_trains (reqs : list request) : list nat :=
  match reqs with
  | [] => []
  | Save _ _ _ train :: rest => train :: save_trains rest
  | FetchDocument _ :: rest => save_trains rest
  end.

Fixpoint save_urls (reqs : list request) : list string :=
  match reqs with
  | [] => []
  | Save _ jsonp _ _ :: rest => jsonp :: save_urls rest
  | FetchDocument _ :: rest => save_urls rest
  end.

(** No character of [s] is in the forbidden set. *)
Definition clean (s : string) : Prop :=
  forall i c, String.get i s = Some c -> forbidden c = false.

(** A document whose only script is in the legacy encoding. *)
Definition legacy_document : string -> option markup :=
  fun _ => Some {| title_tag := Some "A title"; scripts := [Some legacy_script] |}.

(** The actions of the page loop. *)
Definition is_capture_action (a : action) : bool :=
  match a with
  | PrintToPDF _ _ | Screenshot _ _ | Pause _ _ | GiveUp _ | CreateBlank _ => true
  | _ => false
  end.

(** The scratch file of page [i]. *)
Definition scratch_file (temp_dir : path) (i : nat) : path := temp_dir ++ [page_file_name i].

(** Example 5 with a stop request arriving before the third page. *)
Definition stopping_at_three : environment := {|
  webdriver_manager := true;
  chrome := fun _ => Launched;
  document_loads := true;
  stop_after_scroll := false;
  pages_found := 10;
  temp_dir_created := true;
  stop_before_page := fun i => Nat.eqb i 3;
  scroll_into_view := fun _ => true;
  print_to_pdf := fun i _ => CaptureOk (printed i);
  screenshot_pdf := fun _ _ => CaptureFails None;
  blank_pdf := fun _ => NoReportlabWriteOk;
  pypdf2 := Importable;
  merger_write := WriteOk;
  remove_allowed := fun _ => true;
  rmdir_allowed := true
|}.

(** A page of height 5000 on which a new page materializes with every
    scroll, as long as the viewport still moves. *)
Record growing_page := {
  g_offset : Z;
  g_pages : Z
}.

#[export] Instance growing_page_driver : WebDriver growing_page := {
  get_page_height _ := 5000%Z;
  get_scroll_position p := g_offset p;
  scroll_to y p :=
    {| g_offset := Z.max 0 (Z.min y 3920);
       g_pages := if (g_offset p <? Z.max 0 (Z.min y 3920))%Z
                  then (g_pages p + 1)%Z else g_pages p |};
  count_loaded_pages p := g_pages p;
  sleep p := p
}.

Definition first_view : growing_page := {| g_offset := 0; g_pages := 1 |}.

(** What the loop has established after [n] increments on the session
    [d]: the distance scrolled, where [page_count] comes from, and the
    range of the counter. *)
Definition scrolled `{WebDriver D} (d : D) (n : nat) (st : scroll_state) : Prop :=
  scroll_position st = (800 * Z.of_nat n)%Z
  /\ (page_count st = 0%Z
      \/ exists k, k < n
           /\ page_count st = count_loaded_pages (session_after d (S k))
           /\ (count_loaded_pages (session_after d k)
               < count_loaded_pages (session_after d (S k)))%Z)
  /\ (0 <= no_new_content_count st <= Z.of_nat n)%Z.

(** ** The JSONP payload: [extract_jsonp_content] *)

(** Index of the last closing parenthesis followed by a semicolon in [s]:
    where the greedy group of the pattern, which crosses line ends under
    [re.DOTALL], has to stop. *)
Fixpoint last_close (s : string) : option nat :=
  match s with
  | EmptyString => None
  | String _ s' =>
      match last_close s' with
      | Some k => Some (S k)
      | None => if startswith ");" s then Some 0 else None
      end
  end.

(** The pattern of [extract_jsonp_content] anchored at the head of [s]:
    [window.page], one or more digits, [_callback], an opening
    parenthesis, the greedy group 1, a closing parenthesis and a
    semicolon.  The result is group 1. *)
Definition match_callback_here (s : string) : option string :=
  match drop_prefix "window.page" s with
  | None => None
  | Some r =>
      match take_digits r with
      | EmptyString => None
      | ds =>
          match drop_prefix "_callback(" (string_drop (String.length ds) r) with
          | None => None
          | Some rest =>
              match last_close rest with
              | None => None
              | Some k => Some (String.substring 0 k rest)
              end
          end
      end
  end.

Fixpoint search_callback (s : string) : option string :=
  match match_callback_here s with
  | Some g => Some g
  | None =>
      match s with
      | EmptyString => None
      | String _ s' => search_callback s'
      end
  end.

(** The values of [json.loads]. *)
#[local] Unset Elimination Schemes.
Inductive json :=
| JNull
| JBool (b : bool)
| JNumber (literal : string)
| JString (s : string)
| JArray (items : list json)
| JObject (members : list (string * json)).
#[local] Set Elimination Schemes.

(** [extract_jsonp_content]; [json_loads] is [json.loads], [None] when it
    raises [JSONDecodeError]. *)
Definition extract_jsonp_content (json_loads : string -> option json) (response : string)
  : option json :=
  match search_callback response with
  | None => None
  | Some json_str =>
      match json_loads json_str with
      | Some (JArray (first :: _)) => Some first
      | _ => None
      end
  end.

(** ** The other browser mode and the entry point *)

Record html_environment := {
  h_webdriver_manager : bool;
  h_chrome : nat -> launch_result;
  h_document_loads : bool;
  h_stop_after_scroll : bool;
  page_source : option string;   (* driver.page_source, [None] when it raises *)
  html_write : write_result      (* open(output_path, 'w') and f.write *)
}.

Definition h_driver_starts (env : html_environment) : bool :=
  returns (start_driver (h_webdriver_manager env) (h_chrome env)).

(** The [try] body of [download_as_html] once the driver is up, with its
    [except] clause. *)
Definition download_as_html_try (env : html_environment) (url : string)
    (output_path : path) (fs : file_system) : bool * file_system * list action :=
  match extract_doc_id url with
  | None => (false, fs, [])
  | Some doc_id =>
      let nav := Navigate (embed_url doc_id) in
      if negb (h_document_loads env) then (false, fs, [nav])
      else if h_stop_after_scroll env then (false, fs, [nav])
      else
        match page_source env with
        | None => (false, fs, [nav])
        | Some html_content =>
            match html_write env with
            | WriteOk => (true, write_file output_path html_content fs, [nav])
            | WriteRaises residue => (false, leave residue output_path fs, [nav])
            end
        end
  end.

(** [download_as_html] *)
Definition download_as_html (env : html_environment) (url : string) (output_path : path)
    (fs : file_system) : bool * file_system * list action :=
  match start_driver (h_webdriver_manager env) (h_chrome env) with
  | (Exception, driver, setup) => (false, fs, map Setup setup ++ finally_quit driver)
  | (Normal, driver, setup) =>
      let '(ok, fs, acts) := download_as_html_try env url output_path fs in
      (ok, fs, map Setup setup ++ acts ++ finally_quit driver)
  end.



Section Selenium.
Context {page : Type} `{PdfLibrary page}.



End Selenium.

(** The actions of the [try] body of a downloader: neither what
    [_setup_driver] did nor the quit of the [finally] clause. *)
Definition is_body_action (a : action) : bool :=
  match a with
  | Setup _ | Quit => false
  | _ => true
  end.

(** Every character of [s] is white space, as [\s*] takes them. *)
Definition all_spaces (s : string) : bool := forallb is_space (list_ascii_of_string s).

(** [s] holds no double quote, as the class of the pattern requires. *)
Definition no_quote (s : string) : bool :=
  forallb (fun c => negb (Ascii.eqb c dquote)) (list_ascii_of_string s).

(** [value] stands in [body] as the quoted value of a [contentUrl:] key:
    the key, white space at most, a quote, the value without any quote in
    it, a quote. *)
Definition content_url_value (body value : string) : Prop :=
  exists pre spaces post,
    body = pre +:+ "contentUrl:" +:+ spaces +:+ String dquote (value +:+ String dquote post)
    /\ all_spaces spaces = true /\ no_quote value = true.

(** A run of the HTML mode in which everything works. *)
Definition saving_html : html_environment := {|
  h_webdriver_manager := true;
  h_chrome := fun _ => Launched;
  h_document_loads := true;
  h_stop_after_scroll := false;
  page_source := Some "<html><body>ten pages</body></html>";
  html_write := WriteOk
|}.

(** Example 5 on a machine where Chrome starts and the page-load timeout
    then cannot be set, at every attempt. *)
Definition timing_out : environment := {|
  webdriver_manager := true;
  chrome := fun _ => TimeoutRaises;
  document_loads := true;
  stop_after_scroll := false;
  pages_found := 10;
  temp_dir_created := true;
  stop_before_page := fun _ => false;
  scroll_into_view := fun _ => true;
  print_to_pdf := fun i _ => if Nat.eqb i 4 then CaptureFails None else CaptureOk (printed i);
  screenshot_pdf := fun _ _ => CaptureFails None;
  blank_pdf := fun _ => NoReportlabWriteOk;
  pypdf2 := Importable;
  merger_write := WriteOk;
  remove_allowed := fun _ => true;
  rmdir_allowed := true
|}.


(* ===================================================================== *)
(** * Part II: the properties                                             *)
(* ===================================================================== *)

Example get_doc_id_example1 :
  get_doc_id "https://www.scribd.com/document/799698609/Price-Action" = Some "799698609".
Proof. reflexivity. Qed.

Example get_doc_id_example2 : get_doc_id "https://example.com/notadoc" = None.
Proof. reflexivity. Qed.

Example sanitize_title_example4 :
  sanitize_title ("My/Title: With*Forbidden" +:+ String dquote "Chars")
  = "My_Title__With_Forbidden_Chars".
Proof. reflexivity. Qed.

(** ** Strings *)

Lemma append_nil_r (s : string) : s +:+ "" = s.
Proof. induction s as [|c s IH]; simpl; [reflexivity | now rewrite IH]. Qed.

Lemma append_assoc (a b c : string) : (a +:+ b) +:+ c = a +:+ (b +:+ c).
Proof. induction a as [|x a IH]; simpl; [reflexivity | now rewrite IH]. Qed.

Lemma length_append (a b : string) :
  String.length (a +:+ b) = String.length a + String.length b.
Proof. induction a as [|x a IH]; simpl; [reflexivity | now rewrite IH]. Qed.

Lemma drop_prefix_append (p s : string) : drop_prefix p (p +:+ s) = Some s.
Proof.
  induction p as [|a p IH]; simpl; [reflexivity|].
  now rewrite Ascii.eqb_refl.
Qed.

Lemma drop_prefix_Some (p s r : string) : drop_prefix p s = Some r -> s = p +:+ r.
Proof.
  revert s; induction p as [|a p IH]; intros s Hs; simpl in *.
  - now inversion Hs.
  - destruct s as [|b s]; [discriminate|].
    destruct (Ascii.eqb a b) eqn:E; [|discriminate].
    apply Ascii.eqb_eq in E; subst b. now rewrite (IH _ Hs).
Qed.

Lemma take_digits_append (ds rest : string) :
  all_digits ds = true -> starts_with_digit rest = false ->
  take_digits (ds +:+ rest) = ds.
Proof.
  unfold all_digits. induction ds as [|c ds IH]; simpl; intros Hd Hr.
  - destruct rest as [|c r]; simpl in *; [reflexivity | now rewrite Hr].
  - apply andb_true_iff in Hd as [Hc Hd]. rewrite Hc. now rewrite IH.
Qed.

Lemma take_digits_split (s : string) :
  exists rest, s = take_digits s +:+ rest
               /\ all_digits (take_digits s) = true /\ starts_with_digit rest = false.
Proof.
  unfold all_digits. induction s as [|c s (rest & Hs & Hd & Hr)]; simpl.
  - exists ""; auto.
  - destruct (is_digit c) eqn:Hc; simpl.
    + exists rest. rewrite Hc, Hd. repeat split; auto. now rewrite <- Hs.
    + exists (String c s). simpl. auto.
Qed.

Lemma string_drop_append (pre s : string) : string_drop (String.length pre) (pre +:+ s) = s.
Proof. induction pre as [|c pre IH]; simpl; [now destruct s | exact IH]. Qed.

(** ** Locator *)

Lemma get_doc_id_search (url : string) : get_doc_id url = re_search url.
Proof. unfold get_doc_id, get_doc_id_logged. now destruct (re_search url). Qed.

Lemma extract_doc_id_search (url : string) : extract_doc_id url = re_search url.
Proof. unfold extract_doc_id, extract_doc_id_logged. now destruct (re_search url). Qed.

Lemma match_alternative_Some (lit s g : string) :
  match_alternative lit s = Some g ->
  exists rest, s = lit +:+ "/" +:+ g +:+ rest /\ g <> ""
               /\ all_digits g = true /\ starts_with_digit rest = false.
Proof.
  unfold match_alternative. intros Hm.
  destruct (drop_prefix lit s) as [r|] eqn:E1; [|discriminate].
  destruct (drop_prefix "/" r) as [r'|] eqn:E2; [|discriminate].
  apply drop_prefix_Some in E1, E2. subst s r.
  destruct (take_digits_split r') as (rest & Hr & Hd & Hn).
  destruct (take_digits r') as [|c ds] eqn:E3; [discriminate|].
  inversion Hm; subst g. exists rest. rewrite Hr at 1.
  repeat split; auto; discriminate.
Qed.

Lemma match_alternative_reference (lit r : string) (c : ascii) :
  is_digit c = true ->
  exists g, match_alternative lit (lit +:+ "/" +:+ String c r) = Some g.
Proof.
  intros Hc. unfold match_alternative. rewrite drop_prefix_append. simpl. rewrite Hc. eauto.
Qed.

Lemma first_alternative_some (lits : list string) (lit s g : string) :
  In lit lits -> match_alternative lit s = Some g ->
  exists g', first_alternative lits s = Some g'.
Proof.
  induction lits as [|l ls IH]; simpl; [tauto|].
  intros [->|Hin] Hm.
  - rewrite Hm. eauto.
  - destruct (match_alternative l s); eauto.
Qed.

Lemma match_here_Some (s g : string) :
  match_here s = Some g ->
  exists lit rest, In lit literals /\ s = lit +:+ "/" +:+ g +:+ rest /\ g <> ""
                   /\ all_digits g = true /\ starts_with_digit rest = false.
Proof.
  unfold match_here. generalize literals as lits.
  induction lits as [|l ls IH]; simpl; [discriminate|].
  destruct (match_alternative l s) as [g'|] eqn:E.
  - intros Hg; inversion Hg; subst g'.
    destruct (match_alternative_Some _ _ _ E) as (rest & ?). exists l, rest. tauto.
  - intros Hg. destruct (IH Hg) as (lit & rest & Hin & ?). exists lit, rest. tauto.
Qed.

(** Whatever the literal, the group is the digit run that follows it. *)
Lemma match_here_reference (lit g rest : string) :
  In lit literals -> g <> "" -> all_digits g = true -> starts_with_digit rest = false ->
  match_here (lit +:+ "/" +:+ g +:+ rest) = Some g.
Proof.
  intros Hin Hg Hd Hr.
  assert (Ht : take_digits (g +:+ rest) = g) by now apply take_digits_append.
  unfold match_here, literals in *. simpl in Hin.
  destruct Hin as [<-|[<-|[<-|[]]]]; cbn; unfold match_alternative; cbn;
    rewrite Ht; destruct g; congruence.
Qed.

Lemma match_here_None (s : string) : match_here s = None <-> ~ reference_here s.
Proof.
  split.
  - intros Hn (lit & d & r & Hin & Hd & ->).
    destruct (match_alternative_reference lit r d Hd) as (g & Hg).
    destruct (first_alternative_some _ _ _ _ Hin Hg) as (g' & Hg').
    unfold match_here in Hn. congruence.
  - intros Hn. destruct (match_here s) as [g|] eqn:E; [|reflexivity].
    exfalso. apply Hn.
    destruct (match_here_Some _ _ E) as (lit & rest & Hin & -> & Hg & Hd & _).
    destruct g as [|c g]; [congruence|].
    exists lit, c, (g +:+ rest). repeat split; auto.
    unfold all_digits in Hd. simpl in Hd. now apply andb_true_iff in Hd.
Qed.

Lemma re_search_unfold (s : string) :
  re_search s =
  match match_here s with
  | Some g => Some g
  | None => match s with EmptyString => None | String _ s' => re_search s' end
  end.
Proof. now destruct s. Qed.

Lemma re_search_None (s : string) :
  re_search s = None <-> forall pre t, s = pre +:+ t -> ~ reference_here t.
Proof.
  induction s as [|c s IH]; simpl.
  - split.
    + intros Hn pre t Hs. destruct pre; [|discriminate]. simpl in Hs. subst t.
      now apply match_here_None.
    + reflexivity.
  - split.
    + intros Hn pre t Hs.
      destruct (match_here (String c s)) eqn:E; [discriminate|].
      destruct pre as [|c' pre]; simpl in Hs.
      * subst t. now apply match_here_None.
      * inversion Hs; subst c'. apply (proj1 IH Hn pre t); assumption.
    + intros Hall.
      assert (E : match_here (String c s) = None)
        by (apply match_here_None, (Hall "" (String c s)); reflexivity).
      rewrite E. apply IH. intros pre t Hs. apply (Hall (String c pre) t).
      simpl. now rewrite Hs.
Qed.

Lemma re_search_leftmost (pre s g : string) :
  match_here s = Some g ->
  (forall pre' s', pre +:+ s = pre' +:+ s' ->
                   String.length pre' < String.length pre -> ~ reference_here s') ->
  re_search (pre +:+ s) = Some g.
Proof.
  intros Hm. induction pre as [|c pre IH]; intros Hleft; rewrite re_search_unfold.
  - change ("" +:+ s) with s. now rewrite Hm.
  - assert (E : match_here (String c pre +:+ s) = None).
    { apply match_here_None, (Hleft "" (String c pre +:+ s)); [reflexivity | simpl; lia]. }
    rewrite E. simpl. apply IH. intros pre' s' Heq Hlen.
    apply (Hleft (String c pre') s'); [simpl; now rewrite Heq | simpl; lia].
Qed.

Lemma no_reference_before_correct (n : nat) (s : string) :
  no_reference_before n s = true ->
  forall pre t, s = pre +:+ t -> String.length pre < n -> ~ reference_here t.
Proof.
  unfold no_reference_before. intros Hall pre t -> Hlen.
  rewrite forallb_forall in Hall.
  specialize (Hall (String.length pre)).
  rewrite string_drop_append in Hall.
  apply match_here_None.
  destruct (match_here t); [|reflexivity].
  assert (false = true); [|discriminate].
  apply Hall, in_seq. lia.
Qed.

Lemma re_search_Some (s g : string) :
  re_search s = Some g ->
  exists pre lit rest,
    s = pre +:+ lit +:+ "/" +:+ g +:+ rest /\ In lit literals /\ g <> ""
    /\ all_digits g = true /\ starts_with_digit rest = false.
Proof.
  induction s as [|c s IH]; rewrite re_search_unfold.
  - discriminate.
  - destruct (match_here (String c s)) as [g'|] eqn:E.
    + intros Hg; inversion Hg; subst g'.
      destruct (match_here_Some _ _ E) as (lit & rest & Hin & Hs & Hrest).
      exists "", lit, rest. simpl. tauto.
    + intros Hg. destruct (IH Hg) as (pre & lit & rest & -> & Hrest).
      exists (String c pre), lit, rest. simpl. tauto.
Qed.

(** C1, as amended.  [get_doc_id] looks for a reference anywhere in the
    URL, not only at path-segment boundaries: it answers the run of digits
    that follows the leftmost occurrence of [doc], [document] or [embeds]
    followed by a slash and a digit, the same whichever of the three
    literals stands there; every answer arises that way; and it answers
    [None] exactly when the URL has no such occurrence at any position. *)
Theorem get_doc_id_leftmost_reference (url : string) :
  (forall pre lit id rest,
      url = pre +:+ lit +:+ "/" +:+ id +:+ rest ->
      In lit literals -> id <> "" -> all_digits id = true ->
      starts_with_digit rest = false ->
      (forall pre' s', url = pre' +:+ s' ->
                       String.length pre' < String.length pre -> ~ reference_here s') ->
      get_doc_id url = Some id)
  /\ (forall id, get_doc_id url = Some id ->
        exists pre lit rest,
          url = pre +:+ lit +:+ "/" +:+ id +:+ rest /\ In lit literals /\ id <> ""
          /\ all_digits id = true /\ starts_with_digit rest = false)
  /\ (get_doc_id url = None <-> forall pre s, url = pre +:+ s -> ~ reference_here s).
Proof.
  rewrite get_doc_id_search. split; [|split].
  - intros pre lit id rest -> Hin Hid Hd Hr Hleft.
    apply re_search_leftmost; [now apply match_here_reference | exact Hleft].
  - apply re_search_Some.
  - apply re_search_None.
Qed.

Lemma get_doc_id_leftmost_reference_witness :
  get_doc_id price_action_url = Some "799698609".
Proof.
  apply (proj1 (get_doc_id_leftmost_reference price_action_url)
               "https://www.scribd.com/" "document" "799698609" "/Price-Action").
  - reflexivity.
  - simpl; tauto.
  - discriminate.
  - reflexivity.
  - reflexivity.
  - apply no_reference_before_correct. reflexivity.
Defined.

(** C1, as the specification states it, fails: this URL has no path
    segment equal to one of the three literals, and an id is extracted
    from it all the same. *)
Lemma get_doc_id_inside_segment :
  reference_segment "https://example.com/mydoc/123" = None
  /\ get_doc_id "https://example.com/mydoc/123" = Some "123".
Proof. split; reflexivity. Qed.

(** C10.  The extractor of the static module and the one of the browser
    module return the same id, or both fail, on every URL; hence the same
    canonical endpoint. *)
Theorem extractors_agree (url : string) :
  get_doc_id url = extract_doc_id url
  /\ option_map embed_url (get_doc_id url) = option_map embed_url (extract_doc_id url).
Proof. rewrite get_doc_id_search, extract_doc_id_search. split; reflexivity. Qed.

(** The two functions are not one definition: their log records differ. *)
Remark extractors_log_differently :
  snd (get_doc_id_logged price_action_url) <> snd (extract_doc_id_logged price_action_url).
Proof. discriminate. Qed.

(** ** Title sanitizer *)

Lemma string_map_compose (f g : ascii -> ascii) (s : string) :
  string_map g (string_map f s) = string_map (fun c => g (f c)) s.
Proof. induction s as [|c s IH]; simpl; [reflexivity | now rewrite IH]. Qed.

Lemma string_map_ext (f g : ascii -> ascii) (s : string) :
  (forall c, f c = g c) -> string_map f s = string_map g s.
Proof. intros E. induction s as [|c s IH]; simpl; [reflexivity | now rewrite IH, E]. Qed.

Lemma string_map_length (f : ascii -> ascii) (s : string) :
  String.length (string_map f s) = String.length s.
Proof. induction s as [|c s IH]; simpl; [reflexivity | now rewrite IH]. Qed.

Lemma string_map_get (f : ascii -> ascii) (s : string) (i : nat) :
  String.get i (string_map f s) = option_map f (String.get i s).
Proof.
  revert i; induction s as [|c s IH]; intros i; simpl; [reflexivity|].
  destruct i; [reflexivity | apply IH].
Qed.

(** Replacing a one-character string by a one-character string is a map
    over the characters. *)
Lemma replace_single (a b : ascii) (s : string) :
  replace (String a "") (String b "") s
  = string_map (fun c => if Ascii.eqb a c then b else c) s.
Proof.
  unfold replace. induction s as [|c s IH]; [reflexivity|].
  cbn -[Ascii.eqb]. unfold startswith. cbn -[Ascii.eqb].
  destruct (Ascii.eqb a c); cbn; now rewrite IH.
Qed.

Lemma sanitize_title_map (t : string) : sanitize_title t = string_map sanitize_char t.
Proof.
  unfold sanitize_title, replace_char. cbn [forbidden_chars list_ascii_of_string fold_left].
  cbn -[replace Ascii.eqb].
  rewrite !replace_single, !string_map_compose.
  apply string_map_ext.
  intros [[] [] [] [] [] [] [] []]; reflexivity.
Qed.

Lemma sanitize_char_idempotent (c : ascii) : sanitize_char (sanitize_char c) = sanitize_char c.
Proof. destruct c as [[] [] [] [] [] [] [] []]; reflexivity. Qed.

(** C2.  [sanitize_title] puts [_] in the place of every character of the
    forbidden set and keeps every other character, position by position;
    so it keeps the length of the title, and it is idempotent. *)
Theorem sanitize_title_spec (t : string) :
  (forall i, String.get i (sanitize_title t)
             = option_map (fun c => if forbidden c then "_"%char else c) (String.get i t))
  /\ String.length (sanitize_title t) = String.length t
  /\ sanitize_title (sanitize_title t) = sanitize_title t.
Proof.
  rewrite !sanitize_title_map. split; [|split].
  - intros i. apply string_map_get.
  - apply string_map_length.
  - rewrite string_map_compose. apply string_map_ext, sanitize_char_idempotent.
Qed.

(** ** Static retriever *)

Lemma contains_unfold (p s : string) :
  contains p s =
  if startswith p s then true
  else match s with EmptyString => false | String _ s' => contains p s' end.
Proof. now destruct s. Qed.

Lemma contains_here (p post : string) : contains p (p +:+ post) = true.
Proof. rewrite contains_unfold. unfold startswith. now rewrite drop_prefix_append. Qed.

Lemma contains_later (p pre t : string) :
  contains p t = true -> contains p (pre +:+ t) = true.
Proof.
  intros Ht. induction pre as [|c pre IH]; [exact Ht|].
  rewrite contains_unfold. destruct (startswith p (String c pre +:+ t)); [reflexivity|].
  exact IH.
Qed.

Lemma contains_infix (p pre post : string) : contains p (pre +:+ p +:+ post) = true.
Proof. apply contains_later, contains_here. Qed.

(** A body with the marker passes the test of the code, which looks for
    the two halves of the marker separately. *)
Lemma legacy_marker_detected (body : string) :
  legacy_marker body -> is_legacy_script (Some body) = true.
Proof.
  intros (pre & n & post & -> & _ & _). unfold is_legacy_script.
  rewrite contains_infix.
  replace (pre +:+ "window.page" +:+ n +:+ "_callback" +:+ post)
    with ((pre +:+ "window.page" +:+ n) +:+ "_callback" +:+ post)
    by now rewrite !append_assoc.
  rewrite contains_infix.
  destruct pre; reflexivity.
Qed.

Lemma has_legacy_callback_marker (scripts : list (option string)) (body : string) :
  In (Some body) scripts -> legacy_marker body -> has_legacy_callback scripts = true.
Proof.
  intros Hin Hm. unfold has_legacy_callback. apply existsb_exists.
  exists (Some body). split; [exact Hin | now apply legacy_marker_detected].
Qed.

Lemma save_content_no_fetch (jsonp mode title : string) (train : nat) (u : string) :
  ~ In (FetchDocument u) (snd (save_content jsonp mode train title)).
Proof. destruct jsonp; simpl; [tauto | intros [H|[]]; discriminate]. Qed.

Lemma legacy_loop_no_fetch check_stop mode title scripts train polls (u : string) :
  ~ In (FetchDocument u) (legacy_loop check_stop mode title scripts train polls).
Proof.
  revert train polls. induction scripts as [|s scripts IH]; intros train polls; simpl; [tauto|].
  destruct (poll check_stop polls) as [stop polls']. destruct stop; [simpl; tauto|].
  destruct s as [[|c body]|]; try apply IH.
  destruct (find "https://" (String c body)) as [p1|]; try apply IH.
  destruct (find ".jsonp" (String c body)) as [p2|]; try apply IH.
  pose proof (save_content_no_fetch (slice p1 (p2 + 6) (String c body)) mode title train u) as Hs.
  destruct (save_content _ mode train title) as [train' reqs]. simpl in Hs.
  intros Hin. apply in_app_or in Hin as [Hin|Hin]; [tauto | eapply IH, Hin].
Qed.

Lemma structured_matches_no_fetch check_stop mode title ms train polls (u : string) :
  ~ In (FetchDocument u)
      (fst (fst (structured_matches check_stop mode title ms train polls))).
Proof.
  revert train polls. induction ms as [|m ms IH]; intros train polls; simpl; [tauto|].
  destruct (poll check_stop polls) as [stop polls']. destruct stop; [simpl; tauto|].
  pose proof (save_content_no_fetch (replace escaped_slash "/" m) mode title train u) as Hs.
  destruct (save_content _ mode train title) as [train' reqs]. simpl in Hs.
  specialize (IH train' polls').
  destruct (structured_matches check_stop mode title ms train' polls') as [[more t] q].
  simpl in *. intros Hin. apply in_app_or in Hin as [Hin|Hin]; tauto.
Qed.

Lemma structured_loop_no_fetch check_stop mode title scripts train polls (u : string) :
  ~ In (FetchDocument u) (structured_loop check_stop mode title scripts train polls).
Proof.
  revert train polls. induction scripts as [|s scripts IH]; intros train polls; simpl; [tauto|].
  destruct (poll check_stop polls) as [stop polls']. destruct stop; [simpl; tauto|].
  destruct s as [[|c body]|]; try apply IH.
  pose proof (structured_matches_no_fetch check_stop mode title
                (findall_content_url (String c body)) train polls' u) as Hs.
  destruct (structured_matches _ _ _ _ train polls') as [[reqs t] q]. simpl in Hs.
  intros Hin. apply in_app_or in Hin as [Hin|Hin]; [tauto | eapply IH, Hin].
Qed.

Lemma discover_no_fetch check_stop mode title scripts (u : string) :
  ~ In (FetchDocument u) (snd (discover check_stop mode title scripts)).
Proof.
  unfold discover. destruct (has_legacy_callback scripts); simpl;
    [apply legacy_loop_no_fetch | apply structured_loop_no_fetch].
Qed.

(** C7, as amended.  When the document id can be extracted, the run asks
    for exactly one document: in mode [html] the canonical endpoint
    [embeds/<id>/content], in every other static mode (text, images) the
    URL as it was supplied.  When the id cannot be extracted, the run
    asks for nothing at all. *)
Theorem get_scribd_document_target
    (fetch : string -> option markup) (check_stop : option (nat -> bool))
    (url mode : string) :
  (forall doc_id, get_doc_id url = Some doc_id ->
     exists saves,
       get_scribd_document fetch check_stop url mode
       = FetchDocument (if String.eqb mode "html" then embed_url doc_id else url) :: saves
       /\ forall u, ~ In (FetchDocument u) saves)
  /\ (get_doc_id url = None -> get_scribd_document fetch check_stop url mode = []).
Proof.
  unfold get_scribd_document. split.
  - intros doc_id Hid. rewrite Hid.
    eexists. split; [reflexivity|].
    intros u. destruct (fetch _) as [soup|]; [apply discover_no_fetch | simpl; tauto].
  - intros Hid. now rewrite Hid.
Qed.

Lemma get_scribd_document_target_witness :
  (exists saves,
     get_scribd_document offline None price_action_url "html"
     = FetchDocument "https://www.scribd.com/embeds/799698609/content" :: saves
     /\ forall u, ~ In (FetchDocument u) saves)
  /\ get_scribd_document offline None "https://example.com/notadoc" "html" = [].
Proof.
  split.
  - exact (proj1 (get_scribd_document_target offline None price_action_url "html")
             "799698609" eq_refl).
  - exact (proj2 (get_scribd_document_target offline None "https://example.com/notadoc"
                    "html") eq_refl).
Defined.

(** C7, as the specification states it, fails in text mode: the document
    requested is the URL that was supplied, and the canonical endpoint is
    never asked for. *)
Lemma text_mode_fetches_supplied_url :
  get_doc_id price_action_url = Some "799698609"
  /\ hd_error (get_scribd_document offline None price_action_url "text")
     = Some (FetchDocument price_action_url)
  /\ ~ In (FetchDocument (embed_url "799698609"))
          (get_scribd_document offline None price_action_url "text").
Proof.
  split; [reflexivity|]. split; [reflexivity|].
  cbn. intros [H|[]]. discriminate.
Qed.

(** C9.  When some script body carries the marker [window.page<N>_callback]
    the legacy loop alone produces the descriptors, and whenever the
    structured loop is the one that ran, no script carries the marker. *)
Theorem discover_legacy_precedence
    (check_stop : option (nat -> bool)) (mode title : string)
    (scripts : list (option string)) :
  ((exists body, In (Some body) scripts /\ legacy_marker body) ->
   discover check_stop mode title scripts
   = (Legacy, legacy_loop check_stop mode title scripts 1 0))
  /\ (fst (discover check_stop mode title scripts) = Structured ->
      snd (discover check_stop mode title scripts)
      = structured_loop check_stop mode title scripts 1 0
      /\ forall body, In (Some body) scripts -> ~ legacy_marker body).
Proof.
  unfold discover. split.
  - intros (body & Hin & Hm). now rewrite (has_legacy_callback_marker _ _ Hin Hm).
  - destruct (has_legacy_callback scripts) eqn:E; simpl; [discriminate|].
    intros _. split; [reflexivity|].
    intros body Hin Hm. rewrite (has_legacy_callback_marker _ _ Hin Hm) in E. discriminate.
Qed.

Lemma discover_legacy_precedence_witness :
  discover None "text" "T" [Some legacy_script]
  = (Legacy, legacy_loop None "text" "T" [Some legacy_script] 1 0).
Proof.
  apply (proj1 (discover_legacy_precedence None "text" "T" [Some legacy_script])).
  exists legacy_script. split; [left; reflexivity|].
  exists "", "1",
    "([...]); var x = 'https://html2-f.scribdassets.com/8u7q15n1q8z07to/pages/1-a9de44b065.jsonp';".
  split; [reflexivity|]. split; [discriminate | reflexivity].
Defined.

(** ** Lazy-load driver *)

Section AutoScrollFacts.
Context {D : Type} `{WebDriver D}.
Variable check_stop : option (D -> bool).

(** The callback is consulted first: when it answers stop, the loop is
    left at once, nothing scrolled and the state as it was. *)
Lemma auto_scroll_stop_immediate (fuel : nat) (f : D -> bool) (st : scroll_state) (d : D) :
  f d = true ->
  auto_scroll_loop (S fuel) (Some f) st d = Some (StoppedByUser, st, d).
Proof. intros Hf. simpl. now rewrite Hf. Qed.


(** Once the height read is at most the scrolled distance, the second
    disjunct of the test holds and the loop is left. *)
Lemma auto_scroll_loop_returns (d0 : D) (fuel j : nat) (st : scroll_state) :
  scroll_position st = (800 * Z.of_nat j)%Z ->
  (exists i, j <= i < j + fuel /\ (height_read d0 i <= 800 * Z.of_nat (S i))%Z) ->
  exists r, auto_scroll_loop fuel check_stop st (session_after d0 j) = Some r.
Proof.
  revert j st. induction fuel as [|fuel IH]; intros j st Hpos (i & Hi & Hh); [lia|].
  cbn [auto_scroll_loop].
  destruct (match check_stop with Some f => f (session_after d0 j) | None => false end);
    [eauto|].
  cbv zeta.
  replace (scroll_position st + 800)%Z with (800 * Z.of_nat (S j))%Z by lia.
  change (sleep (scroll_to (800 * Z.of_nat (S j)) (session_after d0 j)))
    with (session_after d0 (S j)).
  match goal with |- context [if ?c then _ else _] => destruct c eqn:Ec end; [eauto|].
  apply IH; [reflexivity|].
  apply orb_false_iff in Ec as [_ Eb].
  destruct (Nat.eq_dec i j) as [->|Hne].
  - unfold height_read in Hh. apply Z.leb_gt in Eb. lia.
  - exists i. split; [lia | exact Hh].
Qed.

End AutoScrollFacts.





(** C8 at its failing input: two pages are materialized, the callback
    answers stop at its first poll, and the count returned is 0. *)
Theorem stop_at_first_poll_reports_zero :
  count_loaded_pages two_pages_stopping = 2%Z
  /\ auto_scroll_run 1 (Some stop_requested) two_pages_stopping
     = Some (StoppedByUser, initial_scroll_state two_pages_stopping, two_pages_stopping)
  /\ auto_scroll_and_load 1 (Some stop_requested) two_pages_stopping = Some 0%Z.
Proof. repeat split. Qed.

(** The same happens without any stop request: [page_count] changes only
    when an increment reveals more pages than there were before it. *)
Remark tall_page_reports_zero :
  count_loaded_pages tall_page = 3%Z /\ auto_scroll_and_load 10 None tall_page = Some 0%Z.
Proof. split; reflexivity. Qed.

(** ** Page capturer *)

Lemma lookup_write_file_eq (p : path) (data : string) (fs : file_system) :
  files (write_file p data fs) !! p = Some data.
Proof. apply lookup_insert_eq. Qed.

Lemma lookup_write_file_ne (p q : path) (data : string) (fs : file_system) :
  p ≠ q -> files (write_file p data fs) !! q = files fs !! q.
Proof. intros Hne. now apply lookup_insert_ne. Qed.

Lemma lookup_leave_ne (p q : path) (residue : option string) (fs : file_system) :
  p ≠ q -> files (leave residue p fs) !! q = files fs !! q.
Proof. intros Hne. destruct residue; [now apply lookup_write_file_ne | reflexivity]. Qed.

(** Each attempt asks for one print and at most one screenshot. *)
Lemma capture_attempts_bound (env : environment) (i : nat) (p : path)
    (attempts : list nat) (fs : file_system) :
  length (List.filter is_print (snd (capture_attempts env i p attempts fs))) <= length attempts
  /\ length (List.filter is_screenshot (snd (capture_attempts env i p attempts fs)))
     <= length attempts.
Proof.
  revert fs. induction attempts as [|a rest IH]; intros fs; cbn [capture_attempts]; [auto|].
  destruct (print_to_pdf env i a) as [data|r1]; [cbn; split; lia|].
  destruct (screenshot_pdf env i a) as [data|r2]; [cbn; split; lia|].
  specialize (IH (leave r2 p (leave r1 p fs))).
  destruct (capture_attempts env i p rest (leave r2 p (leave r1 p fs))) as [[c fs'] acts].
  cbn [snd] in *. destruct (Nat.ltb a (max_retries - 1)); cbn; split; lia.
Qed.

Lemma capture_attempts_fail (env : environment) (i : nat) (p : path)
    (attempts : list nat) (fs : file_system) :
  (forall a, In a attempts ->
     exists r1 r2, print_to_pdf env i a = CaptureFails r1
                   /\ screenshot_pdf env i a = CaptureFails r2) ->
  fst (fst (capture_attempts env i p attempts fs)) = false.
Proof.
  revert fs. induction attempts as [|a rest IH]; intros fs Hall; cbn [capture_attempts];
    [reflexivity|].
  destruct (Hall a (or_introl eq_refl)) as (r1 & r2 & -> & ->).
  specialize (IH (leave r2 p (leave r1 p fs)) (fun b Hb => Hall b (or_intror Hb))).
  now destruct (capture_attempts env i p rest (leave r2 p (leave r1 p fs))) as [[c fs'] acts].
Qed.

Lemma capture_page_actions (env : environment) (temp_dir : path) (i : nat)
    (fs : file_system) (temp_pdfs : list path) :
  length (List.filter is_print (actions_of (capture_page env temp_dir i fs temp_pdfs)))
  <= max_retries
  /\ length (List.filter is_screenshot (actions_of (capture_page env temp_dir i fs temp_pdfs)))
     <= max_retries.
Proof.
  unfold capture_page, actions_of.
  destruct (stop_before_page env i); [cbn; lia|].
  destruct (scroll_into_view env i); cbn [negb]; [|cbn; lia].
  pose proof (capture_attempts_bound env i (temp_dir ++ [page_file_name i])
                (seq 0 max_retries) fs) as Hb.
  rewrite List.length_seq in Hb.
  destruct (capture_attempts env i _ (seq 0 max_retries) fs) as [[captured fs'] acts].
  cbn [snd] in Hb. destruct captured; [exact Hb|].
  destruct (create_blank_pdf env i _ fs') as [[] fs'']; cbn [snd];
    rewrite !List.filter_app, !List.length_app; cbn; lia.
Qed.

(** C4, as amended.  A page is tried at most three times by each method.
    When all three attempts fail and [_create_blank_pdf] returns, the page
    contributes exactly one path to [temp_pdfs], its own, and the loop goes
    on to the next page; the file at that path is the placeholder whenever
    one was written: reportlab's page, or [minimal_pdf] when reportlab
    cannot be imported. *)
Theorem capture_page_retries_and_placeholder
    (env : environment) (temp_dir : path) (i : nat)
    (fs : file_system) (temp_pdfs : list path) :
  length (List.filter is_print (actions_of (capture_page env temp_dir i fs temp_pdfs))) <= 3
  /\ length (List.filter is_screenshot (actions_of (capture_page env temp_dir i fs temp_pdfs))) <= 3
  /\ (stop_before_page env i = false -> scroll_into_view env i = true ->
      all_attempts_fail env i ->
      (forall residue, blank_pdf env i <> NoReportlabWriteRaises residue) ->
      exit_of (capture_page env temp_dir i fs temp_pdfs) = NextPage
      /\ pdfs_of (capture_page env temp_dir i fs temp_pdfs)
         = temp_pdfs ++ [temp_dir ++ [page_file_name i]]
      /\ (blank_pdf env i = NoReportlabWriteOk ->
          files (fs_of (capture_page env temp_dir i fs temp_pdfs))
            !! (temp_dir ++ [page_file_name i]) = Some minimal_pdf)
      /\ (forall data, blank_pdf env i = ReportlabSaves data ->
          files (fs_of (capture_page env temp_dir i fs temp_pdfs))
            !! (temp_dir ++ [page_file_name i]) = Some data)).
Proof.
  pose proof (capture_page_actions env temp_dir i fs temp_pdfs) as [Hp Hs].
  split; [exact Hp|]. split; [exact Hs|].
  intros Hstop Hscroll Hfail Hblank.
  unfold capture_page, exit_of, pdfs_of, fs_of. rewrite Hstop, Hscroll. cbn [negb].
  pose proof (capture_attempts_fail env i (temp_dir ++ [page_file_name i])
                (seq 0 max_retries) fs) as Hc.
  destruct (capture_attempts env i _ (seq 0 max_retries) fs) as [[captured fs'] acts].
  cbn [fst] in Hc. rewrite Hc.
  2:{ intros a Ha. apply Hfail. apply in_seq in Ha. lia. }
  unfold create_blank_pdf.
  destruct (blank_pdf env i) as [data|residue| |residue] eqn:Eb; cbn.
  - repeat split; [discriminate|]. intros d Hd. inversion Hd; subst. apply lookup_insert_eq.
  - repeat split; discriminate.
  - repeat split; [|discriminate]. intros _. apply lookup_insert_eq.
  - now destruct (Hblank residue).
Qed.

Lemma capture_page_retries_and_placeholder_witness :
  exit_of (capture_page example5 downloads_temp 4 empty_fs []) = NextPage
  /\ pdfs_of (capture_page example5 downloads_temp 4 empty_fs [])
     = [downloads_temp ++ [page_file_name 4]]
  /\ files (fs_of (capture_page example5 downloads_temp 4 empty_fs []))
       !! (downloads_temp ++ [page_file_name 4]) = Some minimal_pdf.
Proof.
  destruct (capture_page_retries_and_placeholder example5 downloads_temp 4 empty_fs [])
    as (_ & _ & Hpage).
  destruct Hpage as (Hexit & Hpdfs & Hminimal & _).
  - reflexivity.
  - reflexivity.
  - intros attempt _. exists None, None. split; reflexivity.
  - discriminate.
  - split; [exact Hexit|]. split; [exact Hpdfs|]. apply Hminimal. reflexivity.
Defined.

(** C4, as the specification states it, fails: with reportlab installed
    and raising, all three attempts on page 4 having failed, the path of
    the page is appended and no file stands at it. *)
Lemma reportlab_failure_leaves_no_placeholder :
  all_attempts_fail reportlab_raising 4
  /\ exit_of (capture_page reportlab_raising downloads_temp 4 empty_fs []) = NextPage
  /\ pdfs_of (capture_page reportlab_raising downloads_temp 4 empty_fs [])
     = [downloads_temp ++ [page_file_name 4]]
  /\ files (fs_of (capture_page reportlab_raising downloads_temp 4 empty_fs []))
       !! (downloads_temp ++ [page_file_name 4]) = None.
Proof.
  split; [intros attempt _; exists None, None; split; reflexivity|].
  repeat split.
Qed.

(** The offset that [minimal_pdf] declares after [startxref] is 169; its
    cross-reference table begins at offset 164. *)
Remark minimal_pdf_startxref :
  find "xref" minimal_pdf = Some 164
  /\ slice 289 292 minimal_pdf = "169"
  /\ find "startxref" minimal_pdf = Some 279.
Proof. repeat split. Qed.

(** ** Assembler *)

Section AssemblerFacts.
Context {page : Type} `{PdfLibrary page}.

(** The merger gathers the pages of the files in the order of the list. *)
Lemma merger_append_pages (fs : file_system) (pdf_files : list path)
    (pages merger : list page) :
  Forall2 (fun pdf pg => exists data, files fs !! pdf = Some data
                                      /\ read_pdf data = Some [pg]) pdf_files pages ->
  merger_append fs pdf_files merger = Some (merger ++ pages).
Proof.
  intros Hall. revert merger.
  induction Hall as [|pdf pg pdf_files pages (data & Hdata & Hread) _ IH]; intros merger.
  - cbn. now rewrite List.app_nil_r.
  - cbn [merger_append]. rewrite Hdata, Hread, IH. now rewrite <- List.app_assoc.
Qed.

(** C5.  When PyPDF2 can be used and every artifact is a file that reads
    as one page, the document written at the output path consists of
    exactly those pages, one per artifact, in the order of the list,
    whichever of them are placeholders. *)
Theorem merge_pdfs_one_page_per_artifact (env : environment) (pdf_files : list path)
    (output_path : path) (fs : file_system) (pages : list page) :
  pypdf2 env <> NotInstalled false ->
  merger_write env = WriteOk ->
  Forall2 (fun pdf pg => exists data, files fs !! pdf = Some data
                                      /\ read_pdf data = Some [pg]) pdf_files pages ->
  merge_pdfs env pdf_files output_path fs
  = (Normal, write_file output_path (write_pdf pages) fs)
  /\ files (snd (merge_pdfs env pdf_files output_path fs)) !! output_path
     = Some (write_pdf pages)
  /\ length pages = length pdf_files.
Proof.
  intros Hpy Hw Hall.
  assert (Hm : merge_with_pypdf2 env pdf_files output_path fs
               = (Normal, write_file output_path (write_pdf pages) fs)).
  { unfold merge_with_pypdf2. now rewrite (merger_append_pages _ _ _ [] Hall), Hw. }
  assert (He : merge_pdfs env pdf_files output_path fs
               = (Normal, write_file output_path (write_pdf pages) fs)).
  { unfold merge_pdfs. destruct (pypdf2 env) as [|[]]; [exact Hm | exact Hm | congruence]. }
  rewrite He. split; [reflexivity|]. split; [apply lookup_write_file_eq|].
  symmetry. eapply Forall2_length, Hall.
Qed.

(** A merge that raises touches no file but, possibly, the output. *)
Lemma merge_pdfs_exception (env : environment) (pdf_files : list path)
    (output_path : path) (fs fs' : file_system) (p : path) :
  merge_pdfs env pdf_files output_path fs = (Exception, fs') ->
  output_path ≠ p -> files fs' !! p = files fs !! p.
Proof.
  intros Hm Hne.
  assert (Hw : forall r, merge_with_pypdf2 env pdf_files output_path fs = r ->
                         fst r = Exception -> files (snd r) !! p = files fs !! p).
  { intros r <-. unfold merge_with_pypdf2.
    destruct (merger_append fs pdf_files []); [|reflexivity].
    destruct (merger_write env); [discriminate|].
    intros _. now apply lookup_leave_ne. }
  unfold merge_pdfs in Hm.
  destruct (pypdf2 env) as [|[]].
  - exact (Hw _ Hm eq_refl).
  - exact (Hw _ Hm eq_refl).
  - now inversion Hm.
Qed.

Lemma remove_quietly_gone (env : environment) (p q : path) (fs : file_system) :
  files fs !! q = None -> files (remove_quietly env p fs) !! q = None.
Proof.
  intros Hq. unfold remove_quietly.
  destruct (files fs !! p); [|exact Hq].
  destruct (remove_allowed env p); [|exact Hq].
  cbn. destruct (decide (p = q)) as [->|Hne];
    [apply lookup_delete_eq | now rewrite lookup_delete_ne].
Qed.

Lemma remove_quietly_removes (env : environment) (p : path) (fs : file_system) :
  remove_allowed env p = true -> files (remove_quietly env p fs) !! p = None.
Proof.
  intros Hp. unfold remove_quietly.
  destruct (files fs !! p) eqn:E; [|exact E].
  rewrite Hp. apply lookup_delete_eq.
Qed.

Lemma remove_all_gone (env : environment) (pdfs : list path) (q : path)
    (fs : file_system) :
  files fs !! q = None ->
  files (fold_left (fun fs pdf => remove_quietly env pdf fs) pdfs fs) !! q = None.
Proof.
  revert fs. induction pdfs as [|p pdfs IH]; intros fs Hq; [exact Hq|].
  cbn. now apply IH, remove_quietly_gone.
Qed.

Lemma remove_all_removes (env : environment) (pdfs : list path) (q : path)
    (fs : file_system) :
  In q pdfs -> remove_allowed env q = true ->
  files (fold_left (fun fs pdf => remove_quietly env pdf fs) pdfs fs) !! q = None.
Proof.
  revert fs. induction pdfs as [|p pdfs IH]; intros fs Hin Hq; [destruct Hin|].
  cbn. destruct (decide (p = q)) as [->|Hne].
  - now apply remove_all_gone, remove_quietly_removes.
  - destruct Hin as [Heq|Hin]; [contradiction | now apply IH].
Qed.

Lemma rmdir_quietly_files (env : environment) (d : path) (fs : file_system) :
  files (rmdir_quietly env d fs) = files fs.
Proof. unfold rmdir_quietly. now destruct (_ && _ && _). Qed.

Lemma rmdir_quietly_gone (env : environment) (d : path) (fs : file_system) :
  rmdir_allowed env = true ->
  dir_is_empty d (rmdir_quietly env d fs) = true ->
  d ∉ dirs (rmdir_quietly env d fs).
Proof.
  intros Hallowed. unfold rmdir_quietly.
  destruct (bool_decide (d ∈ dirs fs)) eqn:Ein.
  - destruct (dir_is_empty d fs) eqn:Eempty; cbn [andb].
    + rewrite Hallowed. cbn. intros _ [_ Hn]%elem_of_difference.
      now apply Hn, elem_of_singleton.
    + rewrite Eempty. discriminate.
  - cbn [andb]. intros _. now apply bool_decide_eq_false in Ein.
Qed.
End AssemblerFacts.

(** The artifacts all lie in the scratch directory. *)
Lemma capture_page_paths (env : environment) (temp_dir : path) (i : nat)
    (fs : file_system) (temp_pdfs : list path) (p : path) :
  In p (pdfs_of (capture_page env temp_dir i fs temp_pdfs)) ->
  In p temp_pdfs \/ exists name, p = temp_dir ++ [name].
Proof.
  unfold capture_page, pdfs_of.
  destruct (stop_before_page env i); [cbn; auto|].
  destruct (scroll_into_view env i); cbn [negb]; [|cbn; auto].
  destruct (capture_attempts env i _ (seq 0 max_retries) fs) as [[captured fs'] acts].
  assert (Happ : In p (temp_pdfs ++ [temp_dir ++ [page_file_name i]]) ->
                 In p temp_pdfs \/ exists name, p = temp_dir ++ [name]).
  { intros Hin. apply in_app_or in Hin as [Hin|[<-|[]]]; eauto. }
  destruct captured; [exact Happ|].
  destruct (create_blank_pdf env i _ fs') as [[] fs'']; cbn; auto.
Qed.

Lemma capture_pages_paths (env : environment) (temp_dir : path) (indices : list nat)
    (fs : file_system) (temp_pdfs : list path) (p : path) :
  In p (pdfs_of (capture_pages env temp_dir indices fs temp_pdfs)) ->
  In p temp_pdfs \/ exists name, p = temp_dir ++ [name].
Proof.
  revert fs temp_pdfs. induction indices as [|i rest IH]; intros fs temp_pdfs;
    cbn [capture_pages]; [cbn; auto|].
  pose proof (capture_page_paths env temp_dir i fs temp_pdfs p) as Hpage.
  destruct (capture_page env temp_dir i fs temp_pdfs) as [[[ex fs'] pdfs'] acts].
  unfold pdfs_of in Hpage. cbn [fst snd] in Hpage.
  destruct ex; try exact Hpage.
  specialize (IH fs' pdfs').
  destruct (capture_pages env temp_dir rest fs' pdfs') as [[[ex2 fs2] pdfs2] more].
  unfold pdfs_of in *. cbn [fst snd] in *.
  intros Hin. destruct (IH Hin) as [Hold|Hnew]; auto.
Qed.

Lemma removelast_short (A : Type) (l : list A) : length l <= S (length (removelast l)).
Proof.
  induction l as [|x [|y l] IH]; cbn in *; lia.
Qed.

(** A file of the scratch directory is never the output file. *)
Lemma scratch_path_not_output (output_path : path) (sub name : string) :
  output_path ≠ dirname output_path ++ [sub] ++ [name].
Proof.
  intros Heq. apply (f_equal (@length string)) in Heq.
  rewrite !List.length_app in Heq. cbn in Heq.
  pose proof (removelast_short _ output_path). unfold dirname in Heq. lia.
Qed.

(** ** The browser session of a run *)

(** When [_setup_driver] returns, [self.driver] holds a session that was
    never quit; when it raises while [self.driver] holds a session, that
    session was quit in the [except] clause. *)
Lemma start_driver_cases (installed : bool) (launch : nat -> launch_result) :
  (exists a setup, start_driver installed launch = (Normal, Some a, setup)
                   /\ ~ In (QuitSession a) setup)
  \/ (exists driver setup, start_driver installed launch = (Exception, driver, setup)
                           /\ forall s, driver = Some s -> In (QuitSession s) setup).
Proof.
  unfold start_driver. destruct installed.
  2:{ right. exists None, []. split; [reflexivity | discriminate]. }
  unfold setup_driver. cbn [seq max_retries setup_attempts].
  destruct (launch 0); destruct (launch 1); destruct (launch 2); cbn;
    first [ left; eexists _, _; split; [reflexivity|];
            intros Hin; repeat (destruct Hin as [Hin|Hin]; [discriminate|]); exact Hin
          | right; eexists _, _; split; [reflexivity|];
            intros s Hs; inversion Hs; subst; cbn; tauto ].
Qed.

Lemma start_driver_returns (installed : bool) (launch : nat -> launch_result) :
  returns (start_driver installed launch) = true ->
  exists a setup, start_driver installed launch = (Normal, Some a, setup)
                  /\ ~ In (QuitSession a) setup.
Proof.
  destruct (start_driver_cases installed launch)
    as [(a & setup & -> & Hq)|(driver & setup & -> & _)]; [eauto | discriminate].
Qed.

Lemma start_driver_raises (installed : bool) (launch : nat -> launch_result) :
  returns (start_driver installed launch) = false ->
  exists driver setup, start_driver installed launch = (Exception, driver, setup)
                       /\ forall s, driver = Some s -> In (QuitSession s) setup.
Proof.
  destruct (start_driver_cases installed launch)
    as [(a & setup & -> & Hq)|(driver & setup & -> & Hs)]; [discriminate | eauto].
Qed.

Section DownloadFacts.
Context {page : Type} `{PdfLibrary page}.

(** With the driver up, the run is the [try] body, between what
    [_setup_driver] did and the quit of the [finally] clause. *)
Lemma download_as_pdf_started (env : environment) (url : string) (output_path : path)
    (fs : file_system) :
  driver_starts env = true ->
  exists a setup,
    start_driver (webdriver_manager env) (chrome env) = (Normal, Some a, setup)
    /\ ~ In (QuitSession a) setup
    /\ download_as_pdf env url output_path fs
       = (flag_of (download_as_pdf_try env url output_path fs),
          final_fs (download_as_pdf_try env url output_path fs),
          map Setup setup ++ snd (download_as_pdf_try env url output_path fs) ++ [Quit]).
Proof.
  intros Hd. destruct (start_driver_returns _ _ Hd) as (a & setup & E & Hq).
  exists a, setup. split; [exact E|]. split; [exact Hq|].
  unfold download_as_pdf. rewrite E.
  now destruct (download_as_pdf_try env url output_path fs) as [[ok fs'] acts].
Qed.

(** When [_setup_driver] raises, the run ends there: the answer is
    [False] and only the [finally] clause follows. *)
Lemma download_as_pdf_not_started (env : environment) (url : string)
    (output_path : path) (fs : file_system) :
  driver_starts env = false ->
  exists driver setup,
    start_driver (webdriver_manager env) (chrome env) = (Exception, driver, setup)
    /\ (forall s, driver = Some s -> In (QuitSession s) setup)
    /\ download_as_pdf env url output_path fs
       = (false, fs, map Setup setup ++ finally_quit driver).
Proof.
  intros Hd. destruct (start_driver_raises _ _ Hd) as (driver & setup & E & Hs).
  exists driver, setup. split; [exact E|]. split; [exact Hs|].
  unfold download_as_pdf. now rewrite E.
Qed.

Lemma download_as_pdf_reaches_merge (env : environment) (url : string)
    (output_path : path) (fs : file_system) (temp_dir : path) (fs1 : file_system)
    (temp_pdfs : list path) :
  reaches_merge env url output_path fs temp_dir fs1 temp_pdfs ->
  flag_of (download_as_pdf env url output_path fs)
  = flag_of (merge_and_cleanup env temp_dir temp_pdfs output_path fs1)
  /\ final_fs (download_as_pdf env url output_path fs)
     = final_fs (merge_and_cleanup env temp_dir temp_pdfs output_path fs1)
  /\ forall p, In p temp_pdfs -> output_path ≠ p.
Proof.
  intros (Hd & Hl & Hs & Ht & doc_id & n & acts & Hid & Hn & -> & Hcap).
  destruct (download_as_pdf_started env url output_path fs Hd) as (a & setup & _ & _ & ->).
  unfold download_as_pdf_try, flag_of, final_fs. rewrite Hid, Hl, Hs, Hn, Ht. cbn [negb].
  rewrite Hcap.
  destruct (merge_and_cleanup env _ temp_pdfs output_path fs1) as [[ok fs'] more].
  split; [reflexivity|]. split; [reflexivity|].
  intros p Hin.
  pose proof (capture_pages_paths env (dirname output_path ++ ["temp_" +:+ doc_id])
                (seq 1 (S n))
                (makedirs (dirname output_path ++ ["temp_" +:+ doc_id]) fs) [] p) as Hp.
  rewrite Hcap in Hp. destruct (Hp Hin) as [[]|(name & ->)].
  rewrite <- List.app_assoc. apply scratch_path_not_output.
Qed.

(** C6.  Once the pages are captured: if the merge raises,
    [download_as_pdf] returns [False] and every artifact is left as it
    was; if the merge succeeds, it returns [True] whatever becomes of the
    clean-up, every artifact whose removal does not fail is gone, and so
    is the scratch directory when it is empty and may be removed. *)
Theorem download_as_pdf_merge_outcome (env : environment) (url : string)
    (output_path : path) (fs : file_system) (temp_dir : path) (fs1 : file_system)
    (temp_pdfs : list path) :
  reaches_merge env url output_path fs temp_dir fs1 temp_pdfs ->
  (fst (merge_pdfs env temp_pdfs output_path fs1) = Exception ->
   flag_of (download_as_pdf env url output_path fs) = false
   /\ forall p, In p temp_pdfs ->
                files (final_fs (download_as_pdf env url output_path fs)) !! p
                = files fs1 !! p)
  /\ (fst (merge_pdfs env temp_pdfs output_path fs1) = Normal ->
      flag_of (download_as_pdf env url output_path fs) = true
      /\ (forall p, In p temp_pdfs -> remove_allowed env p = true ->
                    files (final_fs (download_as_pdf env url output_path fs)) !! p = None)
      /\ (rmdir_allowed env = true ->
          dir_is_empty temp_dir (final_fs (download_as_pdf env url output_path fs)) = true ->
          temp_dir ∉ dirs (final_fs (download_as_pdf env url output_path fs)))).
Proof.
  intros Hreach.
  destruct (download_as_pdf_reaches_merge _ _ _ _ _ _ _ Hreach) as (-> & -> & Hout).
  unfold merge_and_cleanup, flag_of, final_fs.
  destruct (merge_pdfs env temp_pdfs output_path fs1) as [[] fs2] eqn:Em; cbn [fst snd].
  - split; [discriminate|]. intros _. split; [reflexivity|]. split.
    + intros p Hin Hp. unfold cleanup. rewrite rmdir_quietly_files.
      now apply remove_all_removes.
    + apply rmdir_quietly_gone.
  - split; [|discriminate]. intros _. split; [reflexivity|].
    intros p Hin. eapply merge_pdfs_exception; [exact Em | now apply Hout].
Qed.
End DownloadFacts.

Lemma merge_pdfs_one_page_per_artifact_witness :
  files (snd (merge_pdfs example5 two_artifacts downloads_pdf two_artifacts_fs))
    !! downloads_pdf
  = Some (write_pdf [printed 1; minimal_pdf]).
Proof.
  apply (merge_pdfs_one_page_per_artifact example5 two_artifacts downloads_pdf
           two_artifacts_fs [printed 1; minimal_pdf]).
  - discriminate.
  - reflexivity.
  - repeat constructor.
    + exists (printed 1). split; vm_compute; reflexivity.
    + exists minimal_pdf. split; vm_compute; reflexivity.
Defined.

(** Example 5 of the specification, run from the URL to the merged file:
    ten pages in the output, the fourth being the placeholder. *)
Example example5_output :
  flag_of (download_as_pdf example5 price_action_url downloads_pdf empty_fs) = true
  /\ files (final_fs (download_as_pdf example5 price_action_url downloads_pdf empty_fs))
       !! downloads_pdf
     = Some (write_pdf [printed 1; printed 2; printed 3; minimal_pdf; printed 5;
                        printed 6; printed 7; printed 8; printed 9; printed 10]).
Proof. split; vm_compute; reflexivity. Qed.

Lemma example5_reaches_merge :
  reaches_merge example5 price_action_url downloads_pdf empty_fs downloads_temp
    (fs_of example5_captured) (pdfs_of example5_captured).
Proof.
  repeat (split; [reflexivity|]).
  exists "799698609", 9, (actions_of example5_captured).
  repeat (split; [reflexivity|]). vm_compute. reflexivity.
Qed.

Lemma download_as_pdf_merge_outcome_witness :
  flag_of (download_as_pdf example5 price_action_url downloads_pdf empty_fs) = true
  /\ files (final_fs (download_as_pdf example5 price_action_url downloads_pdf empty_fs))
       !! (downloads_temp ++ [page_file_name 4]) = None.
Proof.
  destruct (download_as_pdf_merge_outcome example5 price_action_url downloads_pdf empty_fs
              downloads_temp (fs_of example5_captured) (pdfs_of example5_captured)
              example5_reaches_merge) as [_ Hok].
  destruct Hok as (Hflag & Hremoved & _); [vm_compute; reflexivity|].
  split; [exact Hflag|].
  apply Hremoved; [|reflexivity].
  vm_compute. do 3 right. left. reflexivity.
Defined.

(** A merge that fails: with the placeholder of page 4 missing, PyPDF2
    cannot open it; the run returns [False] and the nine captured pages
    stay in the scratch directory. *)
Example merge_failure_keeps_artifacts :
  flag_of (download_as_pdf reportlab_raising price_action_url downloads_pdf empty_fs) = false
  /\ files (final_fs (download_as_pdf reportlab_raising price_action_url downloads_pdf empty_fs))
       !! (downloads_temp ++ [page_file_name 1]) = Some (printed 1)
  /\ size (files (final_fs (download_as_pdf reportlab_raising price_action_url
                               downloads_pdf empty_fs))) = 9.
Proof. repeat split; vm_compute; reflexivity. Qed.

(* ===================================================================== *)
(** * Part III: further properties of the code                            *)
(* ===================================================================== *)

(** ** Title sanitizer *)

Lemma string_map_append (f : ascii -> ascii) (a b : string) :
  string_map f (a +:+ b) = string_map f a +:+ string_map f b.
Proof. induction a as [|c a IH]; simpl; [reflexivity | now rewrite IH]. Qed.

Lemma sanitize_char_clean (c : ascii) : forbidden (sanitize_char c) = false.
Proof. destruct c as [[] [] [] [] [] [] [] []]; reflexivity. Qed.

Lemma sanitize_char_fixed (c : ascii) : sanitize_char c = c <-> forbidden c = false.
Proof. destruct c as [[] [] [] [] [] [] [] []]; cbv; split; congruence. Qed.

Lemma string_map_fixed (f : ascii -> ascii) (s : string) :
  string_map f s = s <-> forall i c, String.get i s = Some c -> f c = c.
Proof.
  induction s as [|a s IH]; simpl.
  - split; [intros _ i c Hc; destruct i; discriminate | reflexivity].
  - split.
    + intros Heq. injection Heq as Ha Hs. intros [|i] c Hc; simpl in Hc.
      * inversion Hc; subst. exact Ha.
      * exact (proj1 IH Hs i c Hc).
    + intros Hall. f_equal.
      * apply (Hall 0 a eq_refl).
      * apply IH. intros i c Hc. apply (Hall (S i) c Hc).
Qed.

Lemma string_map_clean (t : string) : clean (string_map sanitize_char t).
Proof.
  intros i c. rewrite string_map_get.
  destruct (String.get i t) as [a|]; [|discriminate].
  intros Hc; inversion Hc; subst. apply sanitize_char_clean.
Qed.

(** The sanitized title holds none of the forbidden characters, so it can
    serve as a file name; and a title comes out unchanged exactly when it
    held none of them. *)
Theorem sanitize_title_clean (t : string) :
  clean (sanitize_title t) /\ (sanitize_title t = t <-> clean t).
Proof.
  rewrite sanitize_title_map. split.
  - apply string_map_clean.
  - rewrite string_map_fixed. unfold clean.
    split; intros Hall i c Hc; apply sanitize_char_fixed, (Hall i c Hc).
Qed.

(** Sanitizing is done character by character: the sanitized form of a
    concatenation is the concatenation of the sanitized forms. *)
Theorem sanitize_title_append (a b : string) :
  sanitize_title (a +:+ b) = sanitize_title a +:+ sanitize_title b.
Proof. rewrite !sanitize_title_map. apply string_map_append. Qed.

(** ** Static retriever: ordinals and cancellation *)

Lemma save_trains_app (a b : list request) :
  save_trains (a ++ b) = save_trains a ++ save_trains b.
Proof.
  induction a as [|[u|s j t n] a IH]; cbn; [reflexivity | exact IH | now rewrite IH].
Qed.

Lemma save_content_train (jsonp mode title : string) (train : nat) :
  save_trains (snd (save_content jsonp mode train title))
  = seq train (fst (save_content jsonp mode train title) - train)
  /\ train <= fst (save_content jsonp mode train title).
Proof.
  destruct jsonp; cbn [save_content fst snd save_trains].
  - rewrite Nat.sub_diag. auto.
  - replace (S train - train) with 1 by lia. cbn. auto.
Qed.

Lemma seq_glue (a b c : nat) : a <= b -> b <= c -> seq a (b - a) ++ seq b (c - b) = seq a (c - a).
Proof.
  intros Hab Hbc. replace (c - a) with ((b - a) + (c - b)) by lia.
  rewrite List.seq_app. now replace (a + (b - a)) with b by lia.
Qed.

Lemma legacy_loop_trains check_stop mode title scripts train polls :
  exists last, train <= last
    /\ save_trains (legacy_loop check_stop mode title scripts train polls)
       = seq train (last - train).
Proof.
  revert train polls. induction scripts as [|s scripts IH]; intros train polls;
    cbn [legacy_loop].
  - exists train. rewrite Nat.sub_diag. auto.
  - destruct (poll check_stop polls) as [stop polls'].
    destruct stop; [exists train; rewrite Nat.sub_diag; auto|].
    destruct s as [[|c body]|]; try apply IH.
    destruct (find "https://" (String c body)) as [p1|]; try apply IH.
    destruct (find ".jsonp" (String c body)) as [p2|]; try apply IH.
    destruct (save_content_train (slice p1 (p2 + 6) (String c body)) mode title train)
      as [Hs Hle].
    destruct (save_content _ mode train title) as [train' reqs]. cbn [fst snd] in *.
    destruct (IH train' polls') as (last & Hlast & Hrest).
    exists last. split; [lia|].
    rewrite save_trains_app, Hs, Hrest. now apply seq_glue.
Qed.

Lemma structured_matches_trains check_stop mode title ms train polls :
  train <= snd (fst (structured_matches check_stop mode title ms train polls))
  /\ save_trains (fst (fst (structured_matches check_stop mode title ms train polls)))
     = seq train (snd (fst (structured_matches check_stop mode title ms train polls)) - train).
Proof.
  revert train polls. induction ms as [|m ms IH]; intros train polls;
    cbn [structured_matches].
  - cbn. rewrite Nat.sub_diag. auto.
  - destruct (poll check_stop polls) as [stop polls'].
    destruct stop; [cbn; rewrite Nat.sub_diag; auto|].
    destruct (save_content_train (replace escaped_slash "/" m) mode title train) as [Hs Hle].
    destruct (save_content _ mode train title) as [train' reqs]. cbn [fst snd] in *.
    specialize (IH train' polls').
    destruct (structured_matches check_stop mode title ms train' polls') as [[more t] q].
    cbn [fst snd] in *. destruct IH as [Hle' Hmore].
    split; [lia|]. rewrite save_trains_app, Hs, Hmore. now apply seq_glue.
Qed.

Lemma structured_loop_trains check_stop mode title scripts train polls :
  exists last, train <= last
    /\ save_trains (structured_loop check_stop mode title scripts train polls)
       = seq train (last - train).
Proof.
  revert train polls. induction scripts as [|s scripts IH]; intros train polls;
    cbn [structured_loop].
  - exists train. rewrite Nat.sub_diag. auto.
  - destruct (poll check_stop polls) as [stop polls'].
    destruct stop; [exists train; rewrite Nat.sub_diag; auto|].
    destruct s as [[|c body]|]; try apply IH.
    pose proof (structured_matches_trains check_stop mode title
                  (findall_content_url (String c body)) train polls') as [Hle Hs].
    destruct (structured_matches _ _ _ _ train polls') as [[reqs t] q]. cbn [fst snd] in *.
    destruct (IH t q) as (last & Hlast & Hrest).
    exists last. split; [lia|].
    rewrite save_trains_app, Hs, Hrest. now apply seq_glue.
Qed.

(** The content requests of a run carry the ordinals 1, 2, 3, ... in the
    order they are made, without a gap, in either encoding and whatever
    the stop callback answers: the image files are numbered consecutively
    from 1. *)
Theorem get_scribd_document_ordinals
    (fetch : string -> option markup) (check_stop : option (nat -> bool))
    (url mode : string) :
  save_trains (get_scribd_document fetch check_stop url mode)
  = seq 1 (length (save_trains (get_scribd_document fetch check_stop url mode))).
Proof.
  assert (Hseq : forall l last, l = seq 1 (last - 1) -> l = seq 1 (length l)).
  { intros l last ->. now rewrite List.length_seq. }
  unfold get_scribd_document.
  destruct (get_doc_id url) as [doc_id|]; [|reflexivity].
  cbn [save_trains]. destruct (fetch _) as [soup|]; [|reflexivity].
  unfold discover. destruct (has_legacy_callback (scripts soup)); cbn [snd].
  - destruct (legacy_loop_trains check_stop mode
                (sanitize_title match title_tag soup with
                                | Some t => t
                                | None => "Scribd_Document_" +:+ doc_id
                                end) (scripts soup) 1 0) as (last & _ & Hl).
    eapply Hseq, Hl.
  - destruct (structured_loop_trains check_stop mode
                (sanitize_title match title_tag soup with
                                | Some t => t
                                | None => "Scribd_Document_" +:+ doc_id
                                end) (scripts soup) 1 0) as (last & _ & Hl).
    eapply Hseq, Hl.
Qed.

Lemma save_content_count (jsonp mode title : string) (train : nat) :
  length (save_trains (snd (save_content jsonp mode train title))) <= 1.
Proof. destruct jsonp; cbn; lia. Qed.

Section StopBound.
Variable f : nat -> bool.
Variable k : nat.
Hypothesis stop_from_k : forall n, k <= n -> f n = true.

Lemma poll_continue (polls : nat) : f polls = false -> polls < k.
Proof.
  intros Hf. destruct (Nat.lt_ge_cases polls k) as [Hlt|Hge]; [exact Hlt|].
  rewrite (stop_from_k polls Hge) in Hf. discriminate.
Qed.

Lemma legacy_loop_stop_bound mode title scripts train polls :
  length (save_trains (legacy_loop (Some f) mode title scripts train polls)) <= k - polls.
Proof.
  revert train polls. induction scripts as [|s scripts IH]; intros train polls;
    cbn [legacy_loop poll]; [cbn; lia|].
  destruct (f polls) eqn:Hf; [cbn; lia|].
  apply poll_continue in Hf.
  assert (Hnext : forall t, length (save_trains (legacy_loop (Some f) mode title scripts t
                                                  (S polls))) <= k - polls)
    by (intros t; specialize (IH t (S polls)); lia).
  destruct s as [[|c body]|]; try apply Hnext.
  destruct (find "https://" (String c body)) as [p1|]; try apply Hnext.
  destruct (find ".jsonp" (String c body)) as [p2|]; try apply Hnext.
  pose proof (save_content_count (slice p1 (p2 + 6) (String c body)) mode title train) as Hs.
  destruct (save_content _ mode train title) as [train' reqs]. cbn [snd] in Hs.
  rewrite save_trains_app, List.length_app. specialize (IH train' (S polls)). lia.
Qed.

Lemma structured_matches_stop_bound mode title ms train polls :
  length (save_trains (fst (fst (structured_matches (Some f) mode title ms train polls))))
  + (k - snd (structured_matches (Some f) mode title ms train polls)) <= k - polls.
Proof.
  revert train polls. induction ms as [|m ms IH]; intros train polls;
    cbn [structured_matches poll]; [cbn; lia|].
  destruct (f polls) eqn:Hf; [cbn; lia|].
  apply poll_continue in Hf.
  pose proof (save_content_count (replace escaped_slash "/" m) mode title train) as Hs.
  destruct (save_content _ mode train title) as [train' reqs]. cbn [snd] in Hs.
  specialize (IH train' (S polls)).
  destruct (structured_matches (Some f) mode title ms train' (S polls)) as [[more t] q].
  cbn [fst snd] in *. rewrite save_trains_app, List.length_app. lia.
Qed.

Lemma structured_loop_stop_bound mode title scripts train polls :
  length (save_trains (structured_loop (Some f) mode title scripts train polls))
  <= k - polls.
Proof.
  revert train polls. induction scripts as [|s scripts IH]; intros train polls;
    cbn [structured_loop poll]; [cbn; lia|].
  destruct (f polls) eqn:Hf; [cbn; lia|].
  apply poll_continue in Hf.
  assert (Hnext : forall t, length (save_trains (structured_loop (Some f) mode title scripts t
                                                  (S polls))) <= k - polls)
    by (intros t; specialize (IH t (S polls)); lia).
  destruct s as [[|c body]|]; try apply Hnext.
  pose proof (structured_matches_stop_bound mode title
                (findall_content_url (String c body)) train (S polls)) as Hm.
  destruct (structured_matches _ _ _ _ train (S polls)) as [[reqs t] q]. cbn [fst snd] in Hm.
  rewrite save_trains_app, List.length_app. specialize (IH t q). lia.
Qed.
End StopBound.

(** Cancellation of the static retriever: if the callback answers stop at
    every poll from the k-th on, at most [k] descriptors are handed to a
    sink; with a callback that answers stop from the start, none is. *)
Theorem get_scribd_document_stop_bound
    (fetch : string -> option markup) (f : nat -> bool) (k : nat) (url mode : string) :
  (forall n, k <= n -> f n = true) ->
  length (save_trains (get_scribd_document fetch (Some f) url mode)) <= k.
Proof.
  intros Hstop. unfold get_scribd_document.
  destruct (get_doc_id url) as [doc_id|]; [|cbn; lia].
  cbn [save_trains]. destruct (fetch _) as [soup|]; [|cbn; lia].
  unfold discover. destruct (has_legacy_callback (scripts soup)); cbn [snd].
  - etransitivity; [apply (legacy_loop_stop_bound f k Hstop) | lia].
  - etransitivity; [apply (structured_loop_stop_bound f k Hstop) | lia].
Qed.

Lemma get_scribd_document_stop_bound_witness :
  length (save_trains (get_scribd_document legacy_document (Some (fun _ => true))
                         price_action_url "text")) <= 0.
Proof.
  apply (get_scribd_document_stop_bound legacy_document (fun _ => true) 0
           price_action_url "text").
  reflexivity.
Defined.

(** ** Static retriever: the shape of a legacy descriptor *)

Lemma find_Some (p s : string) (i : nat) :
  find p s = Some i -> exists pre post, s = pre +:+ p +:+ post /\ String.length pre = i.
Proof.
  revert i. induction s as [|c s IH]; intros i; cbn [find]; unfold startswith.
  - destruct (drop_prefix p "") as [r|] eqn:E; [|discriminate].
    intros Hi; inversion Hi; subst. exists "", r. split; [|reflexivity].
    change ("" +:+ p +:+ r) with (p +:+ r). now apply drop_prefix_Some.
  - destruct (drop_prefix p (String c s)) as [r|] eqn:E.
    + intros Hi; inversion Hi; subst. exists "", r. split; [|reflexivity].
      change ("" +:+ p +:+ r) with (p +:+ r). now apply drop_prefix_Some.
    + destruct (find p s) as [j|]; [|discriminate].
      intros Hi; inversion Hi; subst.
      destruct (IH j eq_refl) as (pre & post & -> & Hlen).
      exists (String c pre), post. cbn. now rewrite Hlen.
Qed.

Lemma append_split (a b c d : string) :
  a +:+ b = c +:+ d -> String.length a <= String.length c ->
  exists m, c = a +:+ m /\ b = m +:+ d.
Proof.
  revert c. induction a as [|x a IH]; intros c Heq Hlen.
  - exists c. auto.
  - destruct c as [|y c]; [cbn in Hlen; lia|].
    cbn in Heq. injection Heq as -> Heq.
    destruct (IH c Heq) as (m & -> & ->); [cbn in Hlen; lia|].
    exists m. auto.
Qed.

Lemma substring_zero (n : nat) (s : string) : String.substring n 0 s = "".
Proof.
  revert n. induction s as [|c s IH]; intros [|n]; cbn; auto.
Qed.

Lemma substring_prefix (b c : string) : String.substring 0 (String.length b) (b +:+ c) = b.
Proof.
  induction b as [|x b IH]; cbn; [now destruct c | now rewrite IH].
Qed.

Lemma substring_middle (a b c : string) :
  String.substring (String.length a) (String.length b) (a +:+ b +:+ c) = b.
Proof.
  induction a as [|x a IH]; cbn; [apply substring_prefix | exact IH].
Qed.

(** The text cut out of a script body by the legacy branch is empty, or
    runs from ["https://"] to [".jsonp"]. *)
Lemma legacy_slice_shape (s : string) (portion1 portion2 : nat) :
  find "https://" s = Some portion1 -> find ".jsonp" s = Some portion2 ->
  (portion2 < portion1 /\ slice portion1 (portion2 + 6) s = "")
  \/ (exists middle, slice portion1 (portion2 + 6) s = "https://" +:+ middle +:+ ".jsonp").
Proof.
  intros H1 H2.
  destruct (find_Some _ _ _ H1) as (pre1 & post1 & Hs1 & Hl1).
  destruct (find_Some _ _ _ H2) as (pre2 & post2 & Hs2 & Hl2).
  clear H1 H2. subst portion1 portion2. unfold slice.
  destruct (Nat.le_gt_cases (String.length pre1) (String.length pre2)) as [Hle|Hgt].
  - right. rewrite Hs1 in Hs2.
    destruct (append_split _ _ _ _ Hs2) as (m & Hpre2 & Hm); [exact Hle|].
    do 8 (destruct m as [|? m];
          [cbn in Hm; discriminate | cbn in Hm; injection Hm as <- Hm]).
    exists m. subst s pre2 post1.
    assert (Hlen : String.length (pre1 +:+ "https://" +:+ m) + 6 - String.length pre1
                   = String.length ("https://" +:+ m +:+ ".jsonp"))
      by (rewrite !length_append; cbn; rewrite ?length_append; cbn; lia).
    change (String.substring (String.length pre1)
              (String.length (pre1 +:+ "https://" +:+ m) + 6 - String.length pre1)
              (pre1 +:+ "https://" +:+ (m +:+ ".jsonp" +:+ post2))
            = "https://" +:+ m +:+ ".jsonp").
    rewrite Hlen, <- (append_assoc m ".jsonp" post2).
    apply (substring_middle pre1 ("https://" +:+ m +:+ ".jsonp") post2).
  - left. split; [exact Hgt|]. rewrite Hs2 in Hs1.
    destruct (append_split _ _ _ _ Hs1) as (m & Hpre1 & Hm); [lia|].
    do 6 (destruct m as [|? m];
          [cbn in Hm; discriminate | cbn in Hm; injection Hm as <- Hm]).
    replace (String.length pre2 + 6 - String.length pre1) with 0; [apply substring_zero|].
    subst pre1. rewrite length_append. cbn. lia.
Qed.

Lemma save_content_url (jsonp mode title : string) (train : nat) (u : string) :
  In u (save_urls (snd (save_content jsonp mode train title))) -> u = jsonp /\ jsonp <> "".
Proof. destruct jsonp; cbn; [tauto | intros [<-|[]]; split; [reflexivity | discriminate]]. Qed.

Lemma save_urls_app (a b : list request) :
  save_urls (a ++ b) = save_urls a ++ save_urls b.
Proof.
  induction a as [|[u|s j t n] a IH]; cbn; [reflexivity | exact IH | now rewrite IH].
Qed.

Lemma save_urls_length (reqs : list request) :
  length (save_urls reqs) = length (save_trains reqs).
Proof.
  induction reqs as [|[u|s j t n] reqs IH]; cbn; [reflexivity | exact IH | now rewrite IH].
Qed.

(** In the legacy encoding every descriptor handed to a sink runs from
    ["https://"] to [".jsonp"], and a script contributes at most one. *)
Theorem legacy_loop_descriptors
    (check_stop : option (nat -> bool)) (mode title : string)
    (scripts : list (option string)) (train polls : nat) :
  (forall jsonp, In jsonp (save_urls (legacy_loop check_stop mode title scripts train polls)) ->
     exists middle, jsonp = "https://" +:+ middle +:+ ".jsonp")
  /\ length (save_urls (legacy_loop check_stop mode title scripts train polls))
     <= length scripts.
Proof.
  revert train polls. induction scripts as [|s scripts IH]; intros train polls;
    cbn [legacy_loop]; [cbn; split; [tauto | lia]|].
  destruct (poll check_stop polls) as [stop polls'].
  destruct stop; [cbn; split; [tauto | lia]|].
  assert (Hnext : forall t,
    (forall jsonp, In jsonp (save_urls (legacy_loop check_stop mode title scripts t polls')) ->
       exists middle, jsonp = "https://" +:+ middle +:+ ".jsonp")
    /\ length (save_urls (legacy_loop check_stop mode title scripts t polls'))
       <= length (s :: scripts)).
  { intros t. destruct (IH t polls') as [Hshape Hlen]. split; [exact Hshape | cbn; lia]. }
  destruct s as [[|c body]|]; try apply Hnext.
  destruct (find "https://" (String c body)) as [p1|] eqn:E1; try apply Hnext.
  destruct (find ".jsonp" (String c body)) as [p2|] eqn:E2; try apply Hnext.
  pose proof (save_content_url (slice p1 (p2 + 6) (String c body)) mode title train) as Hu.
  pose proof (save_content_count (slice p1 (p2 + 6) (String c body)) mode title train) as Hc.
  destruct (save_content _ mode train title) as [train' reqs]. cbn [snd] in Hu, Hc.
  destruct (IH train' polls') as [Hshape Hlen].
  rewrite save_urls_app. split.
  - intros jsonp Hin. apply in_app_or in Hin as [Hin|Hin]; [|now apply Hshape].
    destruct (Hu _ Hin) as [-> Hne].
    destruct (legacy_slice_shape _ _ _ E1 E2) as [[_ Hempty]|Hmid]; [contradiction | exact Hmid].
  - rewrite List.length_app. cbn [length].
    rewrite (save_urls_length reqs). lia.
Qed.

Lemma legacy_loop_descriptors_witness :
  exists middle,
    "https://html2-f.scribdassets.com/8u7q15n1q8z07to/pages/1-a9de44b065.jsonp"
    = "https://" +:+ middle +:+ ".jsonp".
Proof.
  apply (proj1 (legacy_loop_descriptors None "text" "T" [Some legacy_script] 1 0)).
  left. reflexivity.
Defined.

(** ** Page capturer: the names of the scratch files *)

Lemma zeros_succ (k : nat) :
  String.concat "" (repeat "0" (S k)) = String "0" (String.concat "" (repeat "0" k)).
Proof. destruct k; reflexivity. Qed.

(** Reading a padded number back: leading zeros do not change the value. *)
Lemma zeros_value (k : nat) (s : string) (d : Decimal.uint) :
  NilEmpty.uint_of_string s = Some d ->
  exists d', NilEmpty.uint_of_string (String.concat "" (repeat "0" k) +:+ s) = Some d'
             /\ Nat.of_uint d' = Nat.of_uint d.
Proof.
  intros Hs. induction k as [|k (d' & Hd' & Hv)].
  - exists d. split; [exact Hs | reflexivity].
  - rewrite zeros_succ. exists (Decimal.D0 d'). split.
    + cbn. cbn in Hd'. now rewrite Hd'.
    + rewrite <- Hv. reflexivity.
Qed.

Lemma format_03d_value (i : nat) :
  exists d, NilEmpty.uint_of_string (format_03d i) = Some d /\ Nat.of_uint d = i.
Proof.
  unfold format_03d.
  destruct (zeros_value (3 - String.length (NilEmpty.string_of_uint (Nat.to_uint i)))
              (NilEmpty.string_of_uint (Nat.to_uint i)) (Nat.to_uint i)
              (NilEmpty.usu _)) as (d & Hd & Hv).
  exists d. split; [exact Hd|]. rewrite Hv. apply DecimalNat.Unsigned.of_to.
Qed.

Lemma append_cancel_r (a b c : string) : a +:+ c = b +:+ c -> a = b.
Proof.
  intros Heq.
  assert (Hlen : String.length a = String.length b).
  { apply (f_equal String.length) in Heq. rewrite !length_append in Heq. lia. }
  destruct (append_split a c b c Heq) as (m & -> & Hm); [lia|].
  rewrite length_append in Hlen. destruct m; [now rewrite append_nil_r | cbn in Hlen; lia].
Qed.

Lemma format_03d_injective (i j : nat) : format_03d i = format_03d j -> i = j.
Proof.
  intros Heq.
  destruct (format_03d_value i) as (d & Hd & <-).
  destruct (format_03d_value j) as (d' & Hd' & <-).
  rewrite Heq in Hd. congruence.
Qed.

Lemma scratch_file_injective (temp_dir : path) (i j : nat) :
  temp_dir ++ [page_file_name i] = temp_dir ++ [page_file_name j] -> i = j.
Proof.
  intros Heq. apply List.app_inj_tail in Heq as [_ Heq].
  unfold page_file_name in Heq. cbn in Heq. injection Heq as Heq.
  now apply format_03d_injective, (append_cancel_r _ _ ".pdf").
Qed.

(** The scratch file of a page names the page: distinct page numbers give
    distinct file names, however many digits they have. *)
Theorem page_file_name_injective (i j : nat) :
  page_file_name i = page_file_name j -> i = j.
Proof.
  unfold page_file_name. intros Heq.
  cbn in Heq. injection Heq as Heq. apply append_cancel_r in Heq.
  now apply format_03d_injective.
Qed.

Lemma page_file_name_injective_witness : 7 = 7.
Proof. exact (page_file_name_injective 7 7 eq_refl). Defined.

(** ** Page capturer: what the page loop leaves behind *)

Lemma capture_attempts_frame (env : environment) (i : nat) (p q : path)
    (attempts : list nat) (fs : file_system) :
  p ≠ q ->
  files (snd (fst (capture_attempts env i p attempts fs))) !! q = files fs !! q.
Proof.
  intros Hne. revert fs. induction attempts as [|a rest IH]; intros fs;
    cbn [capture_attempts]; [reflexivity|].
  destruct (print_to_pdf env i a) as [data|r1]; [now apply lookup_write_file_ne|].
  destruct (screenshot_pdf env i a) as [data|r2].
  - cbn [fst snd]. rewrite lookup_write_file_ne by exact Hne. now apply lookup_leave_ne.
  - specialize (IH (leave r2 p (leave r1 p fs))).
    destruct (capture_attempts env i p rest (leave r2 p (leave r1 p fs))) as [[c fs'] acts].
    cbn [fst snd] in *. rewrite IH, !lookup_leave_ne by exact Hne. reflexivity.
Qed.

Lemma create_blank_pdf_frame (env : environment) (i : nat) (p q : path) (fs : file_system) :
  p ≠ q -> files (snd (create_blank_pdf env i p fs)) !! q = files fs !! q.
Proof.
  intros Hne. unfold create_blank_pdf.
  destruct (blank_pdf env i); cbn [snd];
    first [now apply lookup_write_file_ne | now apply lookup_leave_ne].
Qed.

(** The body of the page loop writes to the scratch file of its page and
    to no other file. *)
Lemma capture_page_frame (env : environment) (temp_dir : path) (i : nat)
    (fs : file_system) (temp_pdfs : list path) (q : path) :
  scratch_file temp_dir i ≠ q ->
  files (fs_of (capture_page env temp_dir i fs temp_pdfs)) !! q = files fs !! q.
Proof.
  intros Hne. unfold capture_page, fs_of, scratch_file in *.
  destruct (stop_before_page env i); [reflexivity|].
  destruct (scroll_into_view env i); cbn [negb]; [|reflexivity].
  pose proof (capture_attempts_frame env i _ q (seq 0 max_retries) fs Hne) as Ha.
  destruct (capture_attempts env i _ (seq 0 max_retries) fs) as [[captured fs'] acts].
  cbn [fst snd] in Ha. destruct captured; [exact Ha|].
  pose proof (create_blank_pdf_frame env i _ q fs' Hne) as Hb.
  destruct (create_blank_pdf env i _ fs') as [[] fs'']; cbn [fst snd] in *; congruence.
Qed.

Lemma capture_pages_step (env : environment) (temp_dir : path) (i : nat)
    (rest : list nat) (fs : file_system) (temp_pdfs : list path) :
  (exit_of (capture_page env temp_dir i fs temp_pdfs) = NextPage
   /\ exit_of (capture_pages env temp_dir (i :: rest) fs temp_pdfs)
      = exit_of (capture_pages env temp_dir rest
                   (fs_of (capture_page env temp_dir i fs temp_pdfs))
                   (pdfs_of (capture_page env temp_dir i fs temp_pdfs)))
   /\ fs_of (capture_pages env temp_dir (i :: rest) fs temp_pdfs)
      = fs_of (capture_pages env temp_dir rest
                 (fs_of (capture_page env temp_dir i fs temp_pdfs))
                 (pdfs_of (capture_page env temp_dir i fs temp_pdfs)))
   /\ pdfs_of (capture_pages env temp_dir (i :: rest) fs temp_pdfs)
      = pdfs_of (capture_pages env temp_dir rest
                   (fs_of (capture_page env temp_dir i fs temp_pdfs))
                   (pdfs_of (capture_page env temp_dir i fs temp_pdfs)))
   /\ actions_of (capture_pages env temp_dir (i :: rest) fs temp_pdfs)
      = actions_of (capture_page env temp_dir i fs temp_pdfs)
        ++ actions_of (capture_pages env temp_dir rest
                         (fs_of (capture_page env temp_dir i fs temp_pdfs))
                         (pdfs_of (capture_page env temp_dir i fs temp_pdfs))))
  \/ (exit_of (capture_page env temp_dir i fs temp_pdfs) <> NextPage
      /\ capture_pages env temp_dir (i :: rest) fs temp_pdfs
         = capture_page env temp_dir i fs temp_pdfs).
Proof.
  cbn [capture_pages].
  destruct (capture_page env temp_dir i fs temp_pdfs) as [[[ex fs'] pdfs'] acts].
  unfold exit_of, fs_of, pdfs_of, actions_of. cbn [fst snd].
  destruct ex; [left | right; split; [discriminate | reflexivity]
                     | right; split; [discriminate | reflexivity]].
  destruct (capture_pages env temp_dir rest fs' pdfs') as [[[ex2 fs2] pdfs2] more].
  cbn [fst snd]. repeat split.
Qed.

Lemma capture_pages_frame (env : environment) (temp_dir : path) (indices : list nat)
    (fs : file_system) (temp_pdfs : list path) (q : path) :
  (forall i, In i indices -> scratch_file temp_dir i ≠ q) ->
  files (fs_of (capture_pages env temp_dir indices fs temp_pdfs)) !! q = files fs !! q.
Proof.
  revert fs temp_pdfs. induction indices as [|i rest IH]; intros fs temp_pdfs Hq;
    [reflexivity|].
  assert (Hi : scratch_file temp_dir i ≠ q) by (apply Hq; now left).
  destruct (capture_pages_step env temp_dir i rest fs temp_pdfs)
    as [(_ & _ & -> & _)|(_ & ->)].
  - rewrite IH by (intros j Hj; apply Hq; now right).
    now apply capture_page_frame.
  - now apply capture_page_frame.
Qed.

Lemma capture_page_next (env : environment) (temp_dir : path) (i : nat)
    (fs : file_system) (temp_pdfs : list path) :
  exit_of (capture_page env temp_dir i fs temp_pdfs) = NextPage ->
  pdfs_of (capture_page env temp_dir i fs temp_pdfs) = temp_pdfs ++ [scratch_file temp_dir i].
Proof.
  unfold capture_page, exit_of, pdfs_of, scratch_file.
  destruct (stop_before_page env i); [discriminate|].
  destruct (scroll_into_view env i); cbn [negb]; [|discriminate].
  destruct (capture_attempts env i _ (seq 0 max_retries) fs) as [[captured fs'] acts].
  destruct captured; [reflexivity|].
  destruct (create_blank_pdf env i _ fs') as [[] fs'']; [reflexivity | discriminate].
Qed.

Lemma NoDup_map_injective (A B : Type) (g : A -> B) (l : list A) :
  (forall a b, g a = g b -> a = b) -> List.NoDup l -> List.NoDup (map g l).
Proof.
  intros Hinj Hnd. induction Hnd as [|a l Hnotin Hnd IH]; cbn; constructor; [|exact IH].
  intros Hin. apply in_map_iff in Hin as (b & Hb & Hin).
  apply Hinj in Hb. subst b. contradiction.
Qed.

Lemma capture_pages_pdfs (env : environment) (temp_dir : path)
    (indices : list nat) (fs : file_system) (temp_pdfs : list path) :
  exit_of (capture_pages env temp_dir indices fs temp_pdfs) = NextPage ->
  pdfs_of (capture_pages env temp_dir indices fs temp_pdfs)
  = temp_pdfs ++ map (scratch_file temp_dir) indices.
Proof.
  revert fs temp_pdfs. induction indices as [|i rest IH]; intros fs temp_pdfs Hexit.
  - cbn. now rewrite List.app_nil_r.
  - destruct (capture_pages_step env temp_dir i rest fs temp_pdfs)
      as [(Hi & He & _ & -> & _)|(Hi & Heq)].
    + rewrite He in Hexit. rewrite (IH _ _ Hexit), (capture_page_next _ _ _ _ _ Hi).
      cbn. now rewrite <- List.app_assoc.
    + rewrite Heq in Hexit. contradiction.
Qed.

(** When the page loop runs to its end, the artifacts are the scratch
    files of the pages, one for each page and in the order of the pages:
    none is missing, none comes twice, and none is out of place. *)
Theorem capture_pages_artifacts (env : environment) (temp_dir : path)
    (indices : list nat) (fs : file_system) (temp_pdfs : list path) :
  exit_of (capture_pages env temp_dir indices fs temp_pdfs) = NextPage ->
  pdfs_of (capture_pages env temp_dir indices fs temp_pdfs)
  = temp_pdfs ++ map (scratch_file temp_dir) indices
  /\ length (pdfs_of (capture_pages env temp_dir indices fs temp_pdfs))
     = length temp_pdfs + length indices
  /\ (List.NoDup indices -> List.NoDup (map (scratch_file temp_dir) indices)).
Proof.
  intros Hexit.
  pose proof (capture_pages_pdfs env temp_dir indices fs temp_pdfs Hexit) as Hpdfs.
  split; [exact Hpdfs|]. split.
  - rewrite Hpdfs, List.length_app, List.length_map. reflexivity.
  - intros Hnd. apply NoDup_map_injective; [|exact Hnd].
    intros a b Hab. unfold scratch_file in Hab.
    now apply (scratch_file_injective temp_dir).
Qed.

Lemma capture_pages_artifacts_witness :
  pdfs_of example5_captured = map (scratch_file downloads_temp) (seq 1 10).
Proof.
  exact (proj1 (capture_pages_artifacts example5 downloads_temp (seq 1 10)
                  (makedirs downloads_temp empty_fs) [] eq_refl)).
Defined.

(** A page's scratch file is not written again by the pages that come
    after it: at the end of the loop it holds what the page's own capture
    left there. *)
Theorem capture_pages_keeps_earlier_page (env : environment) (temp_dir : path)
    (i : nat) (rest : list nat) (fs : file_system) (temp_pdfs : list path) :
  ~ In i rest ->
  files (fs_of (capture_pages env temp_dir (i :: rest) fs temp_pdfs))
    !! scratch_file temp_dir i
  = files (fs_of (capture_page env temp_dir i fs temp_pdfs)) !! scratch_file temp_dir i.
Proof.
  intros Hfresh.
  destruct (capture_pages_step env temp_dir i rest fs temp_pdfs)
    as [(_ & _ & -> & _)|(_ & ->)]; [|reflexivity].
  apply capture_pages_frame. intros j Hj Heq.
  unfold scratch_file in Heq. apply scratch_file_injective in Heq.
  subst j. contradiction.
Qed.

Lemma capture_pages_keeps_earlier_page_witness :
  files (fs_of (capture_pages example5 downloads_temp (seq 1 10)
                  (makedirs downloads_temp empty_fs) []))
    !! scratch_file downloads_temp 1
  = Some (printed 1).
Proof.
  assert (Hfresh : ~ In 1 (seq 2 9)) by (rewrite in_seq; lia).
  etransitivity.
  - exact (capture_pages_keeps_earlier_page example5 downloads_temp 1 (seq 2 9)
             (makedirs downloads_temp empty_fs) [] Hfresh).
  - vm_compute. reflexivity.
Defined.

Lemma capture_attempts_actions (env : environment) (i : nat) (p : path)
    (attempts : list nat) (fs : file_system) :
  forallb is_capture_action (snd (capture_attempts env i p attempts fs)) = true.
Proof.
  revert fs. induction attempts as [|a rest IH]; intros fs; cbn [capture_attempts];
    [reflexivity|].
  destruct (print_to_pdf env i a) as [data|r1]; [reflexivity|].
  destruct (screenshot_pdf env i a) as [data|r2]; [reflexivity|].
  specialize (IH (leave r2 p (leave r1 p fs))).
  destruct (capture_attempts env i p rest (leave r2 p (leave r1 p fs))) as [[c fs'] acts].
  cbn [snd] in IH. destruct (Nat.ltb a (max_retries - 1)); cbn; exact IH.
Qed.

Lemma capture_page_capture_actions (env : environment) (temp_dir : path) (i : nat)
    (fs : file_system) (temp_pdfs : list path) :
  forallb is_capture_action (actions_of (capture_page env temp_dir i fs temp_pdfs)) = true.
Proof.
  unfold capture_page, actions_of.
  destruct (stop_before_page env i); [reflexivity|].
  destruct (scroll_into_view env i); cbn [negb]; [|reflexivity].
  pose proof (capture_attempts_actions env i (temp_dir ++ [page_file_name i])
                (seq 0 max_retries) fs) as Ha.
  destruct (capture_attempts env i _ (seq 0 max_retries) fs) as [[captured fs'] acts].
  cbn [snd] in Ha. destruct captured; [exact Ha|].
  destruct (create_blank_pdf env i _ fs') as [[] fs'']; cbn [snd];
    rewrite List.forallb_app, Ha; reflexivity.
Qed.

Lemma capture_pages_capture_actions (env : environment) (temp_dir : path)
    (indices : list nat) (fs : file_system) (temp_pdfs : list path) :
  forallb is_capture_action (actions_of (capture_pages env temp_dir indices fs temp_pdfs))
  = true.
Proof.
  revert fs temp_pdfs. induction indices as [|i rest IH]; intros fs temp_pdfs;
    [reflexivity|].
  destruct (capture_pages_step env temp_dir i rest fs temp_pdfs)
    as [(_ & _ & _ & _ & ->)|(_ & ->)].
  - now rewrite List.forallb_app, capture_page_capture_actions, IH.
  - apply capture_page_capture_actions.
Qed.

Lemma capture_actions_only (acts : list action) (a : action) :
  forallb is_capture_action acts = true -> is_capture_action a = false -> ~ In a acts.
Proof.
  intros Hall Ha Hin. rewrite forallb_forall in Hall. rewrite (Hall a Hin) in Ha.
  discriminate.
Qed.

(** A stop request at the top of the loop ends it with [return False]. *)
Lemma capture_pages_stop (env : environment) (temp_dir : path) (indices : list nat)
    (fs : file_system) (temp_pdfs : list path) (i : nat) :
  In i indices -> stop_before_page env i = true ->
  exit_of (capture_pages env temp_dir indices fs temp_pdfs) <> NextPage.
Proof.
  intros Hin Hstop. revert fs temp_pdfs.
  induction indices as [|j rest IH]; intros fs temp_pdfs; [destruct Hin|].
  destruct (capture_pages_step env temp_dir j rest fs temp_pdfs)
    as [(Hj & -> & _)|(Hj & ->)]; [|exact Hj].
  destruct Hin as [->|Hin]; [|now apply IH].
  unfold capture_page, exit_of in Hj. rewrite Hstop in Hj. discriminate.
Qed.

Lemma scratch_file_not_output (output_path : path) (sub : string) (i : nat) :
  scratch_file (dirname output_path ++ [sub]) i ≠ output_path.
Proof.
  unfold scratch_file. rewrite <- List.app_assoc. intros Heq.
  now apply (scratch_path_not_output output_path sub (page_file_name i)).
Qed.

Section DownloadMore.
Context {page : Type} `{PdfLibrary page}.

Lemma merge_pdfs_normal (env : environment) (pdf_files : list path)
    (output_path : path) (fs fs' : file_system) :
  merge_pdfs env pdf_files output_path fs = (Normal, fs') ->
  exists pages, merger_append fs pdf_files [] = Some pages
                /\ fs' = write_file output_path (write_pdf pages) fs.
Proof.
  assert (Hw : merge_with_pypdf2 env pdf_files output_path fs = (Normal, fs') ->
               exists pages, merger_append fs pdf_files [] = Some pages
                             /\ fs' = write_file output_path (write_pdf pages) fs).
  { unfold merge_with_pypdf2. destruct (merger_append fs pdf_files []) as [pages|];
      [|discriminate].
    destruct (merger_write env); [|discriminate].
    intros Heq; inversion Heq. eauto. }
  unfold merge_pdfs. destruct (pypdf2 env) as [|[]]; [exact Hw | exact Hw | discriminate].
Qed.

Lemma remove_quietly_frame (env : environment) (p q : path) (fs : file_system) :
  p ≠ q -> files (remove_quietly env p fs) !! q = files fs !! q.
Proof.
  intros Hne. unfold remove_quietly.
  destruct (files fs !! p); [|reflexivity].
  destruct (remove_allowed env p); [|reflexivity].
  cbn. now apply lookup_delete_ne.
Qed.

Lemma cleanup_frame (env : environment) (temp_dir : path) (temp_pdfs : list path)
    (fs : file_system) (q : path) :
  ~ In q temp_pdfs -> files (cleanup env temp_dir temp_pdfs fs) !! q = files fs !! q.
Proof.
  intros Hq. unfold cleanup. rewrite rmdir_quietly_files.
  revert fs. induction temp_pdfs as [|p pdfs IH]; intros fs; [reflexivity|].
  cbn [fold_left]. rewrite IH by (intros Hin; apply Hq; now right).
  apply remove_quietly_frame. intros ->. apply Hq. now left.
Qed.

Lemma capture_actions_in_body (acts : list action) :
  forallb is_capture_action acts = true -> forallb is_body_action acts = true.
Proof.
  rewrite !forallb_forall. intros Hall a Ha. specialize (Hall a Ha).
  destruct a; try reflexivity; discriminate.
Qed.

(** The [try] body neither starts nor quits a session. *)
Lemma download_as_pdf_try_body (env : environment) (url : string) (output_path : path)
    (fs : file_system) :
  forallb is_body_action (snd (download_as_pdf_try env url output_path fs)) = true.
Proof.
  unfold download_as_pdf_try.
  destruct (extract_doc_id url) as [doc_id|]; [|reflexivity].
  destruct (document_loads env); cbn [negb]; [|reflexivity].
  destruct (stop_after_scroll env); [reflexivity|].
  destruct (pages_found env) as [|n]; [reflexivity|].
  destruct (temp_dir_created env); cbn [negb]; [|reflexivity].
  set (temp_dir := dirname output_path ++ ["temp_" +:+ doc_id]).
  pose proof (capture_pages_capture_actions env temp_dir (seq 1 (S n))
                (makedirs temp_dir fs) []) as Hacts.
  destruct (capture_pages env temp_dir (seq 1 (S n)) (makedirs temp_dir fs) [])
    as [[[ex fs1] pdfs] acts].
  unfold actions_of in Hacts. cbn [snd] in Hacts. apply capture_actions_in_body in Hacts.
  destruct ex; cbn [snd]; [|cbn; exact Hacts|cbn; exact Hacts].
  unfold merge_and_cleanup.
  destruct (merge_pdfs env pdfs output_path fs1) as [[] fs2]; cbn [snd];
    cbn [forallb is_body_action andb]; rewrite List.forallb_app, Hacts; [|reflexivity].
  cbn [forallb is_body_action andb]. rewrite List.forallb_app. cbn [forallb is_body_action andb].
  rewrite andb_true_r. apply forallb_forall. intros a Ha.
  apply in_map_iff in Ha as (p & <- & _). reflexivity.
Qed.

(** Every run goes to the canonical endpoint once the id is known. *)
Lemma download_as_pdf_try_navigates (env : environment) (url : string)
    (output_path : path) (fs : file_system) (doc_id : string) :
  extract_doc_id url = Some doc_id ->
  In (Navigate (embed_url doc_id)) (snd (download_as_pdf_try env url output_path fs)).
Proof.
  intros Hid. unfold download_as_pdf_try. rewrite Hid.
  destruct (document_loads env); cbn [negb]; [|now left].
  destruct (stop_after_scroll env); [now left|].
  destruct (pages_found env) as [|n]; [now left|].
  destruct (temp_dir_created env); cbn [negb]; [|now left].
  destruct (capture_pages env _ (seq 1 (S n)) _ []) as [[[ex fs1] pdfs] acts].
  destruct ex; [|now left|now left].
  destruct (merge_and_cleanup env _ pdfs output_path fs1) as [[ok fs2] more]. now left.
Qed.

Lemma download_as_pdf_try_navigate_only (env : environment) (url : string)
    (output_path : path) (fs : file_system) (u : string) :
  In (Navigate u) (snd (download_as_pdf_try env url output_path fs)) ->
  option_map embed_url (extract_doc_id url) = Some u.
Proof.
  unfold download_as_pdf_try.
  assert (Hshort : forall doc_id, In (Navigate u) [Navigate (embed_url doc_id)] ->
                                  Some (embed_url doc_id) = Some u).
  { intros doc_id [Heq|[]]. now inversion Heq. }
  destruct (extract_doc_id url) as [doc_id|]; cbn [option_map]; [|intros []].
  destruct (document_loads env); cbn [negb snd]; [|now apply Hshort].
  destruct (stop_after_scroll env); [now apply Hshort|].
  destruct (pages_found env) as [|n]; [now apply Hshort|].
  destruct (temp_dir_created env); cbn [negb snd]; [|now apply Hshort].
  set (temp_dir := dirname output_path ++ ["temp_" +:+ doc_id]) in *.
  pose proof (capture_pages_capture_actions env temp_dir (seq 1 (S n))
                (makedirs temp_dir fs) []) as Hacts.
  destruct (capture_pages env temp_dir (seq 1 (S n)) (makedirs temp_dir fs) [])
    as [[[ex fs1] pdfs] acts].
  unfold actions_of in Hacts. cbn [snd] in Hacts.
  assert (Hcap : ~ In (Navigate u) acts) by (now apply capture_actions_only).
  assert (Hend : forall l, (forall a, In a l -> forall v, a <> Navigate v) ->
                           In (Navigate u) (Navigate (embed_url doc_id) :: acts ++ l) ->
                           Some (embed_url doc_id) = Some u).
  { intros l Hl [Heq|Hin']; [now inversion Heq|].
    apply in_app_or in Hin' as [Hin'|Hin']; [contradiction|].
    now destruct (Hl _ Hin' u). }
  destruct ex; cbn [snd].
  - unfold merge_and_cleanup.
    destruct (merge_pdfs env pdfs output_path fs1) as [[] fs2]; cbn [snd]; apply Hend.
    + intros a [<-|Ha] v; [discriminate|].
      apply in_app_or in Ha as [Ha|[<-|[]]]; [|discriminate].
      apply in_map_iff in Ha as (p & <- & _). discriminate.
    + intros a [<-|[]] v; discriminate.
  - intros [Heq|Hin]; [now inversion Heq | contradiction].
  - intros [Heq|Hin]; [now inversion Heq | contradiction].
Qed.

(** The two ways a run can go: the driver is up and the [try] body runs
    between the actions of [_setup_driver] and the final quit, or
    [_setup_driver] raises and nothing else is done. *)
Lemma download_as_pdf_cases (env : environment) (url : string) (output_path : path)
    (fs : file_system) :
  (driver_starts env = true
   /\ exists s setup,
        start_driver (webdriver_manager env) (chrome env) = (Normal, Some s, setup)
        /\ ~ In (QuitSession s) setup
        /\ download_as_pdf env url output_path fs
           = (flag_of (download_as_pdf_try env url output_path fs),
              final_fs (download_as_pdf_try env url output_path fs),
              map Setup setup ++ snd (download_as_pdf_try env url output_path fs)
                ++ [Quit]))
  \/ (driver_starts env = false
      /\ exists driver setup,
           start_driver (webdriver_manager env) (chrome env) = (Exception, driver, setup)
           /\ (forall s, driver = Some s -> In (QuitSession s) setup)
           /\ download_as_pdf env url output_path fs
              = (false, fs, map Setup setup ++ finally_quit driver)).
Proof.
  destruct (driver_starts env) eqn:Hd; [left | right]; (split; [reflexivity|]).
  - destruct (download_as_pdf_started env url output_path fs Hd) as (s & setup & Hs).
    now exists s, setup.
  - destruct (download_as_pdf_not_started env url output_path fs Hd) as (d & setup & Hs).
    now exists d, setup.
Qed.

Lemma finally_quit_not_body (driver : option nat) (a : action) :
  In a (finally_quit driver) -> is_body_action a = false.
Proof. destruct driver; [intros [<-|[]]; reflexivity | intros []]. Qed.

Lemma download_as_pdf_trace (env : environment) (url : string) (output_path : path)
    (fs : file_system) (a : action) :
  In a (snd (download_as_pdf env url output_path fs)) ->
  is_body_action a = false
  \/ (driver_starts env = true
      /\ In a (snd (download_as_pdf_try env url output_path fs))).
Proof.
  destruct (download_as_pdf_cases env url output_path fs)
    as [(Hd & s & setup & _ & _ & ->)|(Hd & driver & setup & _ & _ & ->)]; cbn [snd];
    intros Hin; apply in_app_or in Hin as [Hin|Hin].
  - left. apply in_map_iff in Hin as (x & <- & _). reflexivity.
  - apply in_app_or in Hin as [Hin|[<-|[]]]; [right; now split | now left].
  - left. apply in_map_iff in Hin as (x & <- & _). reflexivity.
  - left. now apply (finally_quit_not_body driver).
Qed.

(** The [finally] clause quits the session that [self.driver] holds, as
    the last action of the run, and nothing between [_setup_driver] and
    that clause starts or quits a session.  After a [_setup_driver] that
    returned, the session had not been quit before: it is closed exactly
    once, on success, on a stop request and on every later failure alike.
    After a [_setup_driver] that raised with Chrome started, the session
    was already quit in its [except] clause and is quit a second time;
    when Chrome never started, nothing is quit. *)
Theorem download_as_pdf_quits_last (env : environment) (url : string)
    (output_path : path) (fs : file_system)
    (c : completion) (driver : option nat) (setup : list setup_action) :
  start_driver (webdriver_manager env) (chrome env) = (c, driver, setup) ->
  exists body,
    snd (download_as_pdf env url output_path fs)
    = map Setup setup ++ body ++ finally_quit driver
    /\ forallb is_body_action body = true
    /\ (c = Normal -> exists s, driver = Some s /\ ~ In (QuitSession s) setup)
    /\ (c = Exception ->
        body = [] /\ forall s, driver = Some s -> In (QuitSession s) setup).
Proof.
  intros E.
  destruct (download_as_pdf_cases env url output_path fs)
    as [(_ & s & setup' & E' & Hq & ->)|(_ & driver' & setup' & E' & Hs & ->)];
    rewrite E in E'; inversion E'; subst; cbn [snd].
  - exists (snd (download_as_pdf_try env url output_path fs)).
    split; [reflexivity|]. split; [apply download_as_pdf_try_body|].
    split; [intros _; eauto | discriminate].
  - exists []. split; [reflexivity|]. split; [reflexivity|].
    split; [discriminate | intros _; split; [reflexivity | exact Hs]].
Qed.

(** [download_as_pdf] answers [True] only after the page loop has run to
    its end with one artifact per page found, and the document then
    standing at the output path is the merger's serialisation of the
    pages read from those artifacts, in page order, as the loop left
    them. *)
Theorem download_as_pdf_success (env : environment) (url : string)
    (output_path : path) (fs : file_system) :
  flag_of (download_as_pdf env url output_path fs) = true ->
  exists doc_id temp_dir temp_pdfs fs1 acts pages,
    extract_doc_id url = Some doc_id
    /\ temp_dir = dirname output_path ++ ["temp_" +:+ doc_id]
    /\ temp_pdfs = map (scratch_file temp_dir) (seq 1 (pages_found env))
    /\ 0 < pages_found env
    /\ capture_pages env temp_dir (seq 1 (pages_found env)) (makedirs temp_dir fs) []
       = (NextPage, fs1, temp_pdfs, acts)
    /\ merger_append fs1 temp_pdfs [] = Some pages
    /\ In (Merge temp_pdfs) (snd (download_as_pdf env url output_path fs))
    /\ files (final_fs (download_as_pdf env url output_path fs)) !! output_path
       = Some (write_pdf pages).
Proof.
  destruct (download_as_pdf_cases env url output_path fs)
    as [(_ & s & setup & _ & _ & ->)|(_ & driver & setup & _ & _ & ->)];
    [|discriminate].
  unfold download_as_pdf_try, flag_of, final_fs. cbn [fst snd].
  destruct (extract_doc_id url) as [doc_id|]; [|discriminate].
  destruct (document_loads env); cbn [negb]; [|discriminate].
  destruct (stop_after_scroll env); [discriminate|].
  destruct (pages_found env) as [|n]; [discriminate|].
  destruct (temp_dir_created env); cbn [negb]; [|discriminate].
  set (temp_dir := dirname output_path ++ ["temp_" +:+ doc_id]).
  pose proof (capture_pages_pdfs env temp_dir (seq 1 (S n)) (makedirs temp_dir fs) [])
    as Hart.
  pose proof (capture_pages_paths env temp_dir (seq 1 (S n)) (makedirs temp_dir fs) [])
    as Hpaths.
  destruct (capture_pages env temp_dir (seq 1 (S n)) (makedirs temp_dir fs) [])
    as [[[ex fs1] pdfs] acts] eqn:Ecap.
  unfold exit_of, pdfs_of in Hart, Hpaths. cbn [fst snd] in Hart, Hpaths.
  destruct ex; cbn [fst snd]; try discriminate.
  specialize (Hart eq_refl). cbn [app] in Hart. subst pdfs.
  unfold merge_and_cleanup.
  destruct (merge_pdfs env _ output_path fs1) as [[] fs2] eqn:Em; cbn [fst snd];
    [|discriminate].
  intros _. destruct (merge_pdfs_normal _ _ _ _ _ Em) as (pages & Hpages & ->).
  exists doc_id, temp_dir, (map (scratch_file temp_dir) (seq 1 (S n))), fs1, acts, pages.
  do 3 (split; [reflexivity|]). split; [lia|]. split; [exact Ecap|].
  split; [exact Hpages|]. split.
  - apply in_or_app. right. right. apply in_or_app. left.
    apply in_or_app. right. now left.
  - rewrite cleanup_frame; [apply lookup_write_file_eq|].
    intros Hin. destruct (Hpaths output_path Hin) as [[]|(name & Heq)].
    unfold temp_dir in Heq. rewrite <- List.app_assoc in Heq.
    now apply (scratch_path_not_output output_path ("temp_" +:+ doc_id) name).
Qed.



Lemma download_as_pdf_try_stop (env : environment) (url : string)
    (output_path : path) (fs : file_system) (i : nat) :
  1 <= i <= pages_found env -> stop_before_page env i = true ->
  flag_of (download_as_pdf_try env url output_path fs) = false
  /\ (forall a, In a (snd (download_as_pdf_try env url output_path fs)) ->
                is_capture_action a = true \/ exists u, a = Navigate u)
  /\ files (final_fs (download_as_pdf_try env url output_path fs)) !! output_path
     = files fs !! output_path.
Proof.
  intros Hi Hstop. unfold download_as_pdf_try, flag_of, final_fs.
  assert (Hone : forall u, forall a, In a [Navigate u] ->
                   is_capture_action a = true \/ exists v, a = Navigate v).
  { intros u a [<-|[]]; eauto. }
  destruct (extract_doc_id url) as [doc_id|]; cbn [fst snd].
  2:{ split; [reflexivity|]. split; [intros a []|reflexivity]. }
  destruct (document_loads env); cbn [negb fst snd].
  2:{ split; [reflexivity|]. split; [apply Hone | reflexivity]. }
  destruct (stop_after_scroll env); cbn [fst snd].
  1:{ split; [reflexivity|]. split; [apply Hone | reflexivity]. }
  destruct (pages_found env) as [|n]; [lia|].
  destruct (temp_dir_created env); cbn [negb fst snd].
  2:{ split; [reflexivity|]. split; [apply Hone | reflexivity]. }
  set (temp_dir := dirname output_path ++ ["temp_" +:+ doc_id]).
  assert (Hin : In i (seq 1 (S n))) by (apply in_seq; lia).
  pose proof (capture_pages_stop env temp_dir (seq 1 (S n)) (makedirs temp_dir fs) [] i
                Hin Hstop) as Hexit.
  pose proof (capture_pages_capture_actions env temp_dir (seq 1 (S n))
                (makedirs temp_dir fs) []) as Hacts.
  pose proof (capture_pages_frame env temp_dir (seq 1 (S n)) (makedirs temp_dir fs) []
                output_path
                (fun j _ => scratch_file_not_output output_path ("temp_" +:+ doc_id) j))
    as Hframe.
  destruct (capture_pages env temp_dir (seq 1 (S n)) (makedirs temp_dir fs) [])
    as [[[ex fs1] pdfs] acts].
  unfold exit_of, actions_of, fs_of in Hexit, Hacts, Hframe. cbn [fst snd] in *.
  rewrite forallb_forall in Hacts.
  destruct ex; [contradiction | |]; cbn [fst snd];
    (split; [reflexivity|]; split; [|exact Hframe]);
    intros a [<-|Ha]; eauto.
Qed.

(** A stop request at the top of the page loop: [download_as_pdf] answers
    [False], the merge is never started, the output path is left as it
    was, and no scratch file is removed. *)
Theorem download_as_pdf_stop (env : environment) (url : string)
    (output_path : path) (fs : file_system) (i : nat) :
  1 <= i <= pages_found env -> stop_before_page env i = true ->
  flag_of (download_as_pdf env url output_path fs) = false
  /\ (forall pdfs, ~ In (Merge pdfs) (snd (download_as_pdf env url output_path fs)))
  /\ (forall p, ~ In (Remove p) (snd (download_as_pdf env url output_path fs)))
  /\ files (final_fs (download_as_pdf env url output_path fs)) !! output_path
     = files fs !! output_path.
Proof.
  intros Hi Hstop.
  destruct (download_as_pdf_try_stop env url output_path fs i Hi Hstop)
    as (Hflag & Hacts & Hout).
  assert (Hno : forall a, is_body_action a = true -> is_capture_action a = false ->
                          (forall u, a <> Navigate u) ->
                          ~ In a (snd (download_as_pdf env url output_path fs))).
  { intros a Hb Hc Hn Hin.
    destruct (download_as_pdf_trace env url output_path fs a Hin) as [Hb'|[_ Hin']];
      [congruence|].
    destruct (Hacts a Hin') as [Hc'|(u & ->)]; [congruence | now apply (Hn u)]. }
  split; [|split; [|split]].
  - destruct (download_as_pdf_cases env url output_path fs)
      as [(_ & s & setup & _ & _ & ->)|(_ & driver & setup & _ & _ & ->)];
      [exact Hflag | reflexivity].
  - intros pdfs. apply Hno; [reflexivity | reflexivity | discriminate].
  - intros p. apply Hno; [reflexivity | reflexivity | discriminate].
  - destruct (download_as_pdf_cases env url output_path fs)
      as [(_ & s & setup & _ & _ & ->)|(_ & driver & setup & _ & _ & ->)];
      [exact Hout | reflexivity].
Qed.
End DownloadMore.

Lemma download_as_pdf_quits_last_witness :
  exists body,
    snd (download_as_pdf timing_out price_action_url downloads_pdf empty_fs)
    = map Setup [Launch 0; QuitSession 0; SleepTwo; Launch 1; QuitSession 1; SleepTwo;
                 Launch 2; QuitSession 2] ++ body ++ [Quit]
    /\ forallb is_body_action body = true
    /\ (Exception = Normal ->
        exists s, Some 2 = Some s
                  /\ ~ In (QuitSession s)
                       [Launch 0; QuitSession 0; SleepTwo; Launch 1; QuitSession 1;
                        SleepTwo; Launch 2; QuitSession 2])
    /\ (Exception = Exception ->
        body = []
        /\ forall s, Some 2 = Some s ->
                     In (QuitSession s)
                       [Launch 0; QuitSession 0; SleepTwo; Launch 1; QuitSession 1;
                        SleepTwo; Launch 2; QuitSession 2]).
Proof.
  exact (download_as_pdf_quits_last timing_out price_action_url downloads_pdf empty_fs
           Exception (Some 2)
           [Launch 0; QuitSession 0; SleepTwo; Launch 1; QuitSession 1; SleepTwo;
            Launch 2; QuitSession 2] eq_refl).
Defined.


Lemma download_as_pdf_success_witness :
  exists doc_id temp_dir temp_pdfs fs1 acts pages,
    extract_doc_id price_action_url = Some doc_id
    /\ temp_dir = dirname downloads_pdf ++ ["temp_" +:+ doc_id]
    /\ temp_pdfs = map (scratch_file temp_dir) (seq 1 (pages_found example5))
    /\ 0 < pages_found example5
    /\ capture_pages example5 temp_dir (seq 1 (pages_found example5))
         (makedirs temp_dir empty_fs) []
       = (NextPage, fs1, temp_pdfs, acts)
    /\ merger_append fs1 temp_pdfs [] = Some pages
    /\ In (Merge temp_pdfs)
          (snd (download_as_pdf example5 price_action_url downloads_pdf empty_fs))
    /\ files (final_fs (download_as_pdf example5 price_action_url downloads_pdf empty_fs))
         !! downloads_pdf = Some (write_pdf pages).
Proof.
  apply (download_as_pdf_success example5 price_action_url downloads_pdf empty_fs).
  vm_compute. reflexivity.
Defined.

Lemma download_as_pdf_stop_witness :
  flag_of (download_as_pdf stopping_at_three price_action_url downloads_pdf empty_fs) = false
  /\ (forall pdfs, ~ In (Merge pdfs)
        (snd (download_as_pdf stopping_at_three price_action_url downloads_pdf empty_fs)))
  /\ (forall p, ~ In (Remove p)
        (snd (download_as_pdf stopping_at_three price_action_url downloads_pdf empty_fs)))
  /\ files (final_fs (download_as_pdf stopping_at_three price_action_url downloads_pdf
                        empty_fs)) !! downloads_pdf
     = files empty_fs !! downloads_pdf.
Proof.
  apply (download_as_pdf_stop stopping_at_three price_action_url downloads_pdf empty_fs 3).
  - cbn. lia.
  - reflexivity.
Defined.

(** ** Lazy-load driver: what the loop returns *)

Section AutoScrollMore.
Context {D : Type} `{WebDriver D}.
Variable check_stop : option (D -> bool).

Lemma auto_scroll_loop_scrolled (d0 : D) (fuel j : nat) (st st' : scroll_state)
    (ex : loop_exit) (d' : D) :
  scrolled d0 j st ->
  auto_scroll_loop fuel check_stop st (session_after d0 j) = Some (ex, st', d') ->
  exists n, j <= n <= j + fuel /\ scrolled d0 n st' /\ d' = session_after d0 n
            /\ (ex = StoppedByUser \/ 1 <= n).
Proof.
  revert j st. induction fuel as [|fuel IH]; intros j st Hinv; [discriminate|].
  cbn [auto_scroll_loop].
  destruct (match check_stop with Some f => f (session_after d0 j) | None => false end).
  { intros Heq; inversion Heq; subst. exists j. repeat split; try lia; auto; apply Hinv. }
  cbv zeta. destruct Hinv as (Hpos & Hcount & Hnnc).
  replace (scroll_position st + 800)%Z with (800 * Z.of_nat (S j))%Z by lia.
  change (sleep (scroll_to (800 * Z.of_nat (S j)) (session_after d0 j)))
    with (session_after d0 (S j)).
  set (pc := if (count_loaded_pages (session_after d0 j)
                 <? count_loaded_pages (session_after d0 (S j)))%Z
             then count_loaded_pages (session_after d0 (S j)) else page_count st).
  set (nnc := if (count_loaded_pages (session_after d0 j)
                  <? count_loaded_pages (session_after d0 (S j)))%Z
              then 0%Z else (no_new_content_count st + 1)%Z).
  assert (Hnext : forall lh, scrolled d0 (S j)
            {| last_height := lh; scroll_position := (800 * Z.of_nat (S j))%Z;
               page_count := pc; no_new_content_count := nnc |}).
  { intros lh. unfold scrolled. cbn [scroll_position page_count no_new_content_count].
    split; [reflexivity|]. subst pc nnc.
    destruct (count_loaded_pages (session_after d0 j)
              <? count_loaded_pages (session_after d0 (S j)))%Z eqn:Elt.
    - split; [|lia]. right. exists j. split; [lia|]. split; [reflexivity|].
      now apply Z.ltb_lt.
    - split; [|lia]. destruct Hcount as [Hz|(k & Hk & Hpc & Hlt)]; [now left|].
      right. exists k. split; [lia|]. split; assumption. }
  match goal with |- context [if ?c then _ else _] => destruct c end.
  - intros Heq; inversion Heq; subst. exists (S j).
    split; [lia|]. split; [apply Hnext|]. split; [reflexivity | right; lia].
  - intros Hloop. destruct (IH (S j) _ (Hnext _) Hloop) as (n & Hn & Hs & Hd & Hex).
    exists n. split; [lia|]. split; [exact Hs|]. split; [exact Hd|]. right. lia.
Qed.

(** Whatever way the loop is left after [n] increments, it has scrolled to
    [800 * n], the counter of increments without new pages is between 0
    and [n], and the count returned is 0 or the number of pages seen
    right after an increment that revealed new ones (never a count taken
    before the first increment). *)
Theorem auto_scroll_run_result (d : D) (fuel : nat) (ex : loop_exit)
    (st : scroll_state) (d' : D) :
  auto_scroll_run fuel check_stop d = Some (ex, st, d') ->
  exists n, n <= fuel /\ scrolled d n st /\ d' = session_after d n
            /\ (ex = StoppedByUser \/ 1 <= n).
Proof.
  intros Hrun.
  destruct (auto_scroll_loop_scrolled d fuel 0 (initial_scroll_state d) st ex d')
    as (n & Hn & Hrest); [|exact Hrun|].
  - unfold scrolled, initial_scroll_state. cbn. repeat split; auto; lia.
  - exists n. split; [lia | exact Hrest].
Qed.

(** A page whose height never exceeds [Hmax] is left after at most
    [Hmax / 800 + 1] increments, whether or not its height ever settles. *)
Theorem auto_scroll_bounded_height (d : D) (Hmax : Z) :
  (forall k, (height_read d k <= Hmax)%Z) ->
  exists ex st d',
    auto_scroll_run (S (Z.to_nat (Hmax / 800))) check_stop d = Some (ex, st, d')
    /\ (scroll_position st <= 800 * Z.of_nat (S (Z.to_nat (Hmax / 800))))%Z.
Proof.
  intros Hbound.
  destruct (auto_scroll_loop_returns check_stop d (S (Z.to_nat (Hmax / 800))) 0
              (initial_scroll_state d)) as ([[ex st] d'] & Hrun).
  - reflexivity.
  - exists (Z.to_nat (Hmax / 800)). split; [lia|].
    specialize (Hbound (Z.to_nat (Hmax / 800))).
    assert (Hmax / 800 <= Z.of_nat (Z.to_nat (Hmax / 800)))%Z by lia.
    pose proof (Z.mul_succ_div_gt Hmax 800 ltac:(lia)). lia.
  - exists ex, st, d'. split; [exact Hrun|].
    destruct (auto_scroll_loop_scrolled d (S (Z.to_nat (Hmax / 800))) 0
                (initial_scroll_state d) st ex d')
      as (n & Hn & (Hpos & _) & _); [|exact Hrun|rewrite Hpos; lia].
    unfold scrolled, initial_scroll_state. cbn. repeat split; auto; lia.
Qed.
End AutoScrollMore.

Lemma auto_scroll_run_result_witness :
  exists n, n <= 10 /\ scrolled first_view n
                         {| last_height := 5000; scroll_position := 5600;
                            page_count := 6; no_new_content_count := 2 |}
            /\ {| g_offset := 3920; g_pages := 6 |} = session_after first_view n
            /\ (ReachedEnd false true = StoppedByUser \/ 1 <= n).
Proof.
  apply (auto_scroll_run_result None first_view 10 (ReachedEnd false true)).
  vm_compute. reflexivity.
Defined.

Lemma auto_scroll_bounded_height_witness :
  exists ex st d',
    auto_scroll_run (S (Z.to_nat (5000 / 800))) None first_view = Some (ex, st, d')
    /\ (scroll_position st <= 800 * Z.of_nat (S (Z.to_nat (5000 / 800))))%Z.
Proof.
  apply (auto_scroll_bounded_height None first_view 5000).
  intros k. unfold height_read. cbn. lia.
Defined.

(** ** The JSONP payload *)

Lemma last_close_absent (t : string) : contains ");" t = false -> last_close t = None.
Proof.
  induction t as [|c t IH]; [reflexivity|].
  rewrite contains_unfold. cbn [last_close].
  destruct (startswith ");" (String c t)); [discriminate|].
  intros Ht. now rewrite (IH Ht).
Qed.

Lemma last_close_append (arg tail : string) :
  last_close tail = None ->
  last_close (arg +:+ ");" +:+ tail) = Some (String.length arg).
Proof.
  intros Ht. induction arg as [|c arg IH].
  - cbn. now rewrite Ht.
  - cbn [String.append last_close String.length]. cbn [String.append] in IH.
    now rewrite IH.
Qed.

Lemma search_callback_unfold (s : string) :
  search_callback s =
  match match_callback_here s with
  | Some g => Some g
  | None => match s with EmptyString => None | String _ s' => search_callback s' end
  end.
Proof. now destruct s. Qed.

Lemma match_callback_here_marker (s g : string) :
  match_callback_here s = Some g -> startswith "window.page" s = true.
Proof.
  unfold match_callback_here, startswith.
  now destruct (drop_prefix "window.page" s).
Qed.

Lemma search_callback_marker (s g : string) :
  search_callback s = Some g -> contains "window.page" s = true.
Proof.
  induction s as [|c s IH]; rewrite search_callback_unfold, contains_unfold.
  - destruct (match_callback_here "") eqn:E; [|discriminate].
    now rewrite (match_callback_here_marker _ _ E).
  - destruct (match_callback_here (String c s)) eqn:E.
    + now rewrite (match_callback_here_marker _ _ E).
    + intros Hs. rewrite (IH Hs). now destruct (startswith _ _).
Qed.

(** A response that begins with the callback wrapper and has no further
    closing parenthesis with semicolon after it: the wrapper is stripped,
    its argument handed to the JSON parser as it stands, and the first
    element of the array it denotes is the content; when the argument is
    not JSON, not an array or an empty array, there is no content. *)
Theorem extract_jsonp_content_payload
    (json_loads : string -> option json) (N arg tail : string) :
  N <> "" -> all_digits N = true -> contains ");" tail = false ->
  extract_jsonp_content json_loads
    ("window.page" +:+ N +:+ "_callback(" +:+ arg +:+ ");" +:+ tail)
  = match json_loads arg with
    | Some (JArray (first :: _)) => Some first
    | _ => None
    end.
Proof.
  intros HN Hd Htail. unfold extract_jsonp_content.
  assert (Hm : match_callback_here
                 ("window.page" +:+ N +:+ "_callback(" +:+ arg +:+ ");" +:+ tail)
               = Some arg).
  { unfold match_callback_here. rewrite drop_prefix_append.
    rewrite (take_digits_append N ("_callback(" +:+ arg +:+ ");" +:+ tail) Hd eq_refl).
    destruct N as [|c N]; [congruence|].
    rewrite string_drop_append, drop_prefix_append.
    rewrite (last_close_append arg tail (last_close_absent tail Htail)).
    now rewrite substring_prefix. }
  rewrite search_callback_unfold, Hm. reflexivity.
Qed.

Lemma extract_jsonp_content_payload_witness :
  extract_jsonp_content (fun s => Some (JArray [JString s]))
    ("window.page" +:+ "1" +:+ "_callback(" +:+ "[1]" +:+ ");" +:+ "")
  = Some (JString "[1]").
Proof.
  apply (extract_jsonp_content_payload (fun s => Some (JArray [JString s])) "1" "[1]" "").
  - discriminate.
  - reflexivity.
  - reflexivity.
Defined.

(** A response in which [window.page] does not occur has no content,
    whatever else it holds. *)
Theorem extract_jsonp_content_no_marker
    (json_loads : string -> option json) (response : string) :
  contains "window.page" response = false ->
  extract_jsonp_content json_loads response = None.
Proof.
  intros Hc. unfold extract_jsonp_content.
  destruct (search_callback response) as [g|] eqn:E; [|reflexivity].
  rewrite (search_callback_marker _ _ E) in Hc. discriminate.
Qed.

Lemma extract_jsonp_content_no_marker_witness :
  extract_jsonp_content (fun s => Some (JArray [JString s])) "<html>Not Found</html>" = None.
Proof.
  apply (extract_jsonp_content_no_marker (fun s => Some (JArray [JString s]))).
  reflexivity.
Defined.

(** ** Starting the browser *)

(** [_setup_driver] launches the browser at most three times and pauses
    at most twice.  It returns exactly when one of the three attempts
    succeeds; the driver is then the session of the first attempt that
    succeeded, reached after one pause per failed attempt, and that
    session is not closed.  When it raises, every session that a failed
    attempt had started has been closed. *)
Theorem setup_driver_outcome (launch : nat -> launch_result) :
  length (List.filter is_launch (snd (setup_driver launch))) <= 3
  /\ length (List.filter is_sleep (snd (setup_driver launch))) <= 2
  /\ (fst (fst (setup_driver launch)) = Normal <-> exists a, a < 3 /\ launch a = Launched)
  /\ (forall a, a < 3 -> launch a = Launched -> (forall b, b < a -> launch b <> Launched) ->
        snd (fst (setup_driver launch)) = Some a
        /\ length (List.filter is_sleep (snd (setup_driver launch))) = a
        /\ length (List.filter is_launch (snd (setup_driver launch))) = S a
        /\ ~ In (QuitSession a) (snd (setup_driver launch)))
  /\ (fst (fst (setup_driver launch)) = Exception ->
      forall a, a < 3 -> launch a = TimeoutRaises ->
                In (QuitSession a) (snd (setup_driver launch))).
Proof.
  unfold setup_driver. cbn [seq max_retries setup_attempts].
  destruct (launch 0) eqn:E0; destruct (launch 1) eqn:E1; destruct (launch 2) eqn:E2;
    cbn;
    (split; [lia|]); (split; [lia|]);
    (split; [split; [intros Hn; try discriminate;
                     first [exists 0; split; [lia | exact E0]
                           |exists 1; split; [lia | exact E1]
                           |exists 2; split; [lia | exact E2]]
                    |intros (a & Ha & Hl);
                     try reflexivity;
                     destruct a as [|[|[|a]]]; try lia; congruence]|]);
    (split;
     [intros a Ha Hl Hfirst;
      destruct a as [|[|[|a]]]; try lia; try congruence;
      try (exfalso; apply (Hfirst 0); [lia | assumption]);
      try (exfalso; apply (Hfirst 1); [lia | assumption]);
      (repeat split; try reflexivity;
       intros Hin; repeat (destruct Hin as [Hin|Hin]; [discriminate|]); exact Hin)
     |intros Hex a Ha Hl; try discriminate;
      destruct a as [|[|[|a]]]; try lia; try congruence; tauto]).
Qed.

(** ** The entry point of the browser mode *)

Section SeleniumFacts.
Context {page : Type} `{PdfLibrary page}.

End SeleniumFacts.


(** ** Static retriever: the shape of a structured descriptor *)

Lemma substring_all (s : string) : String.substring 0 (String.length s) s = s.
Proof. induction s as [|c s IH]; cbn; [reflexivity | now rewrite IH]. Qed.

Lemma substring_tail (n : nat) (s : string) :
  n <= String.length s ->
  exists a, s = a +:+ String.substring n (String.length s - n) s /\ String.length a = n.
Proof.
  revert s. induction n as [|n IH]; intros s Hn.
  - exists "". rewrite Nat.sub_0_r, substring_all. auto.
  - destruct s as [|c s]; [cbn in Hn; lia|].
    destruct (IH s) as (a & Ha & Hl); [cbn in Hn; lia|].
    exists (String c a). cbn. rewrite <- Ha, Hl. auto.
Qed.

Lemma endswith_split (p s : string) : endswith p s = true -> exists a, s = a +:+ p.
Proof.
  unfold endswith.
  destruct (drop_prefix p _) as [r|] eqn:E; [|discriminate].
  intros Hle. apply Nat.leb_le in Hle. apply drop_prefix_Some in E.
  destruct (substring_tail (String.length s - String.length p) s) as (a & Ha & Hl); [lia|].
  replace (String.length s - (String.length s - String.length p))
    with (String.length p) in Ha by lia.
  rewrite E in Ha. exists a.
  assert (Hr : r = "").
  { apply (f_equal String.length) in Ha. rewrite !length_append in Ha.
    destruct r; [reflexivity | cbn in Ha; lia]. }
  subst r. now rewrite append_nil_r in Ha.
Qed.

Lemma match_content_url_shape (s g : string) (len : nat) :
  match_content_url s = Some (g, len) ->
  exists middle, middle <> "" /\ g = "https://" +:+ middle +:+ ".jsonp".
Proof.
  unfold match_content_url.
  destruct (drop_prefix "contentUrl:" s) as [r|]; [|discriminate].
  destruct (drop_prefix (String dquote "") (skip_spaces r)) as [r1|]; [|discriminate].
  destruct (drop_prefix "https://" r1) as [r2|]; [|discriminate].
  destruct (until_quote r2) as [[body rest]|]; [|discriminate].
  destruct (endswith ".jsonp" body) eqn:Ee; cbn [andb]; [|discriminate].
  destruct (Nat.ltb 6 (String.length body)) eqn:El; [|discriminate].
  intros Heq. inversion Heq; subst.
  destruct (endswith_split _ _ Ee) as (middle & ->).
  exists middle. split; [|reflexivity].
  intros ->. cbn in El. discriminate.
Qed.

Lemma findall_from_shape (skip : nat) (s g : string) :
  In g (findall_from skip s) ->
  exists middle, middle <> "" /\ g = "https://" +:+ middle +:+ ".jsonp".
Proof.
  revert skip. induction s as [|c s IH]; intros skip; cbn [findall_from]; [intros []|].
  destruct skip as [|k]; [|apply IH].
  destruct (match_content_url (String c s)) as [[g' len]|] eqn:E; [|apply IH].
  intros [<-|Hin]; [exact (match_content_url_shape _ _ _ E) | exact (IH _ Hin)].
Qed.

Lemma skip_spaces_split (r : string) :
  exists spaces, r = spaces +:+ skip_spaces r /\ all_spaces spaces = true.
Proof.
  induction r as [|c r (spaces & Hr & Hs)]; [now exists ""|].
  cbn [skip_spaces]. destruct (is_space c) eqn:Ec; [|now exists ""].
  exists (String c spaces). cbn. rewrite <- Hr. unfold all_spaces in *. cbn.
  now rewrite Ec, Hs.
Qed.

Lemma until_quote_split (r body rest : string) :
  until_quote r = Some (body, rest) ->
  r = body +:+ String dquote rest /\ no_quote body = true.
Proof.
  revert body. induction r as [|c r IH]; intros body; cbn [until_quote]; [discriminate|].
  destruct (Ascii.eqb c dquote) eqn:Ec.
  - intros Heq; inversion Heq; subst. apply Ascii.eqb_eq in Ec. subst c. now split.
  - destruct (until_quote r) as [[b rest']|]; [|discriminate].
    intros Heq; inversion Heq; subst. destruct (IH b eq_refl) as [-> Hb].
    split; [reflexivity|]. unfold no_quote in *. cbn. now rewrite Ec, Hb.
Qed.

(** A match of the pattern at the head of [s]: the key, white space, and
    between two quotes the group, which holds no quote. *)
Lemma match_content_url_value (s g : string) (len : nat) :
  match_content_url s = Some (g, len) ->
  exists spaces post,
    s = "contentUrl:" +:+ spaces +:+ String dquote (g +:+ String dquote post)
    /\ all_spaces spaces = true /\ no_quote g = true.
Proof.
  unfold match_content_url.
  destruct (drop_prefix "contentUrl:" s) as [r|] eqn:E; [|discriminate].
  destruct (drop_prefix (String dquote "") (skip_spaces r)) as [r1|] eqn:E1; [|discriminate].
  destruct (drop_prefix "https://" r1) as [r2|] eqn:E2; [|discriminate].
  destruct (until_quote r2) as [[body rest]|] eqn:E3; [|discriminate].
  destruct (endswith ".jsonp" body && Nat.ltb 6 (String.length body)); [|discriminate].
  intros Heq. inversion Heq; subst. clear Heq.
  apply drop_prefix_Some in E, E1, E2. apply until_quote_split in E3 as [E3 Hq].
  destruct (skip_spaces_split r) as (spaces & Hr & Hs).
  exists spaces, rest. split; [|split; [exact Hs|]].
  - subst s r1 r2. rewrite Hr, E1. reflexivity.
  - unfold no_quote in *. cbn. exact Hq.
Qed.

Lemma findall_from_value (skip : nat) (s g : string) :
  In g (findall_from skip s) -> content_url_value s g.
Proof.
  revert skip. induction s as [|c s IH]; intros skip; cbn [findall_from]; [intros []|].
  assert (Hlater : forall k, In g (findall_from k s) -> content_url_value (String c s) g).
  { intros k Hin. destruct (IH k Hin) as (pre & spaces & post & -> & Hs & Hq).
    now exists (String c pre), spaces, post. }
  destruct skip as [|k]; [|apply Hlater].
  destruct (match_content_url (String c s)) as [[g' len]|] eqn:E; [|apply Hlater].
  intros [<-|Hin]; [|exact (Hlater _ Hin)].
  destruct (match_content_url_value _ _ _ E) as (spaces & post & Hs & Hsp & Hq).
  now exists "", spaces, post.
Qed.

Lemma structured_matches_shape check_stop mode title ms train polls (jsonp : string) :
  In jsonp (save_urls (fst (fst (structured_matches check_stop mode title ms train polls)))) ->
  exists m, In m ms /\ jsonp = replace escaped_slash "/" m.
Proof.
  revert train polls. induction ms as [|m ms IH]; intros train polls;
    cbn [structured_matches]; [cbn; tauto|].
  destruct (poll check_stop polls) as [stop polls']. destruct stop; [cbn; tauto|].
  pose proof (save_content_url (replace escaped_slash "/" m) mode title train jsonp) as Hu.
  destruct (save_content _ mode train title) as [train' reqs]. cbn [snd] in Hu.
  specialize (IH train' polls').
  destruct (structured_matches check_stop mode title ms train' polls') as [[more t] q].
  cbn [fst snd] in *. rewrite save_urls_app. intros Hin.
  apply in_app_or in Hin as [Hin|Hin].
  - destruct (Hu Hin) as [-> _]. exists m. split; [now left | reflexivity].
  - destruct (IH Hin) as (m' & Hm' & ->). exists m'. split; [now right | reflexivity].
Qed.

(** In the structured encoding every descriptor handed to a sink comes
    from a script of the page, where it stands between two quotes as the
    value of a [contentUrl:] key, white space at most between the colon
    and the opening quote; the value holds no quote and runs from
    ["https://"] to [".jsonp"] with something in between, and it is
    handed on with its escaped slashes replaced. *)
Theorem structured_loop_descriptors
    (check_stop : option (nat -> bool)) (mode title : string)
    (scripts : list (option string)) (train polls : nat) (jsonp : string) :
  In jsonp (save_urls (structured_loop check_stop mode title scripts train polls)) ->
  exists body middle,
    In (Some body) scripts
    /\ middle <> ""
    /\ content_url_value body ("https://" +:+ middle +:+ ".jsonp")
    /\ jsonp = replace escaped_slash "/" ("https://" +:+ middle +:+ ".jsonp").
Proof.
  revert train polls. induction scripts as [|s scripts IH]; intros train polls;
    cbn [structured_loop]; [cbn; tauto|].
  destruct (poll check_stop polls) as [stop polls']. destruct stop; [cbn; tauto|].
  assert (Hrest : In jsonp (save_urls (structured_loop check_stop mode title scripts
                                         train polls')) ->
                  exists body middle,
                    In (Some body) (s :: scripts)
                    /\ middle <> ""
                    /\ content_url_value body ("https://" +:+ middle +:+ ".jsonp")
                    /\ jsonp = replace escaped_slash "/" ("https://" +:+ middle +:+ ".jsonp")).
  { intros Hin. destruct (IH _ _ Hin) as (body & middle & Hb & Hrest).
    exists body, middle. split; [now right | exact Hrest]. }
  destruct s as [[|c body]|]; try exact Hrest.
  pose proof (structured_matches_shape check_stop mode title
                (findall_content_url (String c body)) train polls' jsonp) as Hm.
  destruct (structured_matches _ _ _ _ train polls') as [[reqs t] q]. cbn [fst snd] in Hm.
  rewrite save_urls_app. intros Hin. apply in_app_or in Hin as [Hin|Hin].
  - destruct (Hm Hin) as (m & Hfound & ->).
    destruct (findall_from_shape 0 _ _ Hfound) as (middle & Hne & ->).
    exists (String c body), middle. split; [now left|]. split; [exact Hne|].
    split; [exact (findall_from_value 0 _ _ Hfound) | reflexivity].
  - destruct (IH _ _ Hin) as (b & middle & Hb & Hrest').
    exists b, middle. split; [now right | exact Hrest'].
Qed.

Lemma structured_loop_descriptors_witness :
  exists body middle,
    In (Some body)
       [Some ("var x = {contentUrl: " +:+ String dquote "https://a.b/pages/1.jsonp"
              +:+ String dquote "};")]
    /\ middle <> ""
    /\ content_url_value body ("https://" +:+ middle +:+ ".jsonp")
    /\ "https://a.b/pages/1.jsonp"
       = replace escaped_slash "/" ("https://" +:+ middle +:+ ".jsonp").
Proof.
  apply (structured_loop_descriptors None "text" "T"
           [Some ("var x = {contentUrl: " +:+ String dquote "https://a.b/pages/1.jsonp"
                  +:+ String dquote "};")] 1 0).
  vm_compute. left. reflexivity.
Defined.

(** ** The browser modes and the canonical endpoint *)

(** The two ways a run of the HTML mode can go, as for the PDF mode. *)
Lemma download_as_html_cases (env : html_environment) (url : string)
    (output_path : path) (fs : file_system) :
  (h_driver_starts env = true
   /\ exists s setup,
        start_driver (h_webdriver_manager env) (h_chrome env) = (Normal, Some s, setup)
        /\ download_as_html env url output_path fs
           = (flag_of (download_as_html_try env url output_path fs),
              final_fs (download_as_html_try env url output_path fs),
              map Setup setup ++ snd (download_as_html_try env url output_path fs)
                ++ [Quit]))
  \/ (h_driver_starts env = false
      /\ exists driver setup,
           start_driver (h_webdriver_manager env) (h_chrome env)
           = (Exception, driver, setup)
           /\ download_as_html env url output_path fs
              = (false, fs, map Setup setup ++ finally_quit driver)).
Proof.
  unfold h_driver_starts, download_as_html.
  destruct (start_driver_cases (h_webdriver_manager env) (h_chrome env))
    as [(s & setup & -> & _)|(driver & setup & -> & _)]; [left | right];
    (split; [reflexivity|]).
  - exists s, setup. split; [reflexivity|].
    now destruct (download_as_html_try env url output_path fs) as [[ok fs'] acts].
  - now exists driver, setup.
Qed.

Lemma download_as_html_try_navigation (env : html_environment) (url : string)
    (output_path : path) (fs : file_system) (u : string) :
  In (Navigate u) (snd (download_as_html_try env url output_path fs))
  <-> option_map embed_url (extract_doc_id url) = Some u.
Proof.
  unfold download_as_html_try.
  assert (Hshort : forall doc_id, In (Navigate u) [Navigate (embed_url doc_id)]
                                  <-> Some (embed_url doc_id) = Some u).
  { intros doc_id. split; [intros [Heq|[]]; now inversion Heq|].
    intros Heq; inversion Heq. now left. }
  destruct (extract_doc_id url) as [doc_id|]; cbn [option_map];
    [|split; [intros [] | discriminate]].
  destruct (h_document_loads env); cbn [negb snd]; [|apply Hshort].
  destruct (h_stop_after_scroll env); [apply Hshort|].
  destruct (page_source env); [|apply Hshort].
  destruct (html_write env); apply Hshort.
Qed.

Section Navigation.
Context {page : Type} `{PdfLibrary page}.

(** In the PDF mode and in the HTML mode alike, the browser is sent to an
    address exactly when [_setup_driver] has returned and the URL holds a
    document id, and the address is then the canonical endpoint of that
    id, whichever of the three URL shapes was supplied: it is sent there
    and to no other address. *)
Theorem dynamic_modes_navigate_canonical (env : environment) (henv : html_environment)
    (url : string) (output_path : path) (fs : file_system) (u : string) :
  (In (Navigate u) (snd (download_as_pdf env url output_path fs))
   <-> driver_starts env = true
       /\ option_map embed_url (extract_doc_id url) = Some u)
  /\ (In (Navigate u) (snd (download_as_html henv url output_path fs))
      <-> h_driver_starts henv = true
          /\ option_map embed_url (extract_doc_id url) = Some u).
Proof.
  split; split.
  - intros Hin.
    destruct (download_as_pdf_trace env url output_path fs _ Hin) as [Hb|[Hd Hin']];
      [discriminate|].
    split; [exact Hd | now apply (download_as_pdf_try_navigate_only env url output_path fs)].
  - intros [Hd Hu].
    destruct (download_as_pdf_started env url output_path fs Hd) as (s & setup & _ & _ & ->).
    cbn [snd]. apply in_or_app. right. apply in_or_app. left.
    destruct (extract_doc_id url) as [doc_id|] eqn:Hid; [|discriminate].
    cbn in Hu. inversion Hu; subst.
    now apply download_as_pdf_try_navigates.
  - intros Hin.
    destruct (download_as_html_cases henv url output_path fs)
      as [(Hd & s & setup & _ & E)|(Hd & driver & setup & _ & E)];
      rewrite E in Hin; cbn [snd] in Hin; apply in_app_or in Hin as [Hin|Hin].
    + apply in_map_iff in Hin as (x & Hx & _). discriminate.
    + apply in_app_or in Hin as [Hin|[Hin|[]]]; [|discriminate].
      split; [exact Hd | now apply (download_as_html_try_navigation henv url output_path fs)].
    + apply in_map_iff in Hin as (x & Hx & _). discriminate.
    + apply finally_quit_not_body in Hin. discriminate.
  - intros [Hd Hu].
    destruct (download_as_html_cases henv url output_path fs)
      as [(_ & s & setup & _ & ->)|(Hd' & _)]; [|congruence].
    cbn [snd]. apply in_or_app. right. apply in_or_app. left.
    now apply download_as_html_try_navigation.
Qed.
End Navigation.

Lemma dynamic_modes_navigate_canonical_witness :
  In (Navigate "https://www.scribd.com/embeds/799698609/content")
     (snd (download_as_pdf example5 "https://www.scribd.com/doc/799698609/Some-Title"
             downloads_pdf empty_fs))
  /\ ~ In (Navigate "https://www.scribd.com/doc/799698609/Some-Title")
          (snd (download_as_html saving_html
                  "https://www.scribd.com/doc/799698609/Some-Title"
                  ["downloads"; "Scribd_799698609.html"] empty_fs)).
Proof.
  split.
  - apply (proj1 (dynamic_modes_navigate_canonical example5 saving_html
                    "https://www.scribd.com/doc/799698609/Some-Title" downloads_pdf empty_fs
                    "https://www.scribd.com/embeds/799698609/content")).
    split; reflexivity.
  - intros Hin.
    apply (proj2 (dynamic_modes_navigate_canonical example5 saving_html
                    "https://www.scribd.com/doc/799698609/Some-Title"
                    ["downloads"; "Scribd_799698609.html"] empty_fs
                    "https://www.scribd.com/doc/799698609/Some-Title")) in Hin.
    destruct Hin as [_ Hu]. vm_compute in Hu. discriminate.
Defined.

(** The HTML mode answers [True] only after the page source, lazy loading
    done, has been written to the output path as it stands; and when it
    answers [False] without a write having broken off, the output path
    holds what it held before. *)
Theorem download_as_html_outcome (env : html_environment) (url : string)
    (output_path : path) (fs : file_system) :
  (flag_of (download_as_html env url output_path fs) = true ->
   exists html_content,
     page_source env = Some html_content
     /\ files (final_fs (download_as_html env url output_path fs)) !! output_path
        = Some html_content)
  /\ (flag_of (download_as_html env url output_path fs) = false ->
      html_write env = WriteOk ->
      files (final_fs (download_as_html env url output_path fs)) !! output_path
      = files fs !! output_path).
Proof.
  destruct (download_as_html_cases env url output_path fs)
    as [(_ & s & setup & _ & ->)|(_ & driver & setup & _ & ->)];
    [|split; [discriminate | reflexivity]].
  unfold download_as_html_try, flag_of, final_fs. cbn [fst snd].
  destruct (extract_doc_id url); [|split; [discriminate | reflexivity]].
  destruct (h_document_loads env); cbn [negb]; [|split; [discriminate | reflexivity]].
  destruct (h_stop_after_scroll env); [split; [discriminate | reflexivity]|].
  destruct (page_source env) as [html_content|]; [|split; [discriminate | reflexivity]].
  destruct (html_write env); cbn [fst snd]; split; try discriminate.
  intros _. exists html_content. split; [reflexivity | apply lookup_write_file_eq].
Qed.

(** ** Static retriever: what reaches the sinks *)

Lemma save_content_request (jsonp mode title : string) (train : nat)
    (to : sink) (j t : string) (n : nat) :
  In (Save to j t n) (snd (save_content jsonp mode train title)) ->
  to = sink_of_mode mode /\ t = title.
Proof.
  destruct jsonp; cbn; [tauto|]. intros [Heq|[]]. now inversion Heq.
Qed.

Lemma legacy_loop_requests check_stop mode title scripts train polls
    (to : sink) (j t : string) (n : nat) :
  In (Save to j t n) (legacy_loop check_stop mode title scripts train polls) ->
  to = sink_of_mode mode /\ t = title.
Proof.
  revert train polls. induction scripts as [|s scripts IH]; intros train polls;
    cbn [legacy_loop]; [intros []|].
  destruct (poll check_stop polls) as [stop polls']. destruct stop; [intros []|].
  destruct s as [[|c body]|]; try apply IH.
  destruct (find "https://" (String c body)) as [p1|]; try apply IH.
  destruct (find ".jsonp" (String c body)) as [p2|]; try apply IH.
  pose proof (save_content_request (slice p1 (p2 + 6) (String c body)) mode title train
                to j t n) as Hs.
  destruct (save_content _ mode train title) as [train' reqs]. cbn [snd] in Hs.
  intros Hin. apply in_app_or in Hin as [Hin|Hin]; [auto | exact (IH _ _ Hin)].
Qed.

Lemma structured_matches_requests check_stop mode title ms train polls
    (to : sink) (j t : string) (n : nat) :
  In (Save to j t n) (fst (fst (structured_matches check_stop mode title ms train polls))) ->
  to = sink_of_mode mode /\ t = title.
Proof.
  revert train polls. induction ms as [|m ms IH]; intros train polls;
    cbn [structured_matches]; [intros []|].
  destruct (poll check_stop polls) as [stop polls']. destruct stop; [intros []|].
  pose proof (save_content_request (replace escaped_slash "/" m) mode title train to j t n)
    as Hs.
  destruct (save_content _ mode train title) as [train' reqs]. cbn [snd] in Hs.
  specialize (IH train' polls').
  destruct (structured_matches check_stop mode title ms train' polls') as [[more t'] q].
  cbn [fst snd] in *. intros Hin. apply in_app_or in Hin as [Hin|Hin]; auto.
Qed.

Lemma structured_loop_requests check_stop mode title scripts train polls
    (to : sink) (j t : string) (n : nat) :
  In (Save to j t n) (structured_loop check_stop mode title scripts train polls) ->
  to = sink_of_mode mode /\ t = title.
Proof.
  revert train polls. induction scripts as [|s scripts IH]; intros train polls;
    cbn [structured_loop]; [intros []|].
  destruct (poll check_stop polls) as [stop polls']. destruct stop; [intros []|].
  destruct s as [[|c body]|]; try apply IH.
  pose proof (structured_matches_requests check_stop mode title
                (findall_content_url (String c body)) train polls' to j t n) as Hs.
  destruct (structured_matches _ _ _ _ train polls') as [[reqs t'] q]. cbn [fst snd] in Hs.
  intros Hin. apply in_app_or in Hin as [Hin|Hin]; [auto | exact (IH _ _ Hin)].
Qed.

(** Every content request of a run goes to the sink of the requested mode
    and carries a title without any forbidden character, whether the
    title was read from the page or made up from the document id; the
    files named after it can be created. *)
Theorem get_scribd_document_requests
    (fetch : string -> option markup) (check_stop : option (nat -> bool))
    (url mode : string) (to : sink) (jsonp title : string) (train : nat) :
  In (Save to jsonp title train) (get_scribd_document fetch check_stop url mode) ->
  to = sink_of_mode mode /\ clean title.
Proof.
  unfold get_scribd_document.
  destruct (get_doc_id url) as [doc_id|]; [|intros []].
  intros [Heq|Hin]; [discriminate|].
  destruct (fetch _) as [soup|]; [|destruct Hin].
  unfold discover in Hin.
  assert (Hclean : forall t, title = sanitize_title t -> clean title)
    by (intros t ->; rewrite sanitize_title_map; apply string_map_clean).
  destruct (has_legacy_callback (scripts soup)); cbn [snd] in Hin.
  - destruct (legacy_loop_requests _ _ _ _ _ _ _ _ _ _ Hin) as [Hto Ht]. eauto.
  - destruct (structured_loop_requests _ _ _ _ _ _ _ _ _ _ Hin) as [Hto Ht]. eauto.
Qed.

Lemma get_scribd_document_requests_witness :
  TextSink = sink_of_mode "text" /\ clean "A_title".
Proof.
  apply (get_scribd_document_requests legacy_document None price_action_url "text" TextSink
           "https://html2-f.scribdassets.com/8u7q15n1q8z07to/pages/1-a9de44b065.jsonp"
           "A_title" 1).
  vm_compute. right. left. reflexivity.
Defined.

(** ** Page capturer: which capture is kept *)

(** The file of a page holds the first capture that succeeds: attempts in
    their order and, within an attempt, the print before the screenshot.
    No placeholder is then made, and the print is tried once per attempt
    up to that one. *)
Theorem capture_page_first_success (env : environment) (temp_dir : path) (i : nat)
    (fs : file_system) (temp_pdfs : list path) (a : nat) (data : string) :
  stop_before_page env i = false -> scroll_into_view env i = true ->
  a < 3 ->
  (forall b, b < a -> exists r1 r2, print_to_pdf env i b = CaptureFails r1
                                    /\ screenshot_pdf env i b = CaptureFails r2) ->
  (print_to_pdf env i a = CaptureOk data
   \/ exists r, print_to_pdf env i a = CaptureFails r
                /\ screenshot_pdf env i a = CaptureOk data) ->
  exit_of (capture_page env temp_dir i fs temp_pdfs) = NextPage
  /\ files (fs_of (capture_page env temp_dir i fs temp_pdfs)) !! scratch_file temp_dir i
     = Some data
  /\ ~ In (CreateBlank i) (actions_of (capture_page env temp_dir i fs temp_pdfs))
  /\ length (List.filter is_print (actions_of (capture_page env temp_dir i fs temp_pdfs)))
     = S a.
Proof.
  intros Hstop Hscroll Ha Hfail Hok.
  unfold capture_page, exit_of, fs_of, actions_of, scratch_file.
  rewrite Hstop, Hscroll. cbn [negb seq max_retries capture_attempts].
  assert (H0 : 0 < a -> exists r1 r2, print_to_pdf env i 0 = CaptureFails r1
                                      /\ screenshot_pdf env i 0 = CaptureFails r2)
    by (intros; apply Hfail; lia).
  assert (H1 : 1 < a -> exists r1 r2, print_to_pdf env i 1 = CaptureFails r1
                                      /\ screenshot_pdf env i 1 = CaptureFails r2)
    by (intros; apply Hfail; lia).
  destruct a as [|[|[|a]]]; [| | |lia].
  - destruct Hok as [->|(r & -> & ->)]; cbn;
      (repeat split; [apply lookup_insert_eq|]);
      intros Hin; repeat (destruct Hin as [Hin|Hin]; [discriminate|]); exact Hin.
  - destruct H0 as (r1 & r2 & -> & ->); [lia|].
    destruct Hok as [->|(r & -> & ->)]; cbn;
      (repeat split; [apply lookup_insert_eq|]);
      intros Hin; repeat (destruct Hin as [Hin|Hin]; [discriminate|]); exact Hin.
  - destruct H0 as (r1 & r2 & -> & ->); [lia|].
    destruct H1 as (r3 & r4 & -> & ->); [lia|].
    destruct Hok as [->|(r & -> & ->)]; cbn;
      (repeat split; [apply lookup_insert_eq|]);
      intros Hin; repeat (destruct Hin as [Hin|Hin]; [discriminate|]); exact Hin.
Qed.

Lemma capture_page_first_success_witness :
  exit_of (capture_page example5 downloads_temp 2 empty_fs []) = NextPage
  /\ files (fs_of (capture_page example5 downloads_temp 2 empty_fs []))
       !! scratch_file downloads_temp 2 = Some (printed 2)
  /\ ~ In (CreateBlank 2) (actions_of (capture_page example5 downloads_temp 2 empty_fs []))
  /\ length (List.filter is_print
               (actions_of (capture_page example5 downloads_temp 2 empty_fs []))) = 1.
Proof.
  apply (capture_page_first_success example5 downloads_temp 2 empty_fs [] 0 (printed 2)).
  - reflexivity.
  - reflexivity.
  - lia.
  - intros b Hb. lia.
  - left. reflexivity.
Defined.
